(** * Circadian lending ML services: a shallow embedding

    The development follows the Python sources of [ml-services]:

    - [api/ml_server.py]: the rate arithmetic of [calculate_circadian_rate],
      [MLPredictor.load_models], [MLPredictor.predict_chronotype],
      [MLPredictor.create_engineered_features];
    - [models/pattern_recognizer.py]: [ChronotypeClassifier.load_data],
      [extract_autoencoder_features], [create_time_based_features] and
      [prepare_data] up to the combined features;
    - [models/circadian_autoencoder.py]: [encode_patterns] and the cleaning
      step of [load_training_data];
    - [data-generation/van_der_pol_generator.py]: [ChronotypeGenerator],
      [generate_circadian_oscillation], [generate_population_data];
    - [data-generation/synthetic_user_patterns.py]: [BehavioralPatternEnhancer],
      [enhance_population_data], [create_ml_features] up to the conversion
      to arrays.

    Conventions.  Python [int] is [Z].  Python exceptions are the [Raise] branch
    of [Result], carrying the name of the exception class.  The feature
    engineer works on binary64 numbers ([PrimFloat]), since its results are
    compared bit for bit.  The generator and the perturbations are read over
    exact rationals ([Q]): their properties are about lengths, indices and
    ranges, and the transcendental functions and the ODE integrator they call
    are parameters.  Random draws come from an explicit [RandomSource] that is
    read through a counter. *)

From Stdlib Require Import ZArith QArith Qround Qabs Lia Lqa Bool List String.
From Stdlib Require Import Floats.PrimFloat Floats.SpecFloat Floats.FloatOps.
From Stdlib Require Uint63.
From stdpp Require Import base option list gmap.

Import ListNotations.
Local Close Scope Q_scope.
Local Open Scope Z_scope.

(** ** Python results and exceptions *)

Inductive Result (A : Type) : Type :=
| Ok (a : A)
| Raise (cls : string).
Arguments Ok {A} a.
Arguments Raise {A} cls.

Definition is_ok {A} (r : Result A) : bool :=
  match r with Ok _ => true | Raise _ => false end.

(** [dict.get(key, default)] *)
Definition dict_get `{Countable K} {V} (d : gmap K V) (key : K) (dflt : V) : V :=
  default dflt (d !! key).

(** ** RateAdjustmentEngine: api/ml_server.py, calculate_circadian_rate *)

Module RateAdjustment.

(** The dictionary returned by [MLPredictor.predict_chronotype], with the
    keys the route reads.  [confidence] is a number the route only copies,
    so its type is left open. *)
Record ChronotypeResult (C : Type) : Type := {
  cr_success : option bool;          (* 'success', when present *)
  cr_chronotype : Z;                 (* 'chronotype' *)
  cr_chronotype_name : option string;(* 'chronotype_name', when present *)
  cr_confidence : option C           (* 'confidence', when present *)
}.
Arguments cr_success {C}.
Arguments cr_chronotype {C}.
Arguments cr_chronotype_name {C}.
Arguments cr_confidence {C}.

(** The JSON body of the answer. *)
Record RateResponse (C : Type) : Type := {
  adjusted_rate : Z;
  base_rate : Z;
  chronotype : Z;
  chronotype_name : string;
  confidence : C;
  hourly_multiplier : Z;
  behavior_multiplier : Z;
  current_hour : Z
}.
Arguments adjusted_rate {C}.
Arguments base_rate {C}.
Arguments chronotype {C}.
Arguments chronotype_name {C}.
Arguments confidence {C}.
Arguments hourly_multiplier {C}.
Arguments behavior_multiplier {C}.
Arguments current_hour {C}.

Definition hourly_multipliers : gmap Z Z :=
  list_to_map
    [ (2, 8500); (3, 8500); (4, 8500); (5, 8500); (6, 8500);
      (9, 11000); (10, 11000); (11, 11000); (12, 11000); (13, 11000);
      (14, 11000); (15, 11000); (16, 11000); (17, 11000);
      (22, 9000); (23, 9000); (0, 9000); (1, 9000) ].

Definition chronotype_adjustments : gmap Z Z :=
  list_to_map [ (0, 9500); (1, 10000); (2, 10500) ].

Section Route.
Context {C : Type}.
(** The literal [0.5] the route reports when the prediction failed. *)
Variable half : C.

(** Lines 203-244 of the route, after the request fields were read. *)
Definition calculate_circadian_rate
    (base_rate current_hour : Z) (chronotype_result : ChronotypeResult C)
    : RateResponse C :=
  let '(chronotype, confidence) :=
    if negb (default false (cr_success chronotype_result)) then (1, half)
    else (cr_chronotype chronotype_result,
          default half (cr_confidence chronotype_result)) in
  let hourly_multiplier := dict_get hourly_multipliers current_hour 10000 in
  let behavior_multiplier := dict_get chronotype_adjustments chronotype 10000 in
  let adjusted_rate :=
    (base_rate * hourly_multiplier * behavior_multiplier) / (10000 * 10000) in
  {| adjusted_rate := adjusted_rate;
     base_rate := base_rate;
     chronotype := chronotype;
     chronotype_name :=
       default "Intermediate"%string (cr_chronotype_name chronotype_result);
     confidence := confidence;
     hourly_multiplier := hourly_multiplier;
     behavior_multiplier := behavior_multiplier;
     current_hour := current_hour |}.

(** A successful prediction with the given label and confidence. *)
Definition prediction (label : Z) (c : C) : ChronotypeResult C :=
  {| cr_success := Some true; cr_chronotype := label;
     cr_chronotype_name := None; cr_confidence := Some c |}.

(** [adjustRate(baseRate, hour, label, confidence)]: the rate the route
    answers for a prediction [label] made with confidence [c]. *)
Definition adjustRate (baseRate hour label : Z) (c : C) : Z :=
  adjusted_rate (calculate_circadian_rate baseRate hour (prediction label c)).
End Route.

(** The two multiplier tables as the specification words them. *)
Definition H (hour : Z) : Z :=
  if (2 <=? hour) && (hour <=? 6) then 8500
  else if ((9 <=? hour) && (hour <=? 13)) || ((14 <=? hour) && (hour <=? 17)) then 11000
  else if (hour =? 22) || (hour =? 23) || (hour =? 0) || (hour =? 1) then 9000
  else 10000.

Definition Cmul (label : Z) : Z :=
  if label =? 0 then 9500 else if label =? 1 then 10000
  else if label =? 2 then 10500 else 10000.

End RateAdjustment.

(** ** FeatureEngineer: the two feature functions *)

Module Features.
Local Open Scope float_scope.
Local Set Warnings "-inexact-float".

(** *** The numpy kernels the two functions call

    Sums follow numpy's pairwise summation; [np.mean] of an empty array is
    [0/0 = nan] (numpy warns, it does not raise), [np.argmax] and
    [np.argmin] of an empty sequence raise [ValueError]. *)

Definition float_of_Z (z : Z) : float :=
  if (z <? 0)%Z then - of_uint63 (Uint63.of_Z (- z))
  else of_uint63 (Uint63.of_Z z).

Definition float_of_nat (n : nat) : float := float_of_Z (Z.of_nat n).

(** The sum of the eight accumulators of a block. *)
Definition sum8 (r : list float) : float :=
  match r with
  | [r0; r1; r2; r3; r4; r5; r6; r7] =>
      ((r0 + r1) + (r2 + r3)) + ((r4 + r5) + (r6 + r7))
  | _ => nan
  end.

(** The unrolled loop of a block: each round adds the next eight items to
    the eight accumulators. *)
Fixpoint unrolled (rounds : nat) (r a : list float) : list float * list float :=
  match rounds with
  | O => (r, a)
  | S rounds' =>
      unrolled rounds' (zip_with PrimFloat.add r (firstn 8 a)) (skipn 8 a)
  end.

(** A block of 8 to 128 items: eight accumulators over the multiples of
    eight, their sum, then the items that are left, one by one. *)
Definition block_sum (a : list float) : float :=
  let '(r, rest) := unrolled (length a / 8 - 1) (firstn 8 a) (skipn 8 a) in
  fold_left PrimFloat.add rest (sum8 r).

(** [DOUBLE_pairwise_sum] of numpy: fewer than eight items are added from
    left to right, a block is summed with eight accumulators, and a longer
    array is cut at [n / 2] rounded down to a multiple of eight.  [fuel]
    bounds the depth of the cuts; the length of the array is enough. *)
Fixpoint pairwise_sum (fuel : nat) (a : list float) : float :=
  let n := length a in
  if (n <? 8)%nat then fold_left PrimFloat.add a 0
  else if (n <=? 128)%nat then block_sum a
  else
    match fuel with
    | O => block_sum a
    | S fuel' =>
        let n2 := (n / 2 - (n / 2) mod 8)%nat in
        pairwise_sum fuel' (firstn n2 a) + pairwise_sum fuel' (skipn n2 a)
    end.

(** [np.sum] of a float64 array: the reduction starts from [0.0] and adds
    the pairwise sum of the array. *)
Definition np_sum (xs : list float) : float := 0 + pairwise_sum (length xs) xs.

Definition np_mean (xs : list float) : float :=
  np_sum xs / float_of_nat (length xs).

Definition np_std (xs : list float) : float :=
  let m := np_mean xs in
  sqrt (np_mean (map (fun x => (x - m) * (x - m)) xs)).

(** numpy's scan: keep the first maximum, a [nan] is maximal and stops it. *)
Fixpoint argmax_scan (mp : float) (ind i : nat) (xs : list float) : nat :=
  match xs with
  | [] => ind
  | x :: xs' =>
      if is_nan mp then ind
      else if negb (x <=? mp) then argmax_scan x i (S i) xs'
      else argmax_scan mp ind (S i) xs'
  end.

Fixpoint argmin_scan (mp : float) (ind i : nat) (xs : list float) : nat :=
  match xs with
  | [] => ind
  | x :: xs' =>
      if is_nan mp then ind
      else if negb (mp <=? x) then argmin_scan x i (S i) xs'
      else argmin_scan mp ind (S i) xs'
  end.

Definition np_argmax (xs : list float) : Result nat :=
  match xs with
  | [] => Raise "ValueError"
  | x :: xs' => Ok (argmax_scan x 0 1 xs')
  end.

Definition np_argmin (xs : list float) : Result nat :=
  match xs with
  | [] => Raise "ValueError"
  | x :: xs' => Ok (argmin_scan x 0 1 xs')
  end.

(** [np.pad(xs, (0, k), 'constant', constant_values=c)] *)
Definition np_pad (xs : list float) (k : nat) (c : float) : list float :=
  xs ++ repeat c k.

(** The Python slice [xs[lo:hi]] for [0 <= lo <= hi]. *)
Definition slice (lo hi : nat) (xs : list float) : list float :=
  firstn (hi - lo) (skipn lo xs).

(** [np.zeros(k)] *)
Definition np_zeros (k : nat) : list float := repeat 0 k.

(** *** The nine features of a window

    Lines 137-151 of [api/ml_server.py] and lines 89-103 of
    [models/pattern_recognizer.py] are the same text; [window_features] is
    that text. *)
Definition window_features (pattern_24h : list float) : Result (list float) :=
  match np_argmax pattern_24h with
  | Raise e => Raise e
  | Ok peak_hour =>
    match np_argmin pattern_24h with
    | Raise e => Raise e
    | Ok trough_hour =>
      let mean_activity := np_mean pattern_24h in
      let std_activity := np_std pattern_24h in
      let morning_activity := np_mean (slice 6 12 pattern_24h) in
      let evening_activity := np_mean (slice 18 24 pattern_24h) in
      let night_activity := np_mean (slice 0 6 pattern_24h) in
      Ok [ float_of_nat peak_hour; float_of_nat trough_hour;
           mean_activity; std_activity;
           morning_activity; evening_activity; night_activity;
           morning_activity / (evening_activity + 1e-6);
           float_of_Z (Z.of_nat peak_hour - 12) / 12 ]
    end
  end.

(** [MLPredictor.create_engineered_features] (serving). *)
Definition create_engineered_features (pattern : list float) : Result (list float) :=
  if (length pattern =? 0)%nat then Ok (np_zeros 9)
  else
    let pattern_24h :=
      if (24 <=? length pattern)%nat then firstn 24 pattern else pattern in
    let pattern_24h :=
      if (length pattern_24h <? 24)%nat then
        let mean_val := np_mean pattern_24h in
        np_pad pattern_24h (24 - length pattern_24h) mean_val
      else pattern_24h in
    window_features pattern_24h.

(** One row of [ChronotypeClassifier.create_time_based_features] (training). *)
Definition time_based_features_row (pattern : list float) : Result (list float) :=
  let pattern_24h :=
    if (24 <=? length pattern)%nat then firstn 24 pattern else pattern in
  window_features pattern_24h.

(** [ChronotypeClassifier.create_time_based_features]: the loop over the
    rows of [X]; the first exception ends it. *)
Fixpoint create_time_based_features (X : list (list float))
    : Result (list (list float)) :=
  match X with
  | [] => Ok []
  | pattern :: X' =>
      match time_based_features_row pattern with
      | Raise e => Raise e
      | Ok user_features =>
          match create_time_based_features X' with
          | Raise e => Raise e
          | Ok features => Ok (user_features :: features)
          end
      end
  end.

(** A ten-sample window, the short window of the specification's example. *)
Definition window10 : list float :=
  [0.25; 0.75; 0.25; 0.75; 0.25; 0.75; 0.25; 0.75; 0.25; 0.75].

End Features.

(** *** Windows as the server receives them

    The functions of [Features] read a window as float64 numbers, which is
    what numpy makes of a list with a [float] item.  A JSON array of
    integers alone becomes an int64 array, and [np.pad] keeps that dtype;
    [Windows] follows [create_engineered_features] on lists of either
    kind. *)

Module Windows.
Import Features.
Local Open Scope float_scope.
Local Set Warnings "-inexact-float".

(** An item of a JSON array of numbers as Python reads it: an [int] or a
    [float].  Integers are read within the int64 range. *)
Inductive Number : Type :=
| PyInt (z : Z)
| PyFloat (x : float).

(** A one-dimensional numpy array, by its dtype. *)
Inductive Array : Type :=
| Int64 (zs : list Z)
| Float64 (xs : list float).

Definition is_int (v : Number) : bool :=
  match v with
  | PyInt _ => true
  | PyFloat _ => false
  end.

Definition int_item (v : Number) : Z :=
  match v with
  | PyInt z => z
  | PyFloat _ => 0%Z
  end.

(** [float(v)] *)
Definition float_item (v : Number) : float :=
  match v with
  | PyInt z => float_of_Z z
  | PyFloat x => x
  end.

(** [np.asarray(pattern)]: a list of [int] items alone gives an int64
    array, one [float] item makes the whole array float64; the empty list
    gives an empty float64 array. *)
Definition np_asarray (pattern : list Number) : Array :=
  match pattern with
  | [] => Float64 []
  | _ :: _ =>
      if forallb is_int pattern then Int64 (map int_item pattern)
      else Float64 (map float_item pattern)
  end.

(** [a.astype(float)], the conversion the float64 reductions apply to an
    int64 array. *)
Definition astype_float (a : Array) : list float :=
  match a with
  | Int64 zs => map float_of_Z zs
  | Float64 xs => xs
  end.

(** The C conversion of a double to int64: the fraction is dropped.  A
    [nan], an infinity or a value beyond int64 answers [-2^63], as the
    x86-64 instruction does. *)
Definition int_of_float (x : float) : Z :=
  let z :=
    match Prim2SF x with
    | S754_zero _ => 0%Z
    | S754_finite s m e =>
        let magnitude :=
          if (0 <=? e)%Z then (Z.pos m * 2 ^ e)%Z else (Z.pos m / 2 ^ (- e))%Z in
        if s then (- magnitude)%Z else magnitude
    | S754_infinity _ => (- 2 ^ 63)%Z
    | S754_nan => (- 2 ^ 63)%Z
    end in
  if ((- 2 ^ 63 <=? z) && (z <? 2 ^ 63))%Z then z else (- 2 ^ 63)%Z.

(** [np.pad(a, (0, k), 'constant', constant_values=c)]: the result keeps
    the dtype of [a], so on an int64 array the constant is converted. *)
Definition np_pad (a : Array) (k : nat) (c : float) : Array :=
  match a with
  | Int64 zs => Int64 (zs ++ repeat (int_of_float c) k)
  | Float64 xs => Float64 (Features.np_pad xs k c)
  end.

(** [np.mean] of an array. *)
Definition np_mean (a : Array) : float := Features.np_mean (astype_float a).

(** [np.argmax] and [np.argmin] on integers: the first extremum. *)
Fixpoint int_argmax_scan (mp : Z) (ind i : nat) (zs : list Z) : nat :=
  match zs with
  | [] => ind
  | z :: zs' =>
      if (mp <? z)%Z then int_argmax_scan z i (S i) zs'
      else int_argmax_scan mp ind (S i) zs'
  end.

Fixpoint int_argmin_scan (mp : Z) (ind i : nat) (zs : list Z) : nat :=
  match zs with
  | [] => ind
  | z :: zs' =>
      if (z <? mp)%Z then int_argmin_scan z i (S i) zs'
      else int_argmin_scan mp ind (S i) zs'
  end.

Definition np_argmax (a : Array) : Result nat :=
  match a with
  | Int64 [] => Raise "ValueError"
  | Int64 (z :: zs) => Ok (int_argmax_scan z 0 1 zs)
  | Float64 xs => Features.np_argmax xs
  end.

Definition np_argmin (a : Array) : Result nat :=
  match a with
  | Int64 [] => Raise "ValueError"
  | Int64 (z :: zs) => Ok (int_argmin_scan z 0 1 zs)
  | Float64 xs => Features.np_argmin xs
  end.

(** Lines 137-153 of [api/ml_server.py] on an array of either dtype: the
    extrema are taken on the array, the means and the deviation on its
    values as float64. *)
Definition window_features (pattern_24h : Array) : Result (list float) :=
  match np_argmax pattern_24h with
  | Raise e => Raise e
  | Ok peak_hour =>
    match np_argmin pattern_24h with
    | Raise e => Raise e
    | Ok trough_hour =>
      let values := astype_float pattern_24h in
      let mean_activity := Features.np_mean values in
      let std_activity := np_std values in
      let morning_activity := Features.np_mean (slice 6 12 values) in
      let evening_activity := Features.np_mean (slice 18 24 values) in
      let night_activity := Features.np_mean (slice 0 6 values) in
      Ok [ float_of_nat peak_hour; float_of_nat trough_hour;
           mean_activity; std_activity;
           morning_activity; evening_activity; night_activity;
           morning_activity / (evening_activity + 1e-6);
           float_of_Z (Z.of_nat peak_hour - 12) / 12 ]
    end
  end.

(** [MLPredictor.create_engineered_features] on the Python list the route
    passes. *)
Definition create_engineered_features (pattern : list Number) : Result (list float) :=
  if (length pattern =? 0)%nat then Ok (np_zeros 9)
  else
    let pattern_24h :=
      if (24 <=? length pattern)%nat then firstn 24 pattern else pattern in
    let pattern_24h :=
      if (length pattern_24h <? 24)%nat then
        let mean_val := np_mean (np_asarray pattern_24h) in
        np_pad (np_asarray pattern_24h) (24 - length pattern_24h) mean_val
      else np_asarray pattern_24h in
    window_features pattern_24h.

End Windows.

(** ** ChronotypeInferenceAdapter: api/ml_server.py, class MLPredictor *)

Module Inference.
Import Features.
Local Open Scope float_scope.

(** A loaded keras model or fitted scaler, seen through the one call made
    on it ([predict], [transform]) on a single row; the call may raise. *)
Definition Capability : Type := list float -> Result (list float).

(** [CircadianAutoencoder], the fields [encode_patterns] reads. *)
Record CircadianAutoencoder : Type := {
  encoder : option Capability;
  scaler : Capability
}.

(** [CircadianAutoencoder.encode_patterns] *)
Definition encode_patterns (self : CircadianAutoencoder) (X : list float)
    : Result (list float) :=
  match encoder self with
  | None => Raise "ValueError"
  | Some enc =>
      match scaler self X with
      | Raise e => Raise e
      | Ok X_scaled => enc X_scaled
      end
  end.

Record MLPredictor : Type := {
  autoencoder : option CircadianAutoencoder;
  classifier_model : option Capability;
  classifier_scaler : option Capability;
  models_loaded : bool
}.

(** The predictor before anything was loaded, as [__init__] sets it. *)
Definition unloaded : MLPredictor :=
  {| autoencoder := None; classifier_model := None;
     classifier_scaler := None; models_loaded := false |}.

(** What [load_models] finds: the autoencoder object after its
    [load_model()] call and whether that call raised; for the classifier
    and the scaler, [None] when the file does not exist, else the outcome
    of loading it. *)
Record ModelFiles : Type := {
  autoencoder_object : CircadianAutoencoder;
  autoencoder_load_raises : bool;
  classifier_file : option (Result Capability);
  scaler_file : option (Result Capability)
}.

(** [MLPredictor.__init__] followed by [MLPredictor.load_models]. *)
Definition load_models (files : ModelFiles) : MLPredictor :=
  let a := Some (autoencoder_object files) in
  if autoencoder_load_raises files then
    {| autoencoder := a; classifier_model := None;
       classifier_scaler := None; models_loaded := false |}
  else
    match classifier_file files, scaler_file files with
    | Some c, Some sc =>
        match c with
        | Raise _ =>
            {| autoencoder := a; classifier_model := None;
               classifier_scaler := None; models_loaded := false |}
        | Ok cm =>
            match sc with
            | Raise _ =>
                {| autoencoder := a; classifier_model := Some cm;
                   classifier_scaler := None; models_loaded := false |}
            | Ok s =>
                {| autoencoder := a; classifier_model := Some cm;
                   classifier_scaler := Some s; models_loaded := true |}
            end
        end
    | _, _ =>
        {| autoencoder := a; classifier_model := None;
           classifier_scaler := None; models_loaded := false |}
    end.

(** The dictionary [predict_chronotype] returns. *)
Record Prediction : Type := {
  error : option string;
  chronotype : Z;
  chronotype_name : option string;
  confidence : option float;
  success : bool
}.

Definition failure (msg : string) : Prediction :=
  {| error := Some msg; chronotype := 1; chronotype_name := None;
     confidence := None; success := false |}.

Definition fmax (a b : float) : float :=
  if is_nan a then a else if is_nan b then b else if a <? b then b else a.

Definition np_max (xs : list float) : Result float :=
  match xs with
  | [] => Raise "ValueError"
  | x :: xs' => Ok (fold_left fmax xs' x)
  end.

Definition chronotype_names : list string :=
  ["Early"; "Intermediate"; "Late"]%string.

(** A method call on an attribute that may be [None]. *)
Definition call (c : option Capability) (x : list float) : Result (list float) :=
  match c with
  | None => Raise "AttributeError"
  | Some f => f x
  end.

(** The body of the [try] of [predict_chronotype]. *)
Definition predict_try (self : MLPredictor) (activity_pattern : list float)
    : Result Prediction :=
  let activity_array :=
    if (length activity_pattern <? 720)%nat then
      let mean_val := np_mean activity_pattern in
      np_pad activity_pattern (720 - length activity_pattern) mean_val
    else if (720 <? length activity_pattern)%nat then firstn 720 activity_pattern
    else activity_pattern in
  let autoencoder_features :=
    match autoencoder self with
    | Some ae =>
        match encoder ae with
        | Some _ => encode_patterns ae activity_array
        | None => Ok (firstn 32 activity_array)
        end
    | None => Ok (firstn 32 activity_array)
    end in
  match autoencoder_features with
  | Raise e => Raise e
  | Ok autoencoder_features =>
    match create_engineered_features
            (if (24 <=? length activity_pattern)%nat
             then firstn 24 activity_pattern else activity_pattern) with
    | Raise e => Raise e
    | Ok engineered_features =>
      let combined_features := autoencoder_features ++ engineered_features in
      match call (classifier_scaler self) combined_features with
      | Raise e => Raise e
      | Ok scaled_features =>
        match call (classifier_model self) scaled_features with
        | Raise e => Raise e
        | Ok prediction0 =>
          match np_argmax prediction0, np_max prediction0 with
          | Ok chronotype, Ok confidence =>
              match nth_error chronotype_names chronotype with
              | None => Raise "IndexError"
              | Some name =>
                  Ok {| error := None; chronotype := Z.of_nat chronotype;
                        chronotype_name := Some name;
                        confidence := Some confidence; success := true |}
              end
          | Raise e, _ => Raise e
          | _, Raise e => Raise e
          end
        end
      end
    end
  end.

(** [MLPredictor.predict_chronotype]; the [error] of a caught exception is
    rendered by its class name. *)
Definition predict_chronotype (self : MLPredictor) (activity_pattern : list float)
    : Prediction :=
  if negb (models_loaded self) then failure "Models not loaded"
  else
    match predict_try self activity_pattern with
    | Ok result => result
    | Raise e => failure e
    end.

End Inference.

(** ** Random draws and loops with exceptions *)

Module Py.
Local Open Scope Q_scope.

(** The process-wide generator of [np.random], made explicit: three streams
    of raw draws, read at the position of a counter that every draw
    advances.  [random_sample] is the uniform draw of [0, 1).  Its upper
    end is admitted in [unit_draws]: in binary64 the largest draw,
    [1 - 2^-53], already makes [low + (high - low) * u] round to [high]
    ([uniform(1, 3)] answers [3.0]), which over the rationals is the draw
    [1]. *)
Record RandomSource : Type := {
  random_sample : nat -> Q;
  standard_normal : nat -> Q;
  random_index : nat -> nat
}.

Definition unit_draws (rs : RandomSource) : Prop :=
  forall k : nat, 0 <= random_sample rs k /\ random_sample rs k <= 1.

(** A computation that reads the generator and may raise. *)
Definition M (A : Type) : Type := nat -> Result (A * nat).

Definition ret {A} (a : A) : M A := fun k => Ok (a, k).

Definition bind {A B} (m : M A) (f : A -> M B) : M B :=
  fun k => match m k with
           | Ok (a, k') => f a k'
           | Raise e => Raise e
           end.

Definition raise {A} (e : string) : M A := fun _ => Raise e.

Notation "x <- m ;; f" := (bind m (fun x => f))
  (at level 100, m at next level, right associativity).

(** [for x in xs: s = body(x, s)] *)
Fixpoint for_each {A S} (xs : list A) (body : A -> S -> M S) (s : S) : M S :=
  match xs with
  | [] => ret s
  | x :: xs' => s' <- body x s ;; for_each xs' body s'
  end.

(** A step that reads no random draw. *)
Definition lift {A} (r : Result A) : M A :=
  fun k => match r with
           | Ok a => Ok (a, k)
           | Raise e => Raise e
           end.

(** [range(lo, hi)] *)
Definition range (lo hi : Z) : list Z :=
  map (fun i : nat => (lo + Z.of_nat i)%Z) (seq 0 (Z.to_nat (hi - lo))).

(** [enumerate(xs)] *)
Definition enumerate {A} (xs : list A) : list (Z * A) :=
  combine (map Z.of_nat (seq 0 (length xs))) xs.

(** The position an index [i] denotes in an array of [len] cells: negative
    indices count from the end, anything else out of range raises. *)
Definition py_index (len : nat) (i : Z) : Result nat :=
  if (0 <=? i)%Z && (i <? Z.of_nat len)%Z then Ok (Z.to_nat i)
  else if (- Z.of_nat len <=? i)%Z && (i <? 0)%Z then Ok (Z.to_nat (Z.of_nat len + i))
  else Raise "IndexError".

(** [a[i]] *)
Definition get_item (a : list Q) (i : Z) : Result Q :=
  match py_index (length a) i with
  | Raise e => Raise e
  | Ok j => match a !! j with
            | Some x => Ok x
            | None => Raise "IndexError"
            end
  end.

(** [a[i] = v] *)
Definition set_item (a : list Q) (i : Z) (v : Q) : Result (list Q) :=
  match py_index (length a) i with
  | Raise e => Raise e
  | Ok j => Ok (<[j := v]> a)
  end.

(** [a[i] = f(a[i])], the shape of [a[i] *= c], [a[i] += n] and
    [a[i] = np.clip(a[i], lo, hi)]. *)
Definition modify_item (a : list Q) (i : Z) (f : Q -> Q) : Result (list Q) :=
  match get_item a i with
  | Raise e => Raise e
  | Ok x => set_item a i (f x)
  end.

Definition Qlt_bool (a b : Q) : bool := negb (Qle_bool b a).

(** Every exception the computation can raise is of class [cls]. *)
Definition raises_only {A} (cls : string) (m : M A) : Prop :=
  forall k e, m k = Raise e -> e = cls.

(** [int(x)]: truncation towards zero *)
Definition py_int (x : Q) : Z :=
  if Qle_bool 0 x then Qfloor x else Qceiling x.

(** [np.clip(x, lo, hi)] *)
Definition np_clip (x lo hi : Q) : Q :=
  let y := if Qlt_bool lo x then x else lo in
  if Qlt_bool y hi then y else hi.

Definition np_sum (xs : list Q) : Q := fold_left Qplus xs 0.

Definition np_mean (xs : list Q) : Q := np_sum xs / inject_Z (Z.of_nat (length xs)).

Section Draws.
Variable rs : RandomSource.

(** [np.random.uniform(low, high)] *)
Definition uniform (low high : Q) : M Q :=
  fun k => Ok (low + (high - low) * random_sample rs k, S k).

(** [np.random.normal(loc, scale)]; a negative [scale] raises. *)
Definition normal (loc scale : Q) : M Q :=
  fun k => if Qlt_bool scale 0 then Raise "ValueError"
           else Ok (loc + scale * standard_normal rs k, S k).

(** [np.random.normal(loc, scale, size)] *)
Fixpoint normal_array (loc scale : Q) (size : nat) : M (list Q) :=
  match size with
  | O => if Qlt_bool scale 0 then raise "ValueError" else ret []
  | S size' =>
      x <- normal loc scale ;;
      xs <- normal_array loc scale size' ;;
      ret (x :: xs)
  end.

(** [np.random.randint(low, high)], a draw of [low, high). *)
Definition randint (low high : Z) : M Z :=
  fun k => if (high <=? low)%Z then Raise "ValueError"
           else Ok ((low + Z.of_nat (random_index rs k) mod (high - low))%Z, S k).

(** [np.random.choice(a)], one element of a list. *)
Definition choice_one {A} (a : list A) : M A :=
  fun k => match nth_error a (random_index rs k mod length a) with
           | Some x => Ok (x, S k)
           | None => Raise "ValueError"
           end.

(** Draw [n] elements one after the other, removing each from the list. *)
Fixpoint sample {A} (a : list A) (n : nat) : M (list A) :=
  match n with
  | O => ret []
  | S n' =>
      fun k =>
        let i := (random_index rs k mod length a)%nat in
        match nth_error a i with
        | None => Raise "ValueError"
        | Some x =>
            (xs <- sample (firstn i a ++ skipn (S i) a) n' ;; ret (x :: xs)) (S k)
        end
  end.

(** [np.random.choice(a, size, replace=False)] for a list [a]: a negative
    size, an empty [a] with a non-zero size and a size above [len(a)] raise
    [ValueError]. *)
Definition choice {A} (a : list A) (size : Z) : M (list A) :=
  if (size <? 0)%Z then raise "ValueError"
  else if (length a =? 0)%nat && negb (size =? 0)%Z then raise "ValueError"
  else if (Z.of_nat (length a) <? size)%Z then raise "ValueError"
  else sample a (Z.to_nat size).

End Draws.
End Py.

(** ** OscillatorSimulator and PopulationGenerator:
       data-generation/van_der_pol_generator.py *)

Inductive Chronotype : Type := early | intermediate | late.

#[global]
Instance Chronotype_eq_dec : EqDecision Chronotype.
Proof. solve_decision. Defined.

Record Parameters : Type := {
  p_mu : Q;
  p_tau : Q;
  p_noise_level : Q;
  p_days : Z
}.

Record RawSolution : Type := {
  raw_time : list Q;
  raw_x : list Q;
  raw_y : list Q;
  raw_activity : list Q
}.

(** One travel record of [travel_events]. *)
Record TravelEvent : Type := {
  ev_day : Z;
  ev_timezone_shift : Z;
  ev_recovery_days : Z
}.

(** The per-user dictionary: the keys written by the generator, and the keys
    the enhancer adds later ([None] while absent). *)
Record UserData : Type := {
  chronotype : Chronotype;
  user_id : Z;
  time_hours : list Z;
  activity_level : list Q;
  parameters : Parameters;
  raw_solution : RawSolution;
  activity_level_with_social_jetlag : option (list Q);
  activity_level_with_stress : option (list Q);
  stress_events : option (list Z);
  activity_level_with_seasonal : option (list Q);
  travel_events : option (list TravelEvent);
  activity_level_with_jetlag : option (list Q)
}.

Module Generator.
Import Py.
Local Open Scope Q_scope.

(** [CircadianVanDerPolGenerator]: the fields set by [__init__]. *)
Record CircadianVanDerPolGenerator : Type := {
  mu : Q;
  tau : Q;
  omega : Q;
  noise_level : Q
}.

(** The dictionary [generate_circadian_oscillation] returns. *)
Record Oscillation : Type := {
  o_time_hours : list Z;
  o_activity_level : list Q;
  o_parameters : Parameters;
  o_raw_solution : RawSolution
}.

Record ChronotypeDistribution : Type := {
  d_early : Z;
  d_late : Z;
  d_intermediate : Z
}.

Record Metadata : Type := {
  total_users : Z;
  days_per_user : Z;
  chronotype_distribution : ChronotypeDistribution;
  generation_timestamp : string
}.

(** [population_data].  The [users] dictionary is keyed by
    [f'user_{user_id:04d}'], the zero-padded decimal writing of [user_id];
    different ids give different keys, and the model keys by [user_id]. *)
Record Population : Type := {
  users : gmap Z UserData;
  metadata : Metadata
}.

(** [np.linspace(start, stop, num)] *)
Definition np_linspace (start stop : Q) (num : Z) : Result (list Q) :=
  if (num <? 0)%Z then Raise "ValueError"
  else
    let n := Z.to_nat num in
    let step := (stop - start) / inject_Z (num - 1) in
    Ok (map (fun k : nat =>
               if (1 <? n)%nat && (k =? n - 1)%nat then stop
               else inject_Z (Z.of_nat k) * step + start)
            (seq 0 n)).

Definition Qmin_list (x : Q) (xs : list Q) : Q :=
  fold_left (fun m y => if Qlt_bool y m then y else m) xs x.

Definition Qmax_list (x : Q) (xs : list Q) : Q :=
  fold_left (fun m y => if Qlt_bool m y then y else m) xs x.

(** [np.min], [np.max]: a reduction of an empty array raises. *)
Definition np_min (xs : list Q) : Result Q :=
  match xs with
  | [] => Raise "ValueError"
  | x :: xs' => Ok (Qmin_list x xs')
  end.

Definition np_max (xs : list Q) : Result Q :=
  match xs with
  | [] => Raise "ValueError"
  | x :: xs' => Ok (Qmax_list x xs')
  end.

(** [a[mask]] for a boolean mask of the length of [a] *)
Fixpoint select (mask : list bool) (a : list Q) : list Q :=
  match mask, a with
  | b :: mask', x :: a' => if b then x :: select mask' a' else select mask' a'
  | _, _ => []
  end.

(** The loop that averages the samples of each hour. *)
Fixpoint hourly_averages (hours : list Z) (t activity_with_noise : list Q)
    : list Z * list Q :=
  match hours with
  | [] => ([], [])
  | hour :: hours' =>
      let hour_indices :=
        map (fun tk => Qle_bool (inject_Z hour) tk
                       && Qlt_bool tk (inject_Z (hour + 1))) t in
      let '(hourly_times, hourly_activities) :=
        hourly_averages hours' t activity_with_noise in
      if existsb id hour_indices then
        (hour :: hourly_times,
         np_mean (select hour_indices activity_with_noise) :: hourly_activities)
      else (hourly_times, hourly_activities)
  end.

(** [range(n)] for a Python integer *)
Definition range_Z (n : Z) : list Z := map Z.of_nat (seq 0 (Z.to_nat n)).

Section Numerics.
(** [np.pi], and [scipy.integrate.odeint]: the state of the solution at each
    index of the time grid. *)
Variable np_pi : Q.
Variable odeint : (Q * Q -> Q -> Q * Q) -> Q * Q -> list Q -> nat -> Q * Q.
Variable rs : RandomSource.
(** [np.datetime64('now').astype(str)] *)
Variable now : string.

(** [CircadianVanDerPolGenerator.__init__] *)
Definition new_generator (mu tau noise_level : Q) : CircadianVanDerPolGenerator :=
  {| mu := mu; tau := tau; omega := 2 * np_pi / tau; noise_level := noise_level |}.

(** [van_der_pol_equations] *)
Definition van_der_pol_equations (self : CircadianVanDerPolGenerator)
    (state : Q * Q) (t : Q) : Q * Q :=
  let '(x, y) := state in
  let dxdt := omega self * y in
  let dydt := omega self * (mu self * (1 - x ^ 2) * y - x) in
  (dxdt, dydt).

(** [generate_circadian_oscillation].  Over [Q] a constant solution
    normalises to [0] where numpy answers [nan]; nothing below reads the
    values of the samples. *)
Definition generate_circadian_oscillation (self : CircadianVanDerPolGenerator)
    (days hours_per_day : Z) : M Oscillation :=
  let total_hours := (days * hours_per_day)%Z in
  match np_linspace 0 (inject_Z total_hours) (total_hours * 4) with
  | Raise e => raise e
  | Ok t =>
    let initial_state := (1, 0) in
    let solution :=
      map (odeint (van_der_pol_equations self) initial_state t) (seq 0 (length t)) in
    let activity_raw := map fst solution in
    match np_min activity_raw, np_max activity_raw with
    | Raise e, _ => raise e
    | _, Raise e => raise e
    | Ok lo, Ok hi =>
      let activity_normalized := map (fun x => (x - lo) / (hi - lo)) activity_raw in
      let activity_normalized := map (fun x => 0.1 + 0.9 * x) activity_normalized in
      noise <- normal_array rs 0 (noise_level self) (length activity_normalized) ;;
      let activity_with_noise :=
        map (fun '(a, n) => np_clip (a + n) 0.05 1.0)
            (combine activity_normalized noise) in
      let '(hourly_times, hourly_activities) :=
        hourly_averages (range_Z total_hours) t activity_with_noise in
      ret {| o_time_hours := hourly_times;
             o_activity_level := hourly_activities;
             o_parameters := {| p_mu := mu self; p_tau := tau self;
                                p_noise_level := noise_level self;
                                p_days := days |};
             o_raw_solution := {| raw_time := t;
                                  raw_x := map fst solution;
                                  raw_y := map snd solution;
                                  raw_activity := activity_with_noise |} |}
    end
  end.

(** [ChronotypeGenerator]: the three static constructors. *)
Definition generate_early_chronotype : M CircadianVanDerPolGenerator :=
  mu <- uniform rs 0.8 1.5 ;;
  tau <- uniform rs 22.5 23.8 ;;
  noise <- uniform rs 0.05 0.12 ;;
  ret (new_generator mu tau noise).

Definition generate_late_chronotype : M CircadianVanDerPolGenerator :=
  mu <- uniform rs 1.2 2.5 ;;
  tau <- uniform rs 24.2 25.5 ;;
  noise <- uniform rs 0.08 0.18 ;;
  ret (new_generator mu tau noise).

Definition generate_intermediate_chronotype : M CircadianVanDerPolGenerator :=
  mu <- uniform rs 0.9 1.8 ;;
  tau <- uniform rs 23.8 24.2 ;;
  noise <- uniform rs 0.06 0.15 ;;
  ret (new_generator mu tau noise).

Definition chronotype_generator (c : Chronotype) : M CircadianVanDerPolGenerator :=
  match c with
  | early => generate_early_chronotype
  | late => generate_late_chronotype
  | intermediate => generate_intermediate_chronotype
  end.

(** The dictionary [{'chronotype': c, 'user_id': user_id, **data}] *)
Definition new_user (c : Chronotype) (user_id : Z) (data : Oscillation) : UserData :=
  {| chronotype := c; user_id := user_id;
     time_hours := o_time_hours data;
     activity_level := o_activity_level data;
     parameters := o_parameters data;
     raw_solution := o_raw_solution data;
     activity_level_with_social_jetlag := None;
     activity_level_with_stress := None;
     stress_events := None;
     activity_level_with_seasonal := None;
     travel_events := None;
     activity_level_with_jetlag := None |}.

(** One of the three loops [for i in range(n): ...] of
    [generate_population_data]; the state is [users] and [user_id]. *)
Definition generate_class (c : Chronotype) (days n : Z)
    (st : gmap Z UserData * Z) : M (gmap Z UserData * Z) :=
  for_each (range_Z n)
    (fun (i : Z) '(users, user_id) =>
       generator <- chronotype_generator c ;;
       data <- generate_circadian_oscillation generator days 24 ;;
       ret (<[user_id := new_user c user_id data]> users, (user_id + 1)%Z))
    st.

(** [generate_population_data].  [int(0.25 * n_users)] is read on the exact
    product; the binary64 product is exact for fewer than [2^53] users. *)
Definition generate_population_data (n_users days : Z) : M Population :=
  let n_early := py_int (0.25 * inject_Z n_users) in
  let n_late := py_int (0.25 * inject_Z n_users) in
  let n_intermediate := (n_users - n_early - n_late)%Z in
  let metadata :=
    {| total_users := n_users;
       days_per_user := days;
       chronotype_distribution :=
         {| d_early := n_early; d_late := n_late;
            d_intermediate := n_intermediate |};
       generation_timestamp := now |} in
  let user_id := 0%Z in
  st <- generate_class early days n_early (∅, user_id) ;;
  st <- generate_class late days n_late st ;;
  st <- generate_class intermediate days n_intermediate st ;;
  ret {| users := fst st; metadata := metadata |}.

End Numerics.

(** No key from [user_id] on is in use yet. *)
Definition fresh (users : gmap Z UserData) (user_id : Z) : Prop :=
  forall j : Z, (user_id <= j)%Z -> users !! j = None.

(** The number of users of a class in the [users] dictionary. *)
Definition class_count (c : Chronotype) (users : gmap Z UserData) : nat :=
  size (filter (fun kv : Z * UserData => chronotype (snd kv) = c) users).

(** A generator state for examples: every draw is [1/2], [0] or index [0],
    [pi] is [22/7] and the integrator answers a saw-tooth. *)
Definition example_source : RandomSource :=
  {| random_sample := fun _ => 1 # 2;
     standard_normal := fun _ => 0;
     random_index := fun _ => 0%nat |}.

Definition example_odeint (f : Q * Q -> Q -> Q * Q) (y0 : Q * Q) (t : list Q)
    (k : nat) : Q * Q :=
  (inject_Z (Z.of_nat (k mod 7)), 0).

End Generator.

(** ** BehavioralPerturbationStack:
       data-generation/synthetic_user_patterns.py, BehavioralPatternEnhancer *)

Module Perturbation.
Import Py.
Local Open Scope Q_scope.

(** The physiological band. *)
Definition in_range (x : Q) : Prop := 0.05 <= x /\ x <= 1.0.

(** [user_data[key] = value], for the keys the enhancer writes. *)
Definition with_social_jetlag (u : UserData) (activity : list Q) : UserData :=
  {| chronotype := chronotype u; user_id := user_id u;
     time_hours := time_hours u; activity_level := activity_level u;
     parameters := parameters u; raw_solution := raw_solution u;
     activity_level_with_social_jetlag := Some activity;
     activity_level_with_stress := activity_level_with_stress u;
     stress_events := stress_events u;
     activity_level_with_seasonal := activity_level_with_seasonal u;
     travel_events := travel_events u;
     activity_level_with_jetlag := activity_level_with_jetlag u |}.

Definition with_stress (u : UserData) (activity : list Q) (days : list Z) : UserData :=
  {| chronotype := chronotype u; user_id := user_id u;
     time_hours := time_hours u; activity_level := activity_level u;
     parameters := parameters u; raw_solution := raw_solution u;
     activity_level_with_social_jetlag := activity_level_with_social_jetlag u;
     activity_level_with_stress := Some activity;
     stress_events := Some days;
     activity_level_with_seasonal := activity_level_with_seasonal u;
     travel_events := travel_events u;
     activity_level_with_jetlag := activity_level_with_jetlag u |}.

Definition with_seasonal (u : UserData) (activity : list Q) : UserData :=
  {| chronotype := chronotype u; user_id := user_id u;
     time_hours := time_hours u; activity_level := activity_level u;
     parameters := parameters u; raw_solution := raw_solution u;
     activity_level_with_social_jetlag := activity_level_with_social_jetlag u;
     activity_level_with_stress := activity_level_with_stress u;
     stress_events := stress_events u;
     activity_level_with_seasonal := Some activity;
     travel_events := travel_events u;
     activity_level_with_jetlag := activity_level_with_jetlag u |}.

Definition with_jetlag (u : UserData) (activity : list Q) (events : list TravelEvent)
    : UserData :=
  {| chronotype := chronotype u; user_id := user_id u;
     time_hours := time_hours u; activity_level := activity_level u;
     parameters := parameters u; raw_solution := raw_solution u;
     activity_level_with_social_jetlag := activity_level_with_social_jetlag u;
     activity_level_with_stress := activity_level_with_stress u;
     stress_events := stress_events u;
     activity_level_with_seasonal := activity_level_with_seasonal u;
     travel_events := Some events;
     activity_level_with_jetlag := Some activity |}.

(** [stress_factors] *)
Definition stress_factors (c : Chronotype) : Q :=
  match c with
  | early => 0.05
  | intermediate => 0.10
  | late => 0.15
  end.

(** [seasonal_strength] *)
Definition seasonal_strengths (c : Chronotype) : Q :=
  match c with
  | early => 0.05
  | intermediate => 0.10
  | late => 0.20
  end.

(** [a'] has the length of [a] and stays in the band if [a] is in it. *)
Definition kept (a a' : list Q) : Prop :=
  length a' = length a /\ (Forall in_range a -> Forall in_range a').

(** When the transform returned, the derived signal it stored under [field]
    has the length of the base signal and lies in the band. *)
Definition derived_in_band (u : UserData) (field : UserData -> option (list Q))
    (r : Result (UserData * nat)) : Prop :=
  forall u' k', r = Ok (u', k') ->
    exists out, field u' = Some out
                /\ length out = length (activity_level u)
                /\ Forall in_range out.

(** [len(a) // 24] *)
Definition days_of {A} (a : list A) : Z := (Z.of_nat (length a) / 24)%Z.

Section Enhancer.
Variable np_pi : Q.
Variable np_cos : Q -> Q.
Variable rs : RandomSource.

(** [add_social_jetlag] *)
Definition add_social_jetlag (user_data : UserData) : M UserData :=
  let activity := activity_level user_data in
  let time_hours := time_hours user_data in
  activity <-
    for_each (enumerate time_hours)
      (fun '(i, hour) activity =>
         let day_of_week := ((hour / 24) mod 7)%Z in
         let hour_of_day := (hour mod 24)%Z in
         if (day_of_week =? 5)%Z || (day_of_week =? 6)%Z
            || ((day_of_week =? 4)%Z && (18 <=? hour_of_day)%Z) then
           shift <- uniform rs 1 3 ;;
           let phase_shift := py_int shift in
           if (i + phase_shift <? Z.of_nat (length activity))%Z then
             v <- lift (if (i + phase_shift <? Z.of_nat (length activity))%Z
                        then get_item activity (i + phase_shift)
                        else get_item activity i) ;;
             lift (set_item activity i v)
           else ret activity
         else ret activity)
      activity ;;
  ret (with_social_jetlag user_data activity).

(** The three statements on [activity[i]] shared by the stress and the
    travel loops: scale down, add noise, clip. *)
Definition disturb (activity : list Q) (i : Z) (factor scale : Q) : M (list Q) :=
  activity <- lift (modify_item activity i (fun x => x * factor)) ;;
  noise <- normal rs 0 scale ;;
  activity <- lift (modify_item activity i (fun x => x + noise)) ;;
  lift (modify_item activity i (fun x => np_clip x 0.05 1.0)).

(** [add_stress_patterns] *)
Definition add_stress_patterns (user_data : UserData) : M UserData :=
  let activity := activity_level user_data in
  let stress_level := stress_factors (chronotype user_data) in
  u <- uniform rs 0.05 0.10 ;;
  let n_stress_days := py_int (u * inject_Z (days_of activity)) in
  stress_days <- choice rs (range 0 (days_of activity)) n_stress_days ;;
  activity <-
    for_each stress_days
      (fun stress_day activity =>
         let start_hour := (stress_day * 24)%Z in
         let end_hour := Z.min (start_hour + 24) (Z.of_nat (length activity)) in
         for_each (range start_hour end_hour)
           (fun i activity =>
              disturb activity i (1 - stress_level) (stress_level * 0.5))
           activity)
      activity ;;
  ret (with_stress user_data activity stress_days).

(** [add_seasonal_variation] *)
Definition add_seasonal_variation (user_data : UserData) : M UserData :=
  let activity := activity_level user_data in
  let time_hours := time_hours user_data in
  let seasonal_strength := seasonal_strengths (chronotype user_data) in
  activity <-
    for_each (enumerate time_hours)
      (fun '(i, hour) activity =>
         let day_of_year := ((hour / 24) mod 365)%Z in
         let seasonal_factor :=
           1 + seasonal_strength
               * np_cos (2 * np_pi * inject_Z (day_of_year - 80) / 365) in
         activity <- lift (modify_item activity i (fun x => x * seasonal_factor)) ;;
         lift (modify_item activity i (fun x => np_clip x 0.05 1.0)))
      activity ;;
  ret (with_seasonal user_data activity).

(** The body of [for trip_day in trip_days] of [add_travel_jetlag]; the
    state is [activity] and [travel_events]. *)
Definition travel_trip (total_days trip_day : Z) (st : list Q * list TravelEvent)
    : M (list Q * list TravelEvent) :=
  let '(activity, travel_events) := st in
  timezone_shift <- choice_one rs [-8; -6; -3; 3; 6; 8]%Z ;;
  recovery_days <- randint rs 3 8 ;;
  let travel_events :=
    travel_events ++ [ {| ev_day := trip_day;
                          ev_timezone_shift := timezone_shift;
                          ev_recovery_days := recovery_days |} ] in
  activity <-
    for_each (range 0 recovery_days)
      (fun recovery_day activity =>
         let day_idx := (trip_day + recovery_day)%Z in
         if (day_idx <? total_days)%Z then
           let start_hour := (day_idx * 24)%Z in
           let end_hour := Z.min (start_hour + 24) (Z.of_nat (length activity)) in
           let recovery_factor := inject_Z recovery_day / inject_Z recovery_days in
           let shift_strength :=
             inject_Z (Z.abs timezone_shift) * (1 - recovery_factor) / 8 in
           for_each (range start_hour end_hour)
             (fun hour_idx activity =>
                disturb activity hour_idx (1 - shift_strength * 0.3)
                        (shift_strength * 0.2))
             activity
         else ret activity)
      activity ;;
  ret (activity, travel_events).

(** [add_travel_jetlag] *)
Definition add_travel_jetlag (user_data : UserData) (n_trips : Z) : M UserData :=
  let activity := activity_level user_data in
  let time_hours := time_hours user_data in
  let total_days := days_of time_hours in
  if (0 <? n_trips)%Z && (7 <? total_days)%Z then
    trip_days <- choice rs (range 7 (total_days - 7))
                        (Z.min n_trips (total_days / 10)) ;;
    st <- for_each trip_days (travel_trip total_days) (activity, []) ;;
    ret (with_jetlag user_data (fst st) (snd st))
  else
    ret (with_jetlag user_data activity []).

End Enhancer.

(** A user with [days] days of hourly data, every sample at [1/2]. *)
Definition flat_user (days : nat) : UserData :=
  {| chronotype := late; user_id := 0;
     time_hours := map Z.of_nat (seq 0 (days * 24));
     activity_level := repeat (1 # 2) (days * 24);
     parameters := {| p_mu := 1; p_tau := 24; p_noise_level := 0.1;
                      p_days := Z.of_nat days |};
     raw_solution := {| raw_time := []; raw_x := []; raw_y := [];
                        raw_activity := [] |};
     activity_level_with_social_jetlag := None;
     activity_level_with_stress := None;
     stress_events := None;
     activity_level_with_seasonal := None;
     travel_events := None;
     activity_level_with_jetlag := None |}.

(** Draws for examples: uniform draws at [1/2], normal draws at [1],
    indices counting up. *)
Definition example_draws : RandomSource :=
  {| random_sample := fun _ => 1 # 2;
     standard_normal := fun _ => 1;
     random_index := fun k => k |}.

(** A stand-in for the cosine in examples. *)
Definition example_cos (x : Q) : Q := 1 # 2.

End Perturbation.

(** ** The rate route on a prediction: api/ml_server.py, lines 203-244 *)

Module RateRoute.
Import RateAdjustment Inference.

(** The dictionary of [predict_chronotype] as the route reads it. *)
Definition as_chronotype_result (p : Prediction) : ChronotypeResult float :=
  {| cr_success := Some (success p);
     cr_chronotype := Inference.chronotype p;
     cr_chronotype_name := Inference.chronotype_name p;
     cr_confidence := Inference.confidence p |}.

(** The route [/calculate_circadian_rate] from the prediction on (lines
    203-244), for the three request fields. *)
Definition circadian_rate (self : MLPredictor) (base_rate current_hour : Z)
    (user_activity : list float) : RateResponse float :=
  calculate_circadian_rate 0.5%float base_rate current_hour
    (as_chronotype_result (predict_chronotype self user_activity)).
End RateRoute.

(** ** The arrays handed to the models: api/ml_server.py, predict_chronotype *)

Module Serving.
Import Features Inference.

(** A capability that, like a fitted [StandardScaler] or a keras model,
    accepts rows of one width only and raises [ValueError] on any other. *)
Definition checked (n : nat) (f : Capability) : Capability :=
  fun x => if (length x =? n)%nat then f x else Raise "ValueError".

(** The predictor with the autoencoder's scaler replaced by one that
    accepts 720 values only. *)
Definition with_encoder_input_checked (self : MLPredictor) : MLPredictor :=
  {| autoencoder :=
       (fun ae => {| encoder := encoder ae; scaler := checked 720 (scaler ae) |})
         <$> autoencoder self;
     classifier_model := classifier_model self;
     classifier_scaler := classifier_scaler self;
     models_loaded := models_loaded self |}.

(** The predictor with the classifier's scaler replaced by one that accepts
    [n] values only. *)
Definition with_scaler_checked (n : nat) (self : MLPredictor) : MLPredictor :=
  {| autoencoder := autoencoder self;
     classifier_model := classifier_model self;
     classifier_scaler := checked n <$> classifier_scaler self;
     models_loaded := models_loaded self |}.

(** No encoder is loaded: [self.autoencoder and self.autoencoder.encoder]
    is false. *)
Definition no_encoder (self : MLPredictor) : Prop :=
  match autoencoder self with
  | None => True
  | Some ae => encoder ae = None
  end.

(** The array [predict_chronotype] builds from the pattern (lines 82-89). *)
Definition activity_array (activity_pattern : list float) : list float :=
  if (length activity_pattern <? 720)%nat then
    np_pad activity_pattern (720 - length activity_pattern) (np_mean activity_pattern)
  else if (720 <? length activity_pattern)%nat then firstn 720 activity_pattern
  else activity_pattern.

(** A predictor as the server has it when the classifier was trained on the
    nine engineered features alone and no autoencoder is on disk: both
    capabilities pass their input on, the scaler accepts nine values. *)
Definition nine_feature_predictor : MLPredictor :=
  {| autoencoder := Some {| encoder := None; scaler := Ok |};
     classifier_model := Some Ok;
     classifier_scaler := Some (checked 9 Ok);
     models_loaded := true |}.

(** A predictor with a classifier that always answers the same three
    probabilities and no encoder. *)
Definition example_predictor : MLPredictor :=
  {| autoencoder := None;
     classifier_model := Some (fun _ => Ok [0.125; 0.75; 0.125]%float);
     classifier_scaler := Some Ok;
     models_loaded := true |}.

(** A loaded predictor without encoder whose classifier answers the first
    three values of the row it is given, so that its answer depends on the
    samples, and a pattern of 721 samples for it. *)
Definition echo_predictor : MLPredictor :=
  {| autoencoder := None;
     classifier_model := Some (fun x => Ok (firstn 3 x));
     classifier_scaler := Some Ok;
     models_loaded := true |}.

Definition long_pattern : list float :=
  ([0.25; 0.75; 0.5] ++ repeat 0.5 717 ++ [0.875])%float.
End Serving.

(** ** Training features: models/pattern_recognizer.py, prepare_data *)

Module Training.
Import Features Inference.

(** [self.feature_type] *)
Inductive FeatureType : Type := ft_autoencoder | ft_raw.

(** Apply a per-row capability to every row; the first exception ends it. *)
Fixpoint each_row (f : Capability) (X : list (list float)) : Result (list (list float)) :=
  match X with
  | [] => Ok []
  | row :: X' =>
      match f row with
      | Raise e => Raise e
      | Ok row' =>
          match each_row f X' with
          | Raise e => Raise e
          | Ok rows => Ok (row' :: rows)
          end
      end
  end.

(** [CircadianAutoencoder.encode_patterns] on a matrix: the scaler, then the
    encoder, each on every row. *)
Definition encode_matrix (self : CircadianAutoencoder) (X : list (list float))
    : Result (list (list float)) :=
  match encoder self with
  | None => Raise "ValueError"
  | Some enc =>
      match each_row (scaler self) X with
      | Raise e => Raise e
      | Ok X_scaled => each_row enc X_scaled
      end
  end.

(** [ChronotypeClassifier.extract_autoencoder_features].  [loaded] is what
    constructing the autoencoder and calling [load_model()] gives: an
    exception, [None] when it returned [False], the loaded object when it
    returned [True]. *)
Definition extract_autoencoder_features
    (loaded : Result (option CircadianAutoencoder)) (X : list (list float))
    : Result (FeatureType * list (list float)) :=
  match loaded with
  | Raise e => Raise e
  | Ok (Some ae) =>
      match encode_matrix ae X with
      | Raise e => Raise e
      | Ok encoded_features => Ok (ft_autoencoder, encoded_features)
      end
  | Ok None => Ok (ft_raw, X)
  end.

(** [np.hstack] of two matrices: rows are joined, the numbers of rows must
    agree. *)
Definition np_hstack (A B : list (list float)) : Result (list (list float)) :=
  if (length A =? length B)%nat then Ok (zip_with app A B)
  else Raise "ValueError".

(** [ChronotypeClassifier.prepare_data] up to [combined_features] (lines
    118-124), for a matrix [X] with at least one row. *)
Definition combined_features
    (loaded : Result (option CircadianAutoencoder)) (X : list (list float))
    : Result (list (list float)) :=
  match extract_autoencoder_features loaded X with
  | Raise e => Raise e
  | Ok (feature_type, autoencoder_features) =>
      match create_time_based_features X with
      | Raise e => Raise e
      | Ok engineered_features =>
          match feature_type with
          | ft_autoencoder => np_hstack autoencoder_features engineered_features
          | ft_raw => Ok engineered_features
          end
      end
  end.

End Training.

(** ** Data cleaning: models/pattern_recognizer.py, load_data, and
       models/circadian_autoencoder.py, load_training_data *)

Module Cleaning.
Local Open Scope float_scope.

(** [np.nan_to_num(x, nan=0.5)] on one number: [nan] becomes [0.5], and,
    with the defaults of [posinf] and [neginf], the infinities become the
    largest and the smallest finite binary64 number. *)
Definition nan_to_num (x : float) : float :=
  if is_nan x then 0.5
  else if x =? infinity then 0x1.fffffffffffffp+1023
  else if x =? neg_infinity then -0x1.fffffffffffffp+1023
  else x.

(** [np.any(np.isnan(X))] *)
Definition any_isnan (X : list (list float)) : bool :=
  existsb (existsb is_nan) X.

(** Lines 50-51 of [ChronotypeClassifier.load_data], the same as lines
    107-109 of [CircadianAutoencoder.load_training_data]. *)
Definition clean (X : list (list float)) : list (list float) :=
  if any_isnan X then map (map nan_to_num) X else X.

(** [X.min()] and [X.max()], which [load_training_data] prints: a
    reduction over a matrix without any element raises [ValueError]; the
    values are only printed. *)
Definition min_max (X : list (list float)) : Result unit :=
  match concat X with
  | [] => Raise "ValueError"
  | _ :: _ => Ok tt
  end.

Section Loading.
(** [np.bincount], which both functions evaluate on the labels for the
    line they print about the class counts: what it raises (a negative
    label gives [ValueError]) leaves the function. *)
Variable np_bincount : list Z -> Result (list Z).

(** [ChronotypeClassifier.load_data]: [file] is the content of the file at
    [data_path], the arrays [basic_circadian] and [chronotype_labels], when
    it exists. *)
Definition load_data (file : option (list (list float) * list Z))
    : Result (list (list float) * list Z) :=
  match file with
  | None => Raise "FileNotFoundError"
  | Some (X, y) =>
      let X := clean X in
      match np_bincount y with
      | Raise e => Raise e
      | Ok _ => Ok (X, y)
      end
  end.

(** [CircadianAutoencoder.load_training_data] *)
Definition load_training_data (file : option (list (list float) * list Z))
    : Result (list (list float) * list Z) :=
  match file with
  | None => Raise "FileNotFoundError"
  | Some (X, chronotype_labels) =>
      match np_bincount chronotype_labels with
      | Raise e => Raise e
      | Ok _ =>
          match min_max X with
          | Raise e => Raise e
          | Ok _ => Ok (clean X, chronotype_labels)
          end
      end
  end.

End Loading.

(** [np.isinf(x)] *)
Definition is_inf (x : float) : bool := (x =? infinity) || (x =? neg_infinity).

(** [np.bincount] for examples, on labels that are small integers: a
    negative label raises [ValueError], otherwise the counts of the values
    0, ..., max. *)
Definition example_bincount (y : list Z) : Result (list Z) :=
  if existsb (fun l => (l <? 0)%Z) y then Raise "ValueError"
  else
    Ok (map (fun v : nat => Z.of_nat (count_occ Z.eq_dec y (Z.of_nat v)))
            (seq 0 (Z.to_nat (fold_right Z.max (-1)%Z y + 1)))).

End Cleaning.

(** ** What the generators draw: data-generation/van_der_pol_generator.py *)

Module Sampler.
Import Py Generator Perturbation.
Local Open Scope Q_scope.

(** The ranges the three constructors of [ChronotypeGenerator] draw from:
    (low, high) for [mu], [tau] and the noise level.  A draw lies within
    its range with both ends: [np.random.uniform] can answer [high]. *)
Definition mu_range (c : Chronotype) : Q * Q :=
  match c with
  | early => (0.8, 1.5)
  | late => (1.2, 2.5)
  | intermediate => (0.9, 1.8)
  end.

Definition tau_range (c : Chronotype) : Q * Q :=
  match c with
  | early => (22.5, 23.8)
  | late => (24.2, 25.5)
  | intermediate => (23.8, 24.2)
  end.

Definition noise_range (c : Chronotype) : Q * Q :=
  match c with
  | early => (0.05, 0.12)
  | late => (0.08, 0.18)
  | intermediate => (0.06, 0.15)
  end.

Definition within (r : Q * Q) (x : Q) : Prop := fst r <= x /\ x <= snd r.

(** [solution[:, 0]] as [generate_circadian_oscillation] computes it (lines
    53-63), and the condition that it is not constant.  On a constant
    column line 66 divides by zero and numpy fills the signal with [nan];
    what is said about the values of the samples is said under this
    condition. *)
Definition solution_x
    (odeint : (Q * Q -> Q -> Q * Q) -> Q * Q -> list Q -> nat -> Q * Q)
    (self : CircadianVanDerPolGenerator) (days : Z) : list Q :=
  match np_linspace 0 (inject_Z (days * 24)) (days * 24 * 4) with
  | Raise _ => []
  | Ok t => map fst (map (odeint (van_der_pol_equations self) (1, 0) t)
                         (seq 0 (length t)))
  end.

Definition not_constant (xs : list Q) : Prop :=
  exists x y, In x xs /\ In y xs /\ ~ x == y.

(** What a freshly generated user of class [c] with key [j] looks like.
    The samples are in the band when the [x] column of the user's own
    solution, kept under [raw_solution], is not constant. *)
Definition generated_user (c : Chronotype) (days j : Z) (u : UserData) : Prop :=
  chronotype u = c
  /\ user_id u = j
  /\ time_hours u = map Z.of_nat (seq 0 (Z.to_nat (days * 24)))
  /\ length (activity_level u) = Z.to_nat (days * 24)
  /\ (not_constant (raw_x (raw_solution u)) -> Forall in_range (activity_level u))
  /\ within (mu_range c) (p_mu (parameters u))
  /\ within (tau_range c) (p_tau (parameters u))
  /\ within (noise_range c) (p_noise_level (parameters u))
  /\ p_days (parameters u) = days
  /\ activity_level_with_social_jetlag u = None
  /\ activity_level_with_stress u = None
  /\ activity_level_with_seasonal u = None
  /\ activity_level_with_jetlag u = None.

(** An integrator for examples: explicit Euler steps along the time grid,
    the state kept to multiples of [2^-20]. *)
Definition round20 (x : Q) : Q := Qfloor (x * 1048576) # 1048576.

Fixpoint euler_steps (f : Q * Q -> Q -> Q * Q) (y : Q * Q) (t0 : Q) (ts : list Q)
    (k : nat) : Q * Q :=
  match k, ts with
  | S k', t1 :: ts' =>
      let '(dx, dy) := f y t0 in
      let h := t1 - t0 in
      euler_steps f (round20 (fst y + h * dx), round20 (snd y + h * dy)) t1 ts' k'
  | _, _ => y
  end.

Definition euler_odeint (f : Q * Q -> Q -> Q * Q) (y0 : Q * Q) (t : list Q) (k : nat)
    : Q * Q :=
  match t with
  | [] => y0
  | t0 :: ts => euler_steps f y0 t0 ts k
  end.

(** Two dictionaries agree on every key outside [lo, hi). *)
Definition agree_outside (lo hi : Z) (users users' : gmap Z UserData) : Prop :=
  forall j : Z, (j < lo \/ hi <= j)%Z -> users' !! j = users !! j.

(** The class of the user with key [j] in a population of [n_users]. *)
Definition class_of_id (n_users j : Z) : Chronotype :=
  if (j <? n_users / 4)%Z then early
  else if (j <? 2 * (n_users / 4))%Z then late
  else intermediate.
End Sampler.

(** ** The event logs of the perturbations:
       data-generation/synthetic_user_patterns.py *)

Module Events.
Import Py Perturbation.
Local Open Scope Q_scope.

(** A record of [travel_events] as the loop writes it for [total_days]. *)
Definition travel_event_ok (total_days : Z) (ev : TravelEvent) : Prop :=
  (7 <= ev_day ev < total_days - 7)%Z
  /\ In (ev_timezone_shift ev) [-8; -6; -3; 3; 6; 8]%Z
  /\ (3 <= ev_recovery_days ev <= 7)%Z.

(** The test of [add_social_jetlag] for Friday from 18:00, Saturday and
    Sunday, days counted from hour 0. *)
Definition is_weekend (hour : Z) : bool :=
  let day_of_week := ((hour / 24) mod 7)%Z in
  let hour_of_day := (hour mod 24)%Z in
  (day_of_week =? 5)%Z || (day_of_week =? 6)%Z
  || ((day_of_week =? 4)%Z && (18 <=? hour_of_day)%Z).

Section Seasonal.
Variable np_pi : Q.
Variable np_cos : Q -> Q.
(** The factor [add_seasonal_variation] applies at [hour]. *)
Definition seasonal_factor (c : Chronotype) (hour : Z) : Q :=
  let day_of_year := ((hour / 24) mod 365)%Z in
  1 + seasonal_strengths c * np_cos (2 * np_pi * inject_Z (day_of_year - 80) / 365).
End Seasonal.
End Events.

(** ** The enhancement of a population:
       data-generation/synthetic_user_patterns.py, enhance_population_data *)

Module Pipeline.
Import Py Perturbation.

(** [d[key] = value] on a dictionary kept as its items in insertion order:
    an existing key keeps its place, a new key goes last. *)
Fixpoint dict_set {K V} `{EqDecision K} (d : list (K * V)) (key : K) (value : V)
    : list (K * V) :=
  match d with
  | [] => [(key, value)]
  | (k, v) :: d' =>
      if decide (k = key) then (key, value) :: d'
      else (k, v) :: dict_set d' key value
  end.

(** What the enhancement leaves of a user and what it adds: the base fields
    as they were, four derived signals of the length of the base signal (in
    the band when the base signal is), and the two event logs. *)
Definition enhanced_from (u e : UserData) : Prop :=
  chronotype e = chronotype u /\ user_id e = user_id u
  /\ time_hours e = time_hours u /\ activity_level e = activity_level u
  /\ parameters e = parameters u /\ raw_solution e = raw_solution u
  /\ (exists a b c d,
        activity_level_with_social_jetlag e = Some a
        /\ activity_level_with_stress e = Some b
        /\ activity_level_with_seasonal e = Some c
        /\ activity_level_with_jetlag e = Some d
        /\ kept (activity_level u) a /\ kept (activity_level u) b
        /\ kept (activity_level u) c /\ kept (activity_level u) d)
  /\ (exists days events, stress_events e = Some days /\ travel_events e = Some events).

(** A history of ten to fourteen days. *)
Definition short_history (u : UserData) : Prop :=
  (10 <= days_of (time_hours u) <= 14)%Z.

Section Enhance.
Variable np_pi : Q.
Variable np_cos : Q -> Q.
Variable rs : RandomSource.
Context {K : Type} `{EqDecision K}.

(** The four calls of the loop body of [enhance_population_data] on the
    copy of one user. *)
Definition enhance_user (user_data : UserData) : M UserData :=
  let enhanced_user_data := user_data in
  enhanced_user_data <- add_social_jetlag rs enhanced_user_data ;;
  enhanced_user_data <- add_stress_patterns rs enhanced_user_data ;;
  enhanced_user_data <- add_seasonal_variation np_pi np_cos enhanced_user_data ;;
  add_travel_jetlag rs enhanced_user_data 2.

(** [enhance_population_data], on the [users] dictionary.  The copy of
    [population_data] is shallow, so [enhanced_data['users']] is the very
    dictionary the loop walks: the state of the loop is that one dictionary,
    and storing under a key already there neither moves nor adds an item. *)
Definition enhance_population_data (users : list (K * UserData))
    : M (list (K * UserData)) :=
  for_each users
    (fun '(user_id, user_data) users =>
       enhanced_user_data <- enhance_user user_data ;;
       ret (dict_set users user_id enhanced_user_data))
    users.

End Enhance.

(** Dictionaries for examples: users with one and fifteen days of data,
    users with one and twelve days, and two users with fifteen days each. *)
Definition example_users : list (Z * UserData) :=
  [(0, flat_user 1); (1, flat_user 15)].

Definition even_users : list (Z * UserData) :=
  [(0, flat_user 15); (1, flat_user 15)].

Definition short_users : list (Z * UserData) :=
  [(0, flat_user 1); (1, flat_user 12)].

End Pipeline.

(** ** The feature lists:
       data-generation/synthetic_user_patterns.py, create_ml_features *)

Module MLFeatures.
Import Py Perturbation Pipeline.

(** One entry of [features['user_metadata']]. *)
Record UserMetadata : Type := {
  m_user_id : Z;
  m_chronotype : Chronotype;
  m_mu : Q;
  m_tau : Q;
  m_noise_level : Q;
  n_stress_events : nat;
  n_travel_events : nat
}.

(** The dictionary [features], its seven lists as they are before the
    conversion to numpy arrays. *)
Record Features : Type := {
  basic_circadian : list (list Q);
  f_with_social_jetlag : list (list Q);
  f_with_stress : list (list Q);
  f_with_seasonal : list (list Q);
  f_with_jetlag : list (list Q);
  chronotype_labels : list Z;
  user_metadata : list UserMetadata
}.

Definition no_features : Features :=
  {| basic_circadian := []; f_with_social_jetlag := []; f_with_stress := [];
     f_with_seasonal := []; f_with_jetlag := []; chronotype_labels := [];
     user_metadata := [] |}.

(** [chronotype_map] *)
Definition chronotype_map (c : Chronotype) : Z :=
  match c with
  | early => 0
  | intermediate => 1
  | late => 2
  end.

(** [user_data[key]] for a key that may be absent. *)
Definition item {A} (field : option A) : Result A :=
  match field with
  | Some v => Ok v
  | None => Raise "KeyError"
  end.

(** The body of the loop of [create_ml_features] (lines 209-228). *)
Definition add_user_features (user_data : UserData) (features : Features)
    : Result Features :=
  match item (activity_level_with_social_jetlag user_data) with
  | Raise e => Raise e
  | Ok social =>
    match item (activity_level_with_stress user_data) with
    | Raise e => Raise e
    | Ok stress =>
      match item (activity_level_with_seasonal user_data) with
      | Raise e => Raise e
      | Ok seasonal =>
        match item (activity_level_with_jetlag user_data) with
        | Raise e => Raise e
        | Ok jetlag =>
            Ok {| basic_circadian :=
                    basic_circadian features ++ [activity_level user_data];
                  chronotype_labels :=
                    chronotype_labels features
                    ++ [chronotype_map (chronotype user_data)];
                  f_with_social_jetlag := f_with_social_jetlag features ++ [social];
                  f_with_stress := f_with_stress features ++ [stress];
                  f_with_seasonal := f_with_seasonal features ++ [seasonal];
                  f_with_jetlag := f_with_jetlag features ++ [jetlag];
                  user_metadata :=
                    user_metadata features
                    ++ [ {| m_user_id := user_id user_data;
                            m_chronotype := chronotype user_data;
                            m_mu := p_mu (parameters user_data);
                            m_tau := p_tau (parameters user_data);
                            m_noise_level := p_noise_level (parameters user_data);
                            n_stress_events :=
                              length (default [] (stress_events user_data));
                            n_travel_events :=
                              length (default [] (travel_events user_data)) |} ] |}
        end
      end
    end
  end.

(** The loop of [create_ml_features] (lines 208-228) on the items of
    [enhanced_data['users']]. *)
Fixpoint features_loop {K} (users : list (K * UserData)) (features : Features)
    : Result Features :=
  match users with
  | [] => Ok features
  | (_, user_data) :: users' =>
      match add_user_features user_data features with
      | Raise e => Raise e
      | Ok features' => features_loop users' features'
      end
  end.

(** [np.array(rows)] on a list of one-dimensional arrays: rows of one
    length make a matrix, rows of different lengths raise [ValueError]
    (numpy 1.24 and later). *)
Definition np_array (rows : list (list Q)) : Result (list (list Q)) :=
  match rows with
  | [] => Ok []
  | row :: rows' =>
      if forallb (fun r => (length r =? length row)%nat) rows' then Ok rows
      else Raise "ValueError"
  end.

Section Conversion.
(** [np.bincount], evaluated on the labels for the last line the function
    prints; what it raises leaves the function. *)
Variable np_bincount : list Z -> Result (list Z).

(** [create_ml_features]: the loop, the conversion of the five signal lists
    (lines 231-232) and the line on the class counts (line 238). *)
Definition create_ml_features {K} (users : list (K * UserData)) : Result Features :=
  match features_loop users no_features with
  | Raise e => Raise e
  | Ok features =>
    match np_array (basic_circadian features) with
    | Raise e => Raise e
    | Ok basic =>
      match np_array (f_with_social_jetlag features) with
      | Raise e => Raise e
      | Ok social =>
        match np_array (f_with_stress features) with
        | Raise e => Raise e
        | Ok stress =>
          match np_array (f_with_seasonal features) with
          | Raise e => Raise e
          | Ok seasonal =>
            match np_array (f_with_jetlag features) with
            | Raise e => Raise e
            | Ok jetlag =>
              match np_bincount (chronotype_labels features) with
              | Raise e => Raise e
              | Ok _ =>
                  Ok {| basic_circadian := basic;
                        f_with_social_jetlag := social;
                        f_with_stress := stress;
                        f_with_seasonal := seasonal;
                        f_with_jetlag := jetlag;
                        chronotype_labels := chronotype_labels features;
                        user_metadata := user_metadata features |}
              end
            end
          end
        end
      end
    end
  end.

End Conversion.

(** The five signal matrices have the row lengths [lens]. *)
Definition row_lengths (f : Features) (lens : list nat) : Prop :=
  map length (basic_circadian f) = lens
  /\ map length (f_with_social_jetlag f) = lens
  /\ map length (f_with_stress f) = lens
  /\ map length (f_with_seasonal f) = lens
  /\ map length (f_with_jetlag f) = lens.

End MLFeatures.

(** * Properties *)

Module RateAdjustmentFacts.
Import RateAdjustment.

Lemma hourly_table (hour : Z) :
  0 <= hour <= 23 -> dict_get hourly_multipliers hour 10000 = H hour.
Proof.
  intros Hh.
  assert (Hc : In hour (map Z.of_nat (seq 0 24))).
  { apply in_map_iff. exists (Z.to_nat hour). split; [lia|].
    apply in_seq. lia. }
  cbn in Hc.
  repeat (destruct Hc as [<- | Hc]; [vm_compute; reflexivity|]).
  destruct Hc.
Qed.

Lemma chronotype_table (label : Z) :
  0 <= label <= 2 -> dict_get chronotype_adjustments label 10000 = Cmul label.
Proof.
  intros Hl.
  assert (Hc : label = 0 \/ label = 1 \/ label = 2) by lia.
  destruct Hc as [-> | [-> | ->]]; vm_compute; reflexivity.
Qed.

(** C2.  For every base rate [>= 0], hour in [0,23] and label in {0,1,2},
    [adjustRate] is the integer floor of
    [baseRate * H hour * Cmul label / 10^8], where [H] and [Cmul] are the
    tables of the specification; it answers 8075 for (10000, 3, 0) and
    11550 for (10000, 10, 2), whatever the confidence. *)
Theorem adjustRate_formula :
  forall (C : Type) (half c : C) (baseRate hour label : Z),
    0 <= baseRate -> 0 <= hour <= 23 -> 0 <= label <= 2 ->
    adjustRate half baseRate hour label c
      = (baseRate * H hour * Cmul label) / 10 ^ 8
    /\ (10 ^ 8 * adjustRate half baseRate hour label c
          <= baseRate * H hour * Cmul label
          < 10 ^ 8 * (adjustRate half baseRate hour label c + 1))
    /\ adjustRate half 10000 3 0 c = 8075
    /\ adjustRate half 10000 10 2 c = 11550.
Proof.
  intros C half c baseRate hour label Hb Hh Hl.
  assert (E : adjustRate half baseRate hour label c
              = (baseRate * H hour * Cmul label) / 10 ^ 8).
  { change (adjustRate half baseRate hour label c)
      with ((baseRate * dict_get hourly_multipliers hour 10000
               * dict_get chronotype_adjustments label 10000) / (10000 * 10000)).
    rewrite (hourly_table hour Hh), (chronotype_table label Hl).
    reflexivity. }
  split; [exact E|]. split.
  - rewrite E.
    pose proof (Z.mul_div_le (baseRate * H hour * Cmul label) (10 ^ 8) eq_refl).
    pose proof (Z.mul_succ_div_gt (baseRate * H hour * Cmul label) (10 ^ 8) eq_refl).
    lia.
  - split; vm_compute; reflexivity.
Qed.

Lemma adjustRate_formula_witness :
  adjustRate 0%nat 20001 7 1 3%nat = (20001 * H 7 * Cmul 1) / 10 ^ 8.
Proof.
  apply (adjustRate_formula nat 0%nat 3%nat 20001 7 1); lia.
Defined.

(** C3.  The confidence never changes the arithmetic result: two calls that
    differ only in the confidence answer the same adjusted rate (and the
    same multipliers), for every base rate, hour and label. *)
Theorem adjustRate_confidence_irrelevant :
  forall (C : Type) (half c1 c2 : C) (baseRate hour label : Z),
    adjustRate half baseRate hour label c1 = adjustRate half baseRate hour label c2
    /\ confidence (calculate_circadian_rate half baseRate hour (prediction label c1)) = c1
    /\ confidence (calculate_circadian_rate half baseRate hour (prediction label c2)) = c2.
Proof.
  intros. repeat split.
Qed.

End RateAdjustmentFacts.

Module FeaturesFacts.
Import Features.

(** The bound on the depth of the cuts is never reached: any fuel from the
    length of the array on gives the same sum. *)
Lemma pairwise_sum_fuel (fuel1 fuel2 : nat) (a : list float) :
  (length a <= fuel1)%nat -> (length a <= fuel2)%nat ->
  pairwise_sum fuel1 a = pairwise_sum fuel2 a.
Proof.
  revert fuel2 a. induction fuel1 as [|fuel1 IH]; intros fuel2 a H1 H2.
  - destruct a; [|cbn in H1; lia]. destruct fuel2; reflexivity.
  - destruct fuel2 as [|fuel2].
    + destruct a; [reflexivity|cbn in H2; lia].
    + cbn [pairwise_sum].
      destruct (Nat.ltb_spec (length a) 8) as [|H8]; [reflexivity|].
      destruct (Nat.leb_spec (length a) 128) as [|H128]; [reflexivity|].
      pose proof (Nat.div_mod_eq (length a) 2) as Hd.
      pose proof (Nat.mod_upper_bound (length a) 2 ltac:(lia)) as Hm.
      pose proof (Nat.mod_upper_bound (length a / 2) 8 ltac:(lia)) as Hm8.
      rewrite (IH fuel2 (firstn _ a)), (IH fuel2 (skipn _ a));
        [reflexivity|rewrite length_skipn; lia|rewrite length_skipn; lia
        |rewrite length_firstn; lia|rewrite length_firstn; lia].
Qed.

Lemma window_features_ok (w : list float) :
  w <> [] -> exists v, window_features w = Ok v /\ length v = 9%nat.
Proof.
  intros Hw. destruct w as [|x w]; [congruence|].
  unfold window_features, np_argmax, np_argmin.
  eexists. split; reflexivity.
Qed.

Lemma pad_to_24 (p : list float) (c : float) :
  (length p < 24)%nat -> length (np_pad p (24 - length p) c) = 24%nat.
Proof.
  intros Hn. unfold np_pad. rewrite length_app, repeat_length. lia.
Qed.

Lemma serving_short (p : list float) :
  (0 < length p < 24)%nat ->
  create_engineered_features p
    = window_features (np_pad p (24 - length p) (np_mean p)).
Proof.
  intros [H0 H24]. unfold create_engineered_features.
  destruct (Nat.eqb_spec (length p) 0); [lia|].
  destruct (Nat.leb_spec 24 (length p)); [lia|].
  destruct (Nat.ltb_spec (length p) 24); [reflexivity|lia].
Qed.

Lemma serving_full (p : list float) :
  (24 <= length p)%nat ->
  create_engineered_features p = window_features (firstn 24 p).
Proof.
  intros H24. unfold create_engineered_features.
  destruct (Nat.eqb_spec (length p) 0); [lia|].
  destruct (Nat.leb_spec 24 (length p)); [|lia].
  rewrite length_firstn, Nat.min_l by lia. reflexivity.
Qed.

Lemma training_full (p : list float) :
  (24 <= length p)%nat ->
  time_based_features_row p = window_features (firstn 24 p).
Proof.
  intros H24. unfold time_based_features_row.
  destruct (Nat.leb_spec 24 (length p)); [reflexivity|lia].
Qed.

Lemma training_short (p : list float) :
  (length p < 24)%nat -> time_based_features_row p = window_features p.
Proof.
  intros H24. unfold time_based_features_row.
  destruct (Nat.leb_spec 24 (length p)); [lia|reflexivity].
Qed.

(** On windows of 24 samples or more the two call sites agree. *)
Lemma features_agree_on_full_windows (p : list float) :
  (24 <= length p)%nat ->
  create_time_based_features [p]
    = match create_engineered_features p with
      | Ok v => Ok [v]
      | Raise e => Raise e
      end.
Proof.
  intros H24. cbn [create_time_based_features].
  rewrite (training_full p H24), (serving_full p H24).
  destruct (window_features (firstn 24 p)); reflexivity.
Qed.

(** On float64 windows: nine zeros on the empty window, a window of
    [0 < n < 24] samples padded to 24 values, only the first 24 samples of
    a longer one read, and always nine numbers, never an exception. *)
Lemma create_engineered_features_window (p : list float) :
  (p = [] -> create_engineered_features p = Ok (repeat 0%float 9))
  /\ ((0 < length p < 24)%nat ->
        create_engineered_features p
          = window_features (p ++ repeat (np_mean p) (24 - length p))
        /\ length (p ++ repeat (np_mean p) (24 - length p)) = 24%nat)
  /\ ((24 <= length p)%nat ->
        create_engineered_features p = window_features (firstn 24 p))
  /\ create_engineered_features p = create_engineered_features (firstn 24 p)
  /\ (exists v, create_engineered_features p = Ok v /\ length v = 9%nat).
Proof.
  split; [intros ->; reflexivity|].
  split; [intros Hn; split; [apply (serving_short p Hn)|apply pad_to_24; lia]|].
  split; [apply serving_full|].
  split.
  - destruct (Nat.le_gt_cases 24 (length p)) as [H24|H24].
    + rewrite (serving_full p H24), serving_full.
      * rewrite firstn_firstn, Nat.min_id. reflexivity.
      * rewrite length_firstn. lia.
    + rewrite firstn_all2 by lia. reflexivity.
  - destruct p as [|x p]; [exists (repeat 0%float 9); split; reflexivity|].
    destruct (Nat.le_gt_cases 24 (length (x :: p))) as [H24|H24].
    + rewrite (serving_full _ H24). apply window_features_ok.
      destruct p; cbn in H24 |- *; [lia|congruence].
    + rewrite serving_short by (cbn in *; lia).
      apply window_features_ok. unfold np_pad. cbn. congruence.
Qed.

(** C1 (the code departs from it).  On the ten-sample window [window10] the
    serving function pads to 24 samples and the training function does not:
    both return nine numbers, and the two vectors differ (standard
    deviation, evening mean, ratio). *)
Theorem train_serve_features_diverge :
  exists vs vt : list float,
    create_engineered_features window10 = Ok vs
    /\ create_time_based_features [window10] = Ok [vt]
    /\ vs <> vt
    /\ is_nan (nth 5 vs 0%float) = false
    /\ is_nan (nth 5 vt 0%float) = true.
Proof.
  eexists. eexists.
  split; [vm_compute; reflexivity|].
  split; [vm_compute; reflexivity|].
  split; [|split; vm_compute; reflexivity].
  intros E.
  apply (f_equal (fun v => is_nan (nth 5 v 0%float))) in E.
  vm_compute in E. discriminate E.
Qed.

(** The empty row: the serving function answers zeros, the training
    function raises. *)
Lemma train_serve_empty_window :
  create_engineered_features [] = Ok (np_zeros 9)
  /\ create_time_based_features [[]] = Raise "ValueError".
Proof. split; reflexivity. Qed.

End FeaturesFacts.

Module WindowsFacts.
Import Features Windows.
Local Open Scope float_scope.

Lemma window_features_float (xs : list float) :
  Windows.window_features (Float64 xs) = Features.window_features xs.
Proof. reflexivity. Qed.

Lemma np_asarray_floats (x : float) (xs : list float) :
  np_asarray (map PyFloat (x :: xs)) = Float64 (x :: xs).
Proof.
  cbn [map np_asarray forallb is_int andb float_item].
  rewrite map_map, map_id. reflexivity.
Qed.

(** On a list of [float] items the function is the one of [Features]. *)
Lemma create_engineered_features_floats (xs : list float) :
  Windows.create_engineered_features (map PyFloat xs)
  = Features.create_engineered_features xs.
Proof.
  unfold Windows.create_engineered_features, Features.create_engineered_features.
  rewrite length_map.
  destruct xs as [|x xs]; [reflexivity|].
  destruct (Nat.eqb_spec (length (x :: xs)) 0) as [E|_]; [discriminate E|].
  destruct (Nat.leb_spec 24 (length (x :: xs))) as [H24|H24].
  - rewrite firstn_map, length_map, !length_firstn, Nat.min_l by lia.
    rewrite Nat.ltb_irrefl.
    change (firstn 24 (x :: xs)) with (x :: firstn 23 xs).
    rewrite np_asarray_floats. reflexivity.
  - rewrite length_map. destruct (Nat.ltb_spec (length (x :: xs)) 24); [|lia].
    rewrite np_asarray_floats. reflexivity.
Qed.

(** On a list of [int] items shorter than 24 the window is padded with the
    mean of its samples converted to an integer. *)
Lemma create_engineered_features_ints (z : Z) (zs : list Z) :
  (length (z :: zs) < 24)%nat ->
  Windows.create_engineered_features (map PyInt (z :: zs))
  = Windows.window_features
      (Int64 ((z :: zs)
              ++ repeat (int_of_float (Features.np_mean (map float_of_Z (z :: zs))))
                        (24 - length (z :: zs)))).
Proof.
  intros Hn. unfold Windows.create_engineered_features.
  rewrite length_map.
  destruct (Nat.eqb_spec (length (z :: zs)) 0) as [E|_]; [discriminate E|].
  destruct (Nat.leb_spec 24 (length (z :: zs))); [lia|].
  rewrite length_map. destruct (Nat.ltb_spec (length (z :: zs)) 24); [|lia].
  assert (Ha : np_asarray (map PyInt (z :: zs)) = Int64 (z :: zs)).
  { cbn [map np_asarray forallb is_int andb int_item].
    assert (Hall : forallb is_int (map PyInt zs) = true)
      by (induction zs as [|y ys IH]; [reflexivity|cbn; apply IH; cbn in *; lia]).
    rewrite Hall, map_map, map_id. reflexivity. }
  rewrite Ha. reflexivity.
Qed.

(** C4 (the code departs from it).  The all-integer window [1, 2]: the mean
    of its two samples is 1.5, and the function pads it with 1, the mean
    converted to the integer dtype that [np.pad] keeps, so it answers the
    features of [1, 2, 1, ..., 1].  The same two samples given as floats
    are padded with 1.5; the two answers differ (the morning mean is 1
    against 1.5). *)
Theorem create_engineered_features_integer_window :
  Windows.np_mean (np_asarray [PyInt 1; PyInt 2]) = 1.5
  /\ Windows.create_engineered_features [PyInt 1; PyInt 2]
     = Windows.window_features (Int64 ([1; 2] ++ repeat 1 22)%Z)
  /\ Windows.create_engineered_features [PyFloat 1; PyFloat 2]
     = Features.window_features ([1; 2] ++ repeat 1.5 22)
  /\ exists vi vf : list float,
       Windows.create_engineered_features [PyInt 1; PyInt 2] = Ok vi
       /\ Windows.create_engineered_features [PyFloat 1; PyFloat 2] = Ok vf
       /\ nth 4 vi 0 = 1
       /\ nth 4 vf 0 = 1.5
       /\ vi <> vf.
Proof.
  split; [vm_compute; reflexivity|].
  split; [vm_compute; reflexivity|].
  split; [vm_compute; reflexivity|].
  eexists. eexists.
  split; [vm_compute; reflexivity|].
  split; [vm_compute; reflexivity|].
  split; [vm_compute; reflexivity|].
  split; [vm_compute; reflexivity|].
  intros E. apply (f_equal (fun v => nth 4 v 0 =? 1)) in E.
  vm_compute in E. discriminate E.
Qed.

End WindowsFacts.

Module InferenceFacts.
Import Features Inference.

Lemma failure_is_safe (msg : string) :
  success (failure msg) = false /\ chronotype (failure msg) = 1.
Proof. split; reflexivity. Qed.

Lemma predict_try_success (self : MLPredictor) (pattern : list float) (r : Prediction) :
  predict_try self pattern = Ok r ->
  success r = true
  /\ (exists f, classifier_model self = Some f)
  /\ (exists g, classifier_scaler self = Some g).
Proof.
  unfold predict_try, call. intros Hr.
  destruct (classifier_model self) as [f|]; destruct (classifier_scaler self) as [g|];
    repeat match type of Hr with
           | match ?x with _ => _ end = _ => destruct x eqn:?; try discriminate Hr
           end;
    injection Hr as <-; cbn; eauto.
Qed.

(** A prediction that did not succeed carries the safe label. *)
Lemma unsuccessful_prediction_is_intermediate (self : MLPredictor) (pattern : list float) :
  success (predict_chronotype self pattern) = false ->
  chronotype (predict_chronotype self pattern) = 1.
Proof.
  unfold predict_chronotype.
  destruct (negb (models_loaded self)); [reflexivity|].
  destruct (predict_try self pattern) as [r|e] eqn:Hr; [|reflexivity].
  apply predict_try_success in Hr as [Hr _]. congruence.
Qed.

Lemma load_models_flag (files : ModelFiles) :
  models_loaded (load_models files) = true ->
  (exists f, classifier_model (load_models files) = Some f
             /\ classifier_file files = Some (Ok f))
  /\ (exists g, classifier_scaler (load_models files) = Some g
                /\ scaler_file files = Some (Ok g)).
Proof.
  unfold load_models.
  destruct (autoencoder_load_raises files); [discriminate|].
  destruct (classifier_file files) as [[cm|e]|]; try discriminate;
    destruct (scaler_file files) as [[s|e']|]; try discriminate.
  intros _. cbn. split; eexists; split; reflexivity.
Qed.

(** C9.  When the models are not loaded, [predict_chronotype] answers, for
    every activity pattern, a dictionary with [success = False] and the
    label 1 (Intermediate), and no exception leaves the function: this
    holds when the [models_loaded] flag is off, which is where
    [load_models] leaves it unless both the classifier and the scaler were
    loaded, and also whenever the classifier or the scaler is missing. *)
Theorem predict_chronotype_models_not_loaded
    (self : MLPredictor) (pattern : list float) :
  (models_loaded self = false ->
     predict_chronotype self pattern = failure "Models not loaded")
  /\ (models_loaded self = false \/ classifier_model self = None
      \/ classifier_scaler self = None ->
        success (predict_chronotype self pattern) = false
        /\ chronotype (predict_chronotype self pattern) = 1)
  /\ (forall files : ModelFiles,
        self = load_models files ->
        classifier_file files = None \/ scaler_file files = None
        \/ (exists e, classifier_file files = Some (Raise e))
        \/ (exists e, scaler_file files = Some (Raise e)) ->
        models_loaded self = false).
Proof.
  split; [|split].
  - intros Hm. unfold predict_chronotype. rewrite Hm. reflexivity.
  - intros Hc.
    assert (Hs : success (predict_chronotype self pattern) = false).
    { unfold predict_chronotype.
      destruct (models_loaded self) eqn:Hm; [|reflexivity]. cbn.
      destruct (predict_try self pattern) as [r|e] eqn:Hr; [|reflexivity].
      apply predict_try_success in Hr as (_ & [f Hf] & [g Hg]).
      destruct Hc as [Hc | [Hc | Hc]]; congruence. }
    split; [exact Hs|].
    apply unsuccessful_prediction_is_intermediate, Hs.
  - intros files -> Hfiles.
    destruct (models_loaded (load_models files)) eqn:Hm; [|reflexivity].
    apply load_models_flag in Hm as [(f & _ & Hf) (g & _ & Hg)].
    destruct Hfiles as [Hc | [Hc | [[e Hc] | [e Hc]]]]; congruence.
Qed.

Lemma predict_chronotype_models_not_loaded_witness :
  success (predict_chronotype unloaded window10) = false
  /\ chronotype (predict_chronotype unloaded window10) = 1.
Proof.
  apply (proj1 (proj2 (predict_chronotype_models_not_loaded unloaded window10))).
  left. reflexivity.
Defined.

End InferenceFacts.


Module PyFacts.
Import Py.
Local Open Scope Q_scope.

Lemma Qlt_bool_iff (a b : Q) : Qlt_bool a b = true <-> a < b.
Proof.
  unfold Qlt_bool. rewrite negb_true_iff.
  split.
  - intros Hf. apply Qnot_le_lt. intros Hle.
    apply Qle_bool_iff in Hle. congruence.
  - intros Hlt. destruct (Qle_bool b a) eqn:Hle; [|reflexivity].
    apply Qle_bool_iff in Hle. exfalso. exact (Qlt_not_le _ _ Hlt Hle).
Qed.

Lemma Qlt_bool_false (a b : Q) : Qlt_bool a b = false <-> b <= a.
Proof.
  unfold Qlt_bool. rewrite negb_false_iff. apply Qle_bool_iff.
Qed.

(** [np.clip] lands in the interval it is given. *)
Lemma np_clip_range (x lo hi : Q) :
  lo <= hi -> lo <= np_clip x lo hi /\ np_clip x lo hi <= hi.
Proof.
  intros Hlh. unfold np_clip.
  destruct (Qlt_bool lo x) eqn:H1.
  - apply Qlt_bool_iff in H1.
    destruct (Qlt_bool x hi) eqn:H2.
    + apply Qlt_bool_iff in H2. split; apply Qlt_le_weak; assumption.
    + split; [assumption|apply Qle_refl].
  - destruct (Qlt_bool lo hi) eqn:H2.
    + split; [apply Qle_refl|assumption].
    + split; [assumption|apply Qle_refl].
Qed.

Lemma bind_ok {A B} (m : M A) (f : A -> M B) (k : nat) (b : B) (k' : nat) :
  bind m f k = Ok (b, k') ->
  exists a k1, m k = Ok (a, k1) /\ f a k1 = Ok (b, k').
Proof.
  unfold bind. destruct (m k) as [[a k1]|e]; [|discriminate].
  intros Hf. exists a, k1. split; [reflexivity|exact Hf].
Qed.

Lemma bind_step {A B} (m : M A) (f : A -> M B) (k : nat) (a : A) (k1 : nat) :
  m k = Ok (a, k1) -> bind m f k = f a k1.
Proof. unfold bind. intros ->. reflexivity. Qed.

(** A loop keeps what each round keeps. *)
Lemma for_each_inv {A S} (I : S -> Prop) (xs : list A) (body : A -> S -> M S) :
  (forall x s k s' k', In x xs -> I s -> body x s k = Ok (s', k') -> I s') ->
  forall s k s' k', I s -> for_each xs body s k = Ok (s', k') -> I s'.
Proof.
  induction xs as [|x xs IH]; intros Hbody s k s' k' Hs Hrun.
  - cbn in Hrun. injection Hrun as <- _. exact Hs.
  - cbn [for_each] in Hrun. apply bind_ok in Hrun as (s1 & k1 & Hx & Hrest).
    apply (IH) with (s := s1) (k := k1) (k' := k').
    + intros y t j t' j' Hy. apply Hbody. right. exact Hy.
    + apply (Hbody x s k s1 k1); [left; reflexivity|exact Hs|exact Hx].
    + exact Hrest.
Qed.

(** A loop whose rounds all return returns. *)
Lemma for_each_total {A S} (I : S -> Prop) (xs : list A) (body : A -> S -> M S) :
  (forall x s k, In x xs -> I s ->
     exists s' k', body x s k = Ok (s', k') /\ I s') ->
  forall s k, I s -> exists s' k', for_each xs body s k = Ok (s', k') /\ I s'.
Proof.
  induction xs as [|x xs IH]; intros Hbody s k Hs.
  - exists s, k. split; [reflexivity|exact Hs].
  - destruct (Hbody x s k) as (s1 & k1 & Hx & Hs1); [left; reflexivity|exact Hs|].
    destruct (IH (fun y t j Hy => Hbody y t j (or_intror Hy)) s1 k1 Hs1)
      as (s' & k' & Hrun & Hs').
    exists s', k'. split; [|exact Hs'].
    cbn [for_each]. rewrite (bind_step _ _ _ _ _ Hx). exact Hrun.
Qed.

Lemma normal_array_ok (rs : RandomSource) (loc scale : Q) (size k : nat) :
  0 <= scale ->
  exists xs, normal_array rs loc scale size k = Ok (xs, (k + size)%nat)
             /\ length xs = size.
Proof.
  intros Hs. apply Qlt_bool_false in Hs.
  revert k. induction size as [|n IH]; intros k.
  - exists []. cbn. rewrite Hs. unfold ret. rewrite Nat.add_0_r. split; reflexivity.
  - destruct (IH (S k)) as (xs & Hxs & Hlen).
    exists (loc + scale * standard_normal rs k :: xs).
    cbn [normal_array]. unfold bind at 1. unfold normal. rewrite Hs.
    unfold bind. rewrite Hxs. unfold ret.
    replace (S k + n)%nat with (k + S n)%nat by lia.
    split; [reflexivity|cbn; congruence].
Qed.

End PyFacts.


Module GeneratorFacts.
Import Py PyFacts Generator.
Local Open Scope Q_scope.

Lemma np_linspace_length (start stop : Q) (num : Z) (t : list Q) :
  np_linspace start stop num = Ok t -> length t = Z.to_nat num.
Proof.
  unfold np_linspace. destruct (num <? 0)%Z; [discriminate|].
  intros E. injection E as <-. rewrite length_map, length_seq. reflexivity.
Qed.

(** The grid of [generate_circadian_oscillation] for [T] hours: the point of
    index [k] is [k * T / (4 T - 1)], below the last index. *)
Lemma grid_point (T : Z) (k : nat) (t : list Q) :
  (1 <= T)%Z -> (Z.of_nat k < 4 * T - 1)%Z ->
  np_linspace 0 (inject_Z T) (T * 4) = Ok t ->
  exists tk, nth_error t k = Some tk
             /\ tk == inject_Z (Z.of_nat k * T) / inject_Z (4 * T - 1).
Proof.
  intros HT Hk. unfold np_linspace.
  destruct (Z.ltb_spec (T * 4) 0); [lia|].
  intros E. injection E as <-.
  eexists. split.
  - rewrite nth_error_map, nth_error_seq.
    destruct (Nat.ltb_spec k (Z.to_nat (T * 4))); [|lia].
    cbn [option_map]. reflexivity.
  - destruct (Nat.ltb_spec 1 (Z.to_nat (T * 4))); [|lia].
    destruct (Nat.eqb_spec (0 + k) (Z.to_nat (T * 4) - 1)); [lia|].
    cbn [andb]. rewrite Nat.add_0_l.
    replace (T * 4 - 1)%Z with (4 * T - 1)%Z by lia.
    rewrite inject_Z_mult. field.
    intros Hz. apply (inject_Z_injective (4 * T - 1) 0) in Hz. lia.
Qed.

(** Every hour below [T] has a grid point in its bucket [hour, hour + 1). *)
Lemma hour_bucket_nonempty (T hour : Z) (t : list Q) :
  (1 <= T)%Z -> (0 <= hour < T)%Z ->
  np_linspace 0 (inject_Z T) (T * 4) = Ok t ->
  exists tk, In tk t /\ inject_Z hour <= tk /\ tk < inject_Z (hour + 1).
Proof.
  intros HT Hh Ht.
  set (a := (hour * (4 * T - 1) + T - 1)%Z).
  set (k := (a / T)%Z).
  assert (Hdiv : (a = T * k + a mod T)%Z) by (apply Z.div_mod; lia).
  assert (Hmod : (0 <= a mod T < T)%Z) by (apply Z.mod_pos_bound; lia).
  assert (Hlo : (hour * (4 * T - 1) <= k * T)%Z) by (unfold a in *; nia).
  assert (Hhi : (k * T < (hour + 1) * (4 * T - 1))%Z) by (unfold a in *; nia).
  assert (Hk0 : (0 <= k)%Z) by (apply Z.div_pos; unfold a; nia).
  assert (Hk1 : (k < 4 * T - 1)%Z) by nia.
  destruct (grid_point T (Z.to_nat k) t HT ltac:(lia) Ht) as (tk & Hnth & Htk).
  rewrite Z2Nat.id in Htk by lia.
  assert (Hden : 0 < inject_Z (4 * T - 1)).
  { rewrite <- (Zlt_Qlt 0). lia. }
  exists tk. split; [eapply nth_error_In; exact Hnth|].
  rewrite Htk. split.
  - apply Qle_shift_div_l; [exact Hden|].
    rewrite <- inject_Z_mult, <- Zle_Qle. exact Hlo.
  - apply Qlt_shift_div_r; [exact Hden|].
    rewrite <- inject_Z_mult, <- Zlt_Qlt. exact Hhi.
Qed.

Lemma existsb_map_id {A} (f : A -> bool) (l : list A) :
  existsb id (map f l) = existsb f l.
Proof. induction l as [|x l IH]; cbn; [reflexivity|]. rewrite IH. reflexivity. Qed.

(** When every bucket is hit, the averaging loop keeps every hour. *)
Lemma hourly_averages_all (hours : list Z) (t aw : list Q) :
  (forall hour, In hour hours ->
     exists tk, In tk t /\ inject_Z hour <= tk /\ tk < inject_Z (hour + 1)) ->
  fst (hourly_averages hours t aw) = hours
  /\ length (snd (hourly_averages hours t aw)) = length hours.
Proof.
  induction hours as [|hour hours IH]; intros Hall; [split; reflexivity|].
  cbn [hourly_averages].
  destruct (hourly_averages hours t aw) as [ts acts] eqn:Hrec.
  destruct IH as [IH1 IH2]; [intros h Hh; apply Hall; right; exact Hh|].
  cbn [fst snd] in IH1, IH2.
  rewrite existsb_map_id.
  destruct (Hall hour (or_introl eq_refl)) as (tk & Hin & Hlo & Hhi).
  assert (Hex : existsb (fun tk => Qle_bool (inject_Z hour) tk
                                   && Qlt_bool tk (inject_Z (hour + 1))) t = true).
  { apply existsb_exists. exists tk. split; [exact Hin|].
    apply andb_true_iff. split; [apply Qle_bool_iff|apply Qlt_bool_iff]; assumption. }
  rewrite Hex. cbn. split; congruence.
Qed.

Lemma in_range_Z (n hour : Z) : In hour (range_Z n) -> (0 <= hour < n)%Z.
Proof.
  unfold range_Z. intros Hin. apply in_map_iff in Hin as (i & <- & Hi).
  apply in_seq in Hi. lia.
Qed.

Lemma np_linspace_ok (start stop : Q) (num : Z) :
  (0 <= num)%Z -> exists t, np_linspace start stop num = Ok t.
Proof.
  intros Hn. unfold np_linspace.
  destruct (Z.ltb_spec num 0); [lia|]. eexists. reflexivity.
Qed.

(** C10.  For [days >= 1] (and a noise level that is not negative, as the
    oscillator parameters require) [generate_circadian_oscillation] returns
    an hourly signal of exactly [days * 24] samples whose hour indices are
    0, 1, ..., [days * 24 - 1] in order: the time grid has four points per
    hour and every bucket [hour, hour + 1) holds one of them, so no hour is
    dropped. *)
Theorem generate_circadian_oscillation_hours
    (odeint : (Q * Q -> Q -> Q * Q) -> Q * Q -> list Q -> nat -> Q * Q)
    (rs : RandomSource) (self : CircadianVanDerPolGenerator) (days : Z) (k : nat) :
  (1 <= days)%Z -> 0 <= noise_level self ->
  exists (o : Oscillation) (k' : nat),
    generate_circadian_oscillation odeint rs self days 24 k = Ok (o, k')
    /\ o_time_hours o = map Z.of_nat (seq 0 (Z.to_nat (days * 24)))
    /\ length (o_activity_level o) = Z.to_nat (days * 24)
    /\ length (raw_time (o_raw_solution o)) = (4 * Z.to_nat (days * 24))%nat
    /\ (forall hour : Z, (0 <= hour < days * 24)%Z ->
          exists tk, In tk (raw_time (o_raw_solution o))
                     /\ inject_Z hour <= tk /\ tk < inject_Z (hour + 1)).
Proof.
  intros Hd Hnoise. unfold generate_circadian_oscillation.
  destruct (np_linspace_ok 0 (inject_Z (days * 24)) (days * 24 * 4) ltac:(lia))
    as [t Ht].
  rewrite Ht.
  pose proof (np_linspace_length _ _ _ _ Ht) as Hlen.
  destruct t as [|t0 t']; [cbn in Hlen; lia|].
  set (t := t0 :: t') in *.
  assert (Hraw : length (map fst (map (odeint (van_der_pol_equations self) (1, 0) t)
                                      (seq 0 (length t)))) = length t)
    by (rewrite !length_map, length_seq; reflexivity).
  destruct (map fst (map (odeint (van_der_pol_equations self) (1, 0) t)
                         (seq 0 (length t)))) as [|a0 activity_raw];
    [cbn in Hraw; lia|].
  cbn [np_min np_max].
  match goal with
  | |- context [normal_array rs 0 (noise_level self) ?n] =>
      destruct (normal_array_ok rs 0 (noise_level self) n k Hnoise) as (noise & Hn & _)
  end.
  rewrite (bind_step _ _ _ _ _ Hn).
  pose proof (fun hour Hh => hour_bucket_nonempty (days * 24) hour t
                               ltac:(lia) Hh Ht) as Hbucket.
  match goal with
  | |- context [hourly_averages ?hs t ?aw] =>
      pose proof (hourly_averages_all hs t aw
                    (fun hour Hin => Hbucket hour (in_range_Z _ _ Hin))) as [Hts Hacts];
      destruct (hourly_averages hs t aw) as [hourly_times hourly_activities]
  end.
  cbn [fst snd] in Hts, Hacts.
  eexists. eexists. split; [reflexivity|].
  cbn [o_time_hours o_activity_level o_raw_solution raw_time].
  split; [exact Hts|].
  split; [rewrite Hacts; unfold range_Z; rewrite length_map, length_seq; reflexivity|].
  split; [rewrite Hlen; lia|].
  exact Hbucket.
Qed.

Lemma generate_circadian_oscillation_hours_witness :
  exists (o : Oscillation) (k' : nat),
    generate_circadian_oscillation example_odeint example_source
      (new_generator (22 # 7) 1 24 (1 # 10)) 1 24 0%nat = Ok (o, k')
    /\ o_time_hours o = map Z.of_nat (seq 0 24)
    /\ length (o_activity_level o) = 24%nat.
Proof.
  destruct (generate_circadian_oscillation_hours example_odeint example_source
              (new_generator (22 # 7) 1 24 (1 # 10)) 1 0%nat)
    as (o & k' & Hrun & Hts & Hlen & _).
  - lia.
  - discriminate.
  - exists o, k'. split; [exact Hrun|]. split; [exact Hts|exact Hlen].
Defined.

End GeneratorFacts.


Module PopulationFacts.
Import Py PyFacts Generator GeneratorFacts.
Local Open Scope Q_scope.

Lemma py_int_quarter (n : Z) : py_int (0.25 * inject_Z n) = Z.quot n 4.
Proof.
  unfold py_int, Qle_bool, Qfloor, Qceiling. cbn -[Z.mul Z.div Z.leb Z.quot].
  change (Z.pos (100 * 1)) with (25 * 4)%Z.
  destruct (Z.leb_spec (0 * (25 * 4)) (25 * n * 1)) as [Hn|Hn].
  - rewrite Z.div_mul_cancel_l by lia. symmetry. apply Z.quot_div_nonneg; lia.
  - replace (- (25 * n))%Z with (25 * (- n))%Z by lia.
    rewrite Z.div_mul_cancel_l by lia.
    rewrite <- (Z.quot_div_nonneg (- n) 4) by lia.
    rewrite Z.quot_opp_l by lia. lia.
Qed.

Lemma quarter_floor (n : Z) : Qfloor (0.25 * inject_Z n) = (n / 4)%Z.
Proof.
  unfold Qfloor. cbn -[Z.mul Z.div].
  change (Z.pos (100 * 1)) with (25 * 4)%Z.
  apply Z.div_mul_cancel_l; lia.
Qed.

Lemma class_count_insert (c : Chronotype) (users : gmap Z UserData) (uid : Z) (u : UserData) :
  users !! uid = None ->
  class_count c (<[uid := u]> users)
    = (class_count c users + (if decide (chronotype u = c) then 1 else 0))%nat.
Proof.
  intros Hfresh. unfold class_count.
  destruct (decide (chronotype u = c)) as [Hc|Hc].
  - rewrite map_filter_insert_True by exact Hc.
    rewrite map_size_insert_None; [lia|].
    apply map_lookup_filter_None_2. left. exact Hfresh.
  - rewrite map_filter_insert_False by exact Hc.
    rewrite delete_id by exact Hfresh. lia.
Qed.

Section Population.
Variable np_pi : Q.
Variable odeint : (Q * Q -> Q -> Q * Q) -> Q * Q -> list Q -> nat -> Q * Q.
Variable rs : RandomSource.
Variable now : string.

Lemma chronotype_generator_ok (c : Chronotype) (k : nat) :
  unit_draws rs ->
  exists g, chronotype_generator np_pi rs c k = Ok (g, (k + 3)%nat)
            /\ 0 <= noise_level g.
Proof.
  intros Hu. destruct (Hu (S (S k))) as [Hu0 _].
  replace (k + 3)%nat with (S (S (S k))) by lia.
  destruct c; eexists; (split; [reflexivity|]);
    cbn [noise_level new_generator]; lra.
Qed.

Lemma oscillation_ok (self : CircadianVanDerPolGenerator) (days : Z) (k : nat) :
  (1 <= days)%Z -> 0 <= noise_level self ->
  exists o k', generate_circadian_oscillation odeint rs self days 24 k = Ok (o, k').
Proof.
  intros Hd Hnoise. unfold generate_circadian_oscillation.
  destruct (np_linspace_ok 0 (inject_Z (days * 24)) (days * 24 * 4) ltac:(lia))
    as [t Ht].
  rewrite Ht.
  pose proof (np_linspace_length _ _ _ _ Ht) as Hlen.
  assert (Hraw : length (map fst (map (odeint (van_der_pol_equations self) (1, 0) t)
                                      (seq 0 (length t)))) = length t)
    by (rewrite !length_map, length_seq; reflexivity).
  destruct (map fst (map (odeint (van_der_pol_equations self) (1, 0) t)
                         (seq 0 (length t)))) as [|a0 activity_raw];
    [cbn in Hraw; lia|].
  cbn [np_min np_max].
  match goal with
  | |- context [normal_array rs 0 (noise_level self) ?n] =>
      destruct (normal_array_ok rs 0 (noise_level self) n k Hnoise) as (noise & Hn & _)
  end.
  rewrite (bind_step _ _ _ _ _ Hn).
  match goal with
  | |- context [hourly_averages ?hs t ?aw] =>
      destruct (hourly_averages hs t aw) as [hourly_times hourly_activities]
  end.
  eexists. eexists. reflexivity.
Qed.


Lemma generate_class_spec (c : Chronotype) (days : Z) (xs : list Z) :
  unit_draws rs -> (1 <= days)%Z ->
  forall (users : gmap Z UserData) (user_id : Z) (k : nat),
    fresh users user_id ->
    exists users' k',
      for_each xs
        (fun (i : Z) '(users, user_id) =>
           generator <- chronotype_generator np_pi rs c ;;
           data <- generate_circadian_oscillation odeint rs generator days 24 ;;
           ret (<[user_id := new_user c user_id data]> users, (user_id + 1)%Z))
        (users, user_id) k
      = Ok ((users', (user_id + Z.of_nat (length xs))%Z), k')
      /\ fresh users' (user_id + Z.of_nat (length xs))
      /\ (forall c', class_count c' users'
                     = (class_count c' users
                        + (if decide (c = c') then length xs else 0))%nat)
      /\ size users' = (size users + length xs)%nat.
Proof.
  intros Hu Hd. induction xs as [|x xs IH]; intros users user_id k Hfresh.
  - exists users, k. cbn [for_each length]. unfold ret.
    rewrite Z.add_0_r. repeat split; try assumption.
    + intros c'. destruct (decide (c = c')); lia.
    + lia.
  - destruct (chronotype_generator_ok c k Hu) as (g & Hg & Hnoise).
    destruct (oscillation_ok g days (k + 3) Hd Hnoise) as (o & k1 & Ho).
    set (users1 := <[user_id := new_user c user_id o]> users).
    assert (Hfresh1 : fresh users1 (user_id + 1)).
    { intros j Hj. unfold users1. rewrite lookup_insert_ne by lia.
      apply Hfresh. lia. }
    destruct (IH users1 (user_id + 1)%Z k1 Hfresh1)
      as (users' & k' & Hrun & Hfresh' & Hcount & Hsize).
    exists users', k'.
    replace (user_id + Z.of_nat (length (x :: xs)))%Z
      with (user_id + 1 + Z.of_nat (length xs))%Z by (cbn [length]; lia).
    split; [|split; [exact Hfresh'|split]].
    + cbn [for_each].
      rewrite (bind_step _ _ _ (users1, (user_id + 1)%Z) k1); [exact Hrun|].
      rewrite (bind_step _ _ _ _ _ Hg), (bind_step _ _ _ _ _ Ho). reflexivity.
    + intros c'. rewrite Hcount. unfold users1.
      rewrite class_count_insert by (apply Hfresh; lia).
      cbn [chronotype new_user length].
      destruct (decide (c = c')); lia.
    + rewrite Hsize. unfold users1.
      rewrite map_size_insert_None by (apply Hfresh; lia).
      cbn [length]. lia.
Qed.

Lemma raises_only_ret {A} (cls : string) (a : A) : raises_only cls (ret a).
Proof. intros k e. discriminate. Qed.

Lemma raises_only_raise {A} (cls : string) : raises_only cls (@raise A cls).
Proof. intros k e E. injection E as <-. reflexivity. Qed.

Lemma raises_only_bind {A B} (cls : string) (m : M A) (f : A -> M B) :
  raises_only cls m -> (forall a, raises_only cls (f a)) ->
  raises_only cls (bind m f).
Proof.
  intros Hm Hf k e. unfold bind.
  destruct (m k) as [[a k1]|e1] eqn:Hk.
  - apply Hf.
  - intros E. injection E as <-. exact (Hm k e1 Hk).
Qed.

Lemma raises_only_for_each {A S} (cls : string) (xs : list A) (body : A -> S -> M S) :
  (forall x s, raises_only cls (body x s)) ->
  forall s, raises_only cls (for_each xs body s).
Proof.
  intros Hbody. induction xs as [|x xs IH]; intros s; cbn [for_each].
  - apply raises_only_ret.
  - apply raises_only_bind; [apply Hbody|exact IH].
Qed.

Lemma raises_only_uniform (lo hi : Q) : raises_only "ValueError" (uniform rs lo hi).
Proof. intros k e. discriminate. Qed.

Lemma raises_only_normal_array (loc scale : Q) (size : nat) :
  raises_only "ValueError" (normal_array rs loc scale size).
Proof.
  induction size as [|n IH]; cbn [normal_array].
  - destruct (Qlt_bool scale 0); [apply raises_only_raise|apply raises_only_ret].
  - apply raises_only_bind.
    + intros k e. unfold normal. destruct (Qlt_bool scale 0); [|discriminate].
      intros E. injection E as <-. reflexivity.
    + intros x. apply raises_only_bind; [exact IH|].
      intros xs. apply raises_only_ret.
Qed.

Lemma raises_only_oscillation (self : CircadianVanDerPolGenerator) (days hpd : Z) :
  raises_only "ValueError" (generate_circadian_oscillation odeint rs self days hpd).
Proof.
  unfold generate_circadian_oscillation.
  destruct (np_linspace 0 (inject_Z (days * hpd)) (days * hpd * 4)) as [t|e] eqn:Ht.
  - destruct (map fst (map (odeint (van_der_pol_equations self) (1, 0) t)
                           (seq 0 (length t)))) as [|a0 activity_raw];
      cbn [np_min np_max]; [apply raises_only_raise|].
    apply raises_only_bind; [apply raises_only_normal_array|].
    intros noise.
    match goal with
    | |- context [hourly_averages ?hs t ?aw] => destruct (hourly_averages hs t aw)
    end.
    apply raises_only_ret.
  - unfold np_linspace in Ht. destruct (days * hpd * 4 <? 0)%Z; [|discriminate].
    injection Ht as <-. apply raises_only_raise.
Qed.

Lemma raises_only_generate_class (c : Chronotype) (days n : Z) (st : gmap Z UserData * Z) :
  raises_only "ValueError" (generate_class np_pi odeint rs c days n st).
Proof.
  unfold generate_class. apply raises_only_for_each.
  intros i [users user_id].
  apply raises_only_bind.
  - destruct c; cbn [chronotype_generator];
      unfold generate_early_chronotype, generate_late_chronotype,
        generate_intermediate_chronotype;
      repeat (apply raises_only_bind; [apply raises_only_uniform|intros ?]);
      apply raises_only_ret.
  - intros g. apply raises_only_bind; [apply raises_only_oscillation|].
    intros data. apply raises_only_ret.
Qed.

Lemma raises_only_population (n_users days : Z) :
  raises_only "ValueError" (generate_population_data np_pi odeint rs now n_users days).
Proof.
  unfold generate_population_data.
  repeat (apply raises_only_bind; [apply raises_only_generate_class|intros ?]).
  apply raises_only_ret.
Qed.

Lemma generate_class_empty (c : Chronotype) (days n : Z) (st : gmap Z UserData * Z) (k : nat) :
  (n <= 0)%Z -> generate_class np_pi odeint rs c days n st k = Ok (st, k).
Proof.
  intros Hn. unfold generate_class, range_Z.
  replace (Z.to_nat n) with 0%nat by lia. reflexivity.
Qed.

Lemma generate_class_run (c : Chronotype) (days n : Z)
    (users : gmap Z UserData) (user_id : Z) (k : nat) :
  unit_draws rs -> (1 <= days)%Z -> (0 <= n)%Z -> fresh users user_id ->
  exists users' k',
    generate_class np_pi odeint rs c days n (users, user_id) k
      = Ok ((users', (user_id + n)%Z), k')
    /\ fresh users' (user_id + n)
    /\ (forall c', class_count c' users'
                   = (class_count c' users
                      + (if decide (c = c') then Z.to_nat n else 0))%nat)
    /\ size users' = (size users + Z.to_nat n)%nat.
Proof.
  intros Hu Hd Hn Hfresh.
  destruct (generate_class_spec c days (range_Z n) Hu Hd users user_id k Hfresh)
    as (users' & k' & Hrun & Hfresh' & Hcount & Hsize).
  assert (Hlen : length (range_Z n) = Z.to_nat n)
    by (unfold range_Z; rewrite length_map, length_seq; reflexivity).
  rewrite Hlen in *. rewrite Z2Nat.id in * by lia.
  exists users', k'. repeat split; assumption.
Qed.

Lemma class_count_empty (c : Chronotype) : class_count c ∅ = 0%nat.
Proof. unfold class_count. rewrite map_filter_empty. apply map_size_empty. Qed.

Lemma population_run (n_users days : Z) (k : nat) :
  unit_draws rs -> (0 <= n_users)%Z -> (1 <= days)%Z ->
  exists (pop : Population) (k' : nat),
    generate_population_data np_pi odeint rs now n_users days k = Ok (pop, k')
    /\ class_count early (users pop) = Z.to_nat (n_users / 4)
    /\ class_count late (users pop) = Z.to_nat (n_users / 4)
    /\ class_count intermediate (users pop)
       = Z.to_nat (n_users - n_users / 4 - n_users / 4)
    /\ size (users pop) = Z.to_nat n_users
    /\ chronotype_distribution (metadata pop)
       = {| d_early := n_users / 4; d_late := n_users / 4;
            d_intermediate := n_users - n_users / 4 - n_users / 4 |}.
Proof.
  intros Hu Hn Hd. unfold generate_population_data.
  rewrite py_int_quarter.
  rewrite Z.quot_div_nonneg by lia.
  set (q := (n_users / 4)%Z).
  assert (Hq : (0 <= q /\ 4 * q <= n_users)%Z).
  { unfold q. pose proof (Z.mul_div_le n_users 4 ltac:(lia)).
    pose proof (Z.div_pos n_users 4 ltac:(lia) ltac:(lia)). lia. }
  destruct (generate_class_run early days q ∅ 0 k Hu Hd ltac:(lia))
    as (u1 & k1 & H1 & F1 & C1 & S1); [intros j _; apply lookup_empty|].
  destruct (generate_class_run late days q u1 (0 + q) k1 Hu Hd ltac:(lia) F1)
    as (u2 & k2 & H2 & F2 & C2 & S2).
  destruct (generate_class_run intermediate days (n_users - q - q) u2 (0 + q + q) k2
              Hu Hd ltac:(lia) F2)
    as (u3 & k3 & H3 & F3 & C3 & S3).
  eexists. exists k3. split.
  - rewrite (bind_step _ _ _ _ _ H1), (bind_step _ _ _ _ _ H2),
      (bind_step _ _ _ _ _ H3). reflexivity.
  - cbn [users metadata chronotype_distribution fst].
    pose proof (C3 early) as E3. pose proof (C3 late) as L3.
    pose proof (C3 intermediate) as I3.
    rewrite (C2 early), (C1 early), class_count_empty in E3.
    rewrite (C2 late), (C1 late), class_count_empty in L3.
    rewrite (C2 intermediate), (C1 intermediate), class_count_empty in I3.
    repeat match goal with
           | H : context [decide (?a = ?b)] |- _ =>
               destruct (decide (a = b)); try discriminate; try congruence
           end.
    rewrite S3, S2, S1, map_size_empty.
    repeat split; lia.
Qed.

(** C8.  For every [n_users >= 1] (and [days >= 1], so that the signals can
    be generated) the population holds [floor(0.25 * n_users)] early users,
    as many late users, and [n_users] minus those two counts intermediate
    users; the three counts add up to [n_users], the metadata records them,
    and for 1000 users they are 250, 250 and 500. *)
Theorem population_class_counts (n_users days : Z) (k : nat) :
  unit_draws rs -> (1 <= n_users)%Z -> (1 <= days)%Z ->
  exists (pop : Population) (k' : nat),
    generate_population_data np_pi odeint rs now n_users days k = Ok (pop, k')
    /\ Z.of_nat (class_count early (users pop)) = Qfloor (0.25 * inject_Z n_users)
    /\ Z.of_nat (class_count late (users pop)) = Qfloor (0.25 * inject_Z n_users)
    /\ Z.of_nat (class_count intermediate (users pop))
       = (n_users - Z.of_nat (class_count early (users pop))
                  - Z.of_nat (class_count late (users pop)))%Z
    /\ (class_count early (users pop) + class_count late (users pop)
        + class_count intermediate (users pop))%nat = Z.to_nat n_users
    /\ size (users pop) = Z.to_nat n_users
    /\ d_early (chronotype_distribution (metadata pop))
       = Z.of_nat (class_count early (users pop))
    /\ d_late (chronotype_distribution (metadata pop))
       = Z.of_nat (class_count late (users pop))
    /\ d_intermediate (chronotype_distribution (metadata pop))
       = Z.of_nat (class_count intermediate (users pop))
    /\ (n_users = 1000%Z ->
        class_count early (users pop) = 250%nat
        /\ class_count late (users pop) = 250%nat
        /\ class_count intermediate (users pop) = 500%nat).
Proof.
  intros Hu Hn Hd.
  destruct (population_run n_users days k Hu ltac:(lia) Hd)
    as (pop & k' & Hrun & He & Hl & Hi & Hs & Hm).
  exists pop, k'. split; [exact Hrun|].
  rewrite quarter_floor, Hm, He, Hl, Hi, Hs.
  cbn [d_early d_late d_intermediate].
  assert (Hq : (0 <= n_users / 4 /\ 4 * (n_users / 4) <= n_users)%Z).
  { pose proof (Z.mul_div_le n_users 4 ltac:(lia)).
    pose proof (Z.div_pos n_users 4 ltac:(lia) ltac:(lia)). lia. }
  assert (Hk : n_users = 1000%Z -> (n_users / 4 = 250)%Z) by (intros ->; reflexivity).
  repeat split; try lia.
  all: intros E; specialize (Hk E); lia.
Qed.

(** C7, as the code has it.  [generate_population_data] validates nothing:
    it never fails with [GenerationError]; with [n_users < 1] it returns a
    population without users, whatever [days] is; with [n_users >= 1] and
    [days >= 1] it completes. *)
Theorem generate_population_data_errors (n_users days : Z) (k : nat) :
  generate_population_data np_pi odeint rs now n_users days k <> Raise "GenerationError"
  /\ ((n_users < 1)%Z ->
        exists pop, generate_population_data np_pi odeint rs now n_users days k
                      = Ok (pop, k)
                    /\ users pop = ∅)
  /\ ((1 <= n_users)%Z -> (1 <= days)%Z -> unit_draws rs ->
        exists pop k', generate_population_data np_pi odeint rs now n_users days k
                         = Ok (pop, k')).
Proof.
  split; [|split].
  - intros E. apply raises_only_population in E. discriminate E.
  - intros Hn. unfold generate_population_data.
    rewrite py_int_quarter.
    assert (Hq : (Z.quot n_users 4 <= 0)%Z).
    { apply Z.quot_le_upper_bound; lia. }
    assert (Hi : (n_users - Z.quot n_users 4 - Z.quot n_users 4 <= 0)%Z).
    { pose proof (Z.quot_rem' n_users 4).
      pose proof (Z.rem_nonpos n_users 4 ltac:(lia) ltac:(lia)).
      pose proof (Z.rem_bound_neg_pos n_users 4). lia. }
    eexists. split.
    + unfold bind.
      repeat (rewrite generate_class_empty by assumption; cbn beta iota).
      reflexivity.
    + reflexivity.
  - intros Hn Hd Hu.
    destruct (population_run n_users days k Hu ltac:(lia) Hd) as (pop & k' & Hrun & _).
    exists pop, k'. exact Hrun.
Qed.
End Population.


Lemma population_class_counts_witness :
  exists (pop : Population) (k' : nat),
    generate_population_data (22 # 7) example_odeint example_source "now" 6 1 0%nat
      = Ok (pop, k')
    /\ Z.of_nat (class_count early (users pop)) = Qfloor (0.25 * inject_Z 6)
    /\ (class_count early (users pop) + class_count late (users pop)
        + class_count intermediate (users pop))%nat = 6%nat.
Proof.
  destruct (population_class_counts (22 # 7) example_odeint example_source "now" 6 1 0%nat)
    as (pop & k' & Hrun & He & _ & _ & Hsum & _).
  - intros k. split; discriminate.
  - lia.
  - lia.
  - exists pop, k'. split; [exact Hrun|]. split; [exact He|exact Hsum].
Defined.

Lemma generate_population_data_errors_witness :
  exists pop : Population,
    generate_population_data (22 # 7) example_odeint example_source "now" 0 30 0%nat
      = Ok (pop, 0%nat)
    /\ users pop = ∅.
Proof.
  apply (proj1 (proj2 (generate_population_data_errors
                         (22 # 7) example_odeint example_source "now" 0 30 0%nat))).
  lia.
Defined.

(** C7 as the specification words it fails for zero users: the condition
    [n_users < 1] holds and no [GenerationError] is raised. *)
Lemma generate_population_data_zero_users :
  ~ (generate_population_data (22 # 7) example_odeint example_source "now" 0 30 0%nat
       = Raise "GenerationError"
     <-> (0 < 1 \/ 30 < 1)%Z).
Proof.
  intros [_ Hfail].
  assert (Hraise := Hfail (or_introl eq_refl)).
  vm_compute in Hraise. discriminate Hraise.
Qed.

End PopulationFacts.



Module PerturbationFacts.
Import Py PyFacts Perturbation.
Local Open Scope Q_scope.

Lemma py_index_lt (len : nat) (i : Z) (j : nat) :
  py_index len i = Ok j -> (j < len)%nat.
Proof.
  unfold py_index.
  destruct ((0 <=? i)%Z && (i <? Z.of_nat len)%Z) eqn:H1.
  - intros E. injection E as <-. apply andb_true_iff in H1 as [H1 H2]. lia.
  - destruct ((- Z.of_nat len <=? i)%Z && (i <? 0)%Z) eqn:H2; [|discriminate].
    intros E. injection E as <-. apply andb_true_iff in H2 as [H2 H3]. lia.
Qed.

Lemma py_index_nonneg (len : nat) (i : Z) :
  (0 <= i < Z.of_nat len)%Z -> py_index len i = Ok (Z.to_nat i).
Proof.
  intros Hi. unfold py_index.
  destruct (Z.leb_spec 0 i); [|lia]. destruct (Z.ltb_spec i (Z.of_nat len)); [|lia].
  reflexivity.
Qed.

Lemma get_item_ok (a : list Q) (i : Z) (x : Q) :
  get_item a i = Ok x -> exists j, a !! j = Some x.
Proof.
  unfold get_item. destruct (py_index (length a) i) as [j|e]; [|discriminate].
  destruct (a !! j) as [y|] eqn:Hj; [|discriminate].
  intros E. injection E as <-. exists j. exact Hj.
Qed.

Lemma get_item_nonneg (a : list Q) (i : Z) :
  (0 <= i < Z.of_nat (length a))%Z -> exists x, get_item a i = Ok x.
Proof.
  intros Hi. unfold get_item. rewrite py_index_nonneg by exact Hi.
  destruct (lookup_lt_is_Some_2 a (Z.to_nat i) ltac:(lia)) as [x Hx].
  rewrite Hx. exists x. reflexivity.
Qed.

Lemma set_item_ok (a : list Q) (i : Z) (v : Q) (a' : list Q) :
  set_item a i v = Ok a' -> exists j, (j < length a)%nat /\ a' = <[j := v]> a.
Proof.
  unfold set_item. destruct (py_index (length a) i) as [j|e] eqn:Hj; [|discriminate].
  intros E. injection E as <-. exists j. split; [eapply py_index_lt; exact Hj|reflexivity].
Qed.

Lemma set_item_nonneg (a : list Q) (i : Z) (v : Q) :
  (0 <= i < Z.of_nat (length a))%Z -> set_item a i v = Ok (<[Z.to_nat i := v]> a).
Proof.
  intros Hi. unfold set_item. rewrite py_index_nonneg by exact Hi. reflexivity.
Qed.

Lemma modify_item_ok (a : list Q) (i : Z) (f : Q -> Q) (a' : list Q) :
  modify_item a i f = Ok a' ->
  exists j x, py_index (length a) i = Ok j /\ a !! j = Some x /\ a' = <[j := f x]> a.
Proof.
  unfold modify_item, get_item, set_item.
  destruct (py_index (length a) i) as [j|e]; [|discriminate].
  destruct (a !! j) as [x|] eqn:Hx; [|discriminate].
  intros E. injection E as <-. exists j, x. repeat split. exact Hx.
Qed.

Lemma modify_item_nonneg (a : list Q) (i : Z) (f : Q -> Q) :
  (0 <= i < Z.of_nat (length a))%Z ->
  exists x, modify_item a i f = Ok (<[Z.to_nat i := f x]> a).
Proof.
  intros Hi. unfold modify_item.
  destruct (get_item_nonneg a i Hi) as [x Hx]. rewrite Hx.
  exists x. apply set_item_nonneg. exact Hi.
Qed.

Lemma kept_refl (a : list Q) : kept a a.
Proof. split; [reflexivity|tauto]. Qed.

Lemma kept_trans (a b c : list Q) : kept a b -> kept b c -> kept a c.
Proof. intros [L1 F1] [L2 F2]. split; [congruence|tauto]. Qed.

Lemma in_range_clip (x : Q) : in_range (np_clip x 0.05 1.0).
Proof. apply np_clip_range. discriminate. Qed.

Lemma kept_insert (a : list Q) (j : nat) (v : Q) :
  in_range v -> kept a (<[j := v]> a).
Proof.
  intros Hv. split; [apply length_insert|].
  intros Ha. apply Forall_insert; assumption.
Qed.

Lemma lift_ok {A} (r : Result A) (k : nat) (a : A) (k' : nat) :
  lift r k = Ok (a, k') -> r = Ok a /\ k' = k.
Proof.
  unfold lift. destruct r as [b|e]; [|discriminate].
  intros E. injection E as <- <-. split; reflexivity.
Qed.

Lemma for_each_kept {A} (xs : list A) (body : A -> list Q -> M (list Q)) :
  (forall x a k a' k', In x xs -> body x a k = Ok (a', k') -> kept a a') ->
  forall a k a' k', for_each xs body a k = Ok (a', k') -> kept a a'.
Proof.
  intros Hbody a k a' k' Hrun.
  apply (for_each_inv (kept a) xs body) with (s := a) (k := k) (k' := k').
  - intros x s j s' j' Hx Hs Hstep. eapply kept_trans; [exact Hs|].
    eapply Hbody; eassumption.
  - apply kept_refl.
  - exact Hrun.
Qed.

Lemma modify_after_insert (a : list Q) (i : Z) (j : nat) (y : Q) (f : Q -> Q)
    (a' : list Q) :
  py_index (length a) i = Ok j ->
  modify_item (<[j := y]> a) i f = Ok a' -> a' = <[j := f y]> a.
Proof.
  intros Hj Hm. apply modify_item_ok in Hm as (j' & x & Hj' & Hx & ->).
  rewrite length_insert, Hj in Hj'. injection Hj' as <-.
  rewrite list_lookup_insert_eq in Hx by (eapply py_index_lt; exact Hj).
  injection Hx as <-. apply list_insert_insert_eq.
Qed.

Lemma py_int_nonneg (x : Q) : 0 <= x -> (0 <= py_int x)%Z.
Proof.
  intros Hx. unfold py_int.
  apply Qle_bool_iff in Hx as Hb. rewrite Hb.
  change 0%Z with (Qfloor 0). apply Qfloor_resp_le. exact Hx.
Qed.

Lemma py_int_le (x : Q) (n : Z) : 0 <= x -> x <= inject_Z n -> (py_int x <= n)%Z.
Proof.
  intros Hx Hn. unfold py_int.
  apply Qle_bool_iff in Hx as Hb. rewrite Hb.
  rewrite <- (Qfloor_Z n). apply Qfloor_resp_le. exact Hn.
Qed.

Lemma in_range_list (lo hi i : Z) : In i (range lo hi) -> (lo <= i < hi)%Z.
Proof.
  unfold range. intros Hin. apply in_map_iff in Hin as (j & <- & Hj).
  apply in_seq in Hj. lia.
Qed.

Lemma length_range (lo hi : Z) : length (range lo hi) = Z.to_nat (hi - lo).
Proof. unfold range. rewrite length_map, length_seq. reflexivity. Qed.

Lemma in_enumerate {A} (xs : list A) (i : Z) (x : A) :
  In (i, x) (enumerate xs) -> (0 <= i < Z.of_nat (length xs))%Z.
Proof.
  unfold enumerate. intros Hin. apply in_combine_l in Hin.
  apply in_map_iff in Hin as (j & <- & Hj). apply in_seq in Hj. lia.
Qed.

Section Enhancer.
Variable np_pi : Q.
Variable np_cos : Q -> Q.
Variable rs : RandomSource.

Lemma disturb_kept (a : list Q) (i : Z) (factor scale : Q) (k : nat)
    (a' : list Q) (k' : nat) :
  disturb rs a i factor scale k = Ok (a', k') -> kept a a'.
Proof.
  unfold disturb. intros Hrun.
  apply bind_ok in Hrun as (a1 & k1 & H1 & Hrun).
  apply bind_ok in Hrun as (noise & k2 & _ & Hrun).
  apply bind_ok in Hrun as (a2 & k3 & H2 & H3).
  apply lift_ok in H1 as [H1 _]. apply lift_ok in H2 as [H2 _].
  apply lift_ok in H3 as [H3 _].
  apply modify_item_ok in H1 as (j & x & Hj & _ & ->).
  apply (modify_after_insert a i j _ _ _ Hj) in H2 as ->.
  apply (modify_after_insert a i j _ _ _ Hj) in H3 as ->.
  apply kept_insert, in_range_clip.
Qed.

Lemma disturb_loop_kept (hours : list Z) (factor scale : Q) (a : list Q) (k : nat)
    (a' : list Q) (k' : nat) :
  for_each hours (fun i activity => disturb rs activity i factor scale) a k
    = Ok (a', k') ->
  kept a a'.
Proof.
  apply for_each_kept. intros i b j b' j' _. apply disturb_kept.
Qed.

Lemma social_jetlag_kept (u : UserData) (k : nat) (u' : UserData) (k' : nat) :
  add_social_jetlag rs u k = Ok (u', k') ->
  exists out, activity_level_with_social_jetlag u' = Some out
              /\ kept (activity_level u) out.
Proof.
  unfold add_social_jetlag. intros Hrun.
  apply bind_ok in Hrun as (out & k1 & Hloop & Hret).
  injection Hret as <- _. exists out. split; [reflexivity|].
  revert Hloop. apply for_each_kept.
  intros [i hour] a j a' j' _.
  destruct (_ || _); [|intros E; injection E as <- _; apply kept_refl].
  intros Hstep. apply bind_ok in Hstep as (shift & j1 & _ & Hstep).
  destruct (_ <? _)%Z; [|injection Hstep as <- _; apply kept_refl].
  apply bind_ok in Hstep as (v & j2 & Hget & Hset).
  apply lift_ok in Hget as [Hget _]. apply lift_ok in Hset as [Hset _].
  apply get_item_ok in Hget as [jv Hv].
  apply set_item_ok in Hset as (jw & _ & ->).
  split; [apply length_insert|].
  intros Ha. apply Forall_insert; [exact Ha|].
  exact (Forall_lookup_1 _ _ _ _ Ha Hv).
Qed.

Lemma stress_patterns_kept (u : UserData) (k : nat) (u' : UserData) (k' : nat) :
  add_stress_patterns rs u k = Ok (u', k') ->
  exists out, activity_level_with_stress u' = Some out
              /\ kept (activity_level u) out.
Proof.
  unfold add_stress_patterns. intros Hrun.
  apply bind_ok in Hrun as (x & k1 & _ & Hrun).
  apply bind_ok in Hrun as (stress_days & k2 & _ & Hrun).
  apply bind_ok in Hrun as (out & k3 & Hloop & Hret).
  injection Hret as <- _. exists out. split; [reflexivity|].
  revert Hloop. apply for_each_kept.
  intros stress_day a j a' j' _. apply disturb_loop_kept.
Qed.

Lemma seasonal_variation_kept (u : UserData) (k : nat) (u' : UserData) (k' : nat) :
  add_seasonal_variation np_pi np_cos u k = Ok (u', k') ->
  exists out, activity_level_with_seasonal u' = Some out
              /\ kept (activity_level u) out.
Proof.
  unfold add_seasonal_variation. intros Hrun.
  apply bind_ok in Hrun as (out & k1 & Hloop & Hret).
  injection Hret as <- _. exists out. split; [reflexivity|].
  revert Hloop. apply for_each_kept.
  intros [i hour] a j a' j' _ Hstep.
  apply bind_ok in Hstep as (a1 & j1 & H1 & H2).
  apply lift_ok in H1 as [H1 _]. apply lift_ok in H2 as [H2 _].
  apply modify_item_ok in H1 as (p & x & Hp & _ & ->).
  apply (modify_after_insert a i p _ _ _ Hp) in H2 as ->.
  apply kept_insert, in_range_clip.
Qed.

Lemma travel_trip_kept (total_days trip_day : Z) (a : list Q) (ev : list TravelEvent)
    (k : nat) (a' : list Q) (ev' : list TravelEvent) (k' : nat) :
  travel_trip rs total_days trip_day (a, ev) k = Ok ((a', ev'), k') -> kept a a'.
Proof.
  unfold travel_trip. intros Hrun.
  apply bind_ok in Hrun as (tz & k1 & _ & Hrun).
  apply bind_ok in Hrun as (rd & k2 & _ & Hrun).
  apply bind_ok in Hrun as (out & k3 & Hloop & Hret).
  injection Hret as <- _ _.
  revert Hloop. apply for_each_kept.
  intros recovery_day b j b' j' _.
  destruct (_ <? _)%Z; [|intros E; injection E as <- _; apply kept_refl].
  apply disturb_loop_kept.
Qed.

Lemma travel_jetlag_kept (u : UserData) (n_trips : Z) (k : nat)
    (u' : UserData) (k' : nat) :
  add_travel_jetlag rs u n_trips k = Ok (u', k') ->
  exists out events,
    activity_level_with_jetlag u' = Some out
    /\ travel_events u' = Some events
    /\ kept (activity_level u) out.
Proof.
  unfold add_travel_jetlag.
  destruct (_ && _).
  - intros Hrun.
    apply bind_ok in Hrun as (trip_days & k1 & _ & Hrun).
    apply bind_ok in Hrun as ([out events] & k2 & Hloop & Hret).
    injection Hret as <- _. exists out, events.
    split; [reflexivity|]. split; [reflexivity|].
    apply (for_each_inv (fun st => kept (activity_level u) (fst st))
             trip_days (travel_trip rs (days_of (time_hours u))))
      with (s := (activity_level u, [])) (k := k1) (s' := (out, events)) (k' := k2).
    + intros trip_day [b ev] j [b' ev'] j' _ Hb Hstep. cbn [fst] in *.
      eapply kept_trans; [exact Hb|]. eapply travel_trip_kept. exact Hstep.
    + apply kept_refl.
    + exact Hloop.
  - intros E. injection E as <- _. eexists. eexists.
    split; [reflexivity|]. split; [reflexivity|]. apply kept_refl.
Qed.


Lemma social_jetlag_total (u : UserData) (k : nat) :
  unit_draws rs -> exists u' k', add_social_jetlag rs u k = Ok (u', k').
Proof.
  intros Hu. unfold add_social_jetlag.
  match goal with
  | |- context [for_each ?xs ?body ?a] =>
      destruct (for_each_total (fun _ => True) xs body) with (s := a) (k := k)
        as (out & k1 & Hloop & _)
  end.
  - intros [i hour] a j Hin _. apply in_enumerate in Hin.
    destruct (_ || _); [|exists a, j; split; [reflexivity|exact I]].
    unfold bind at 1. unfold uniform.
    destruct (Hu j) as [Hu0 _].
    assert (Hps : (0 <= py_int (1 + (3 - 1) * random_sample rs j))%Z)
      by (apply py_int_nonneg; lra).
    destruct (Z.ltb_spec (i + py_int (1 + (3 - 1) * random_sample rs j))
                (Z.of_nat (length a))) as [Hlt|Hge];
      [|eexists; eexists; split; [reflexivity|exact I]].
    destruct (get_item_nonneg a (i + py_int (1 + (3 - 1) * random_sample rs j))
                ltac:(lia)) as [v Hv].
    unfold bind, lift. rewrite Hv, set_item_nonneg by lia.
    eexists. eexists. split; [reflexivity|exact I].
  - exact I.
  - rewrite (bind_step _ _ _ _ _ Hloop). eexists. eexists. reflexivity.
Qed.

Lemma seasonal_variation_total (u : UserData) (k : nat) :
  (length (time_hours u) <= length (activity_level u))%nat ->
  exists u' k', add_seasonal_variation np_pi np_cos u k = Ok (u', k').
Proof.
  intros Hlen. unfold add_seasonal_variation.
  match goal with
  | |- context [for_each ?xs ?body ?a] =>
      destruct (for_each_total (fun b => length b = length (activity_level u)) xs body)
        with (s := a) (k := k) as (out & k1 & Hloop & _)
  end.
  - intros [i hour] a j Hin Ha. apply in_enumerate in Hin.
    destruct (modify_item_nonneg a i
                (fun x => x * (1 + seasonal_strengths (chronotype u)
                                   * np_cos (2 * np_pi
                                             * inject_Z ((hour / 24) mod 365 - 80) / 365)))
                ltac:(lia)) as [x Hx].
    unfold bind, lift. rewrite Hx.
    destruct (modify_item_nonneg (<[Z.to_nat i := x * (1 + seasonal_strengths (chronotype u)
                                   * np_cos (2 * np_pi
                                             * inject_Z ((hour / 24) mod 365 - 80) / 365))]> a)
                i (fun x => np_clip x 0.05 1.0)) as [y Hy];
      [rewrite length_insert; lia|].
    rewrite Hy. eexists. eexists. split; [reflexivity|].
    rewrite !length_insert. exact Ha.
  - reflexivity.
  - rewrite (bind_step _ _ _ _ _ Hloop). eexists. eexists. reflexivity.
Qed.

Lemma disturb_total (a : list Q) (i : Z) (factor scale : Q) (k : nat) :
  (0 <= i < Z.of_nat (length a))%Z -> 0 <= scale ->
  exists a' k', disturb rs a i factor scale k = Ok (a', k') /\ length a' = length a.
Proof.
  intros Hi Hs. unfold disturb, bind, lift, normal.
  destruct (modify_item_nonneg a i (fun x => x * factor) Hi) as [x Hx].
  rewrite Hx. apply Qlt_bool_false in Hs. rewrite Hs.
  match goal with
  | |- context [modify_item ?b i ?f] =>
      destruct (modify_item_nonneg b i f) as [y Hy];
        [rewrite length_insert; exact Hi|rewrite Hy]
  end.
  match goal with
  | |- context [modify_item ?b i ?f] =>
      destruct (modify_item_nonneg b i f) as [z Hz];
        [rewrite !length_insert; exact Hi|rewrite Hz]
  end.
  eexists. eexists. split; [reflexivity|]. rewrite !length_insert. reflexivity.
Qed.

Lemma disturb_loop_total (lo hi : Z) (factor scale : Q) (a : list Q) (k : nat) :
  (0 <= lo)%Z -> (hi <= Z.of_nat (length a))%Z -> 0 <= scale ->
  exists a' k',
    for_each (range lo hi) (fun i activity => disturb rs activity i factor scale) a k
      = Ok (a', k')
    /\ length a' = length a.
Proof.
  intros Hlo Hhi Hs.
  apply (for_each_total (fun b => length b = length a)); [|reflexivity].
  intros i b j Hin Hb. apply in_range_list in Hin.
  destruct (disturb_total b i factor scale j ltac:(lia) Hs) as (b' & j' & Hrun & Hlen).
  exists b', j'. split; [exact Hrun|congruence].
Qed.

Lemma sample_total {A} (a : list A) (n : nat) (k : nat) :
  (n <= length a)%nat ->
  exists xs k', sample rs a n k = Ok (xs, k') /\ forall x, In x xs -> In x a.
Proof.
  revert a k. induction n as [|n IH]; intros a k Hn.
  - exists [], k. split; [reflexivity|intros x []].
  - cbn [sample].
    assert (Hi : (random_index rs k mod length a < length a)%nat)
      by (apply Nat.mod_upper_bound; lia).
    destruct (nth_error a (random_index rs k mod length a)) as [x|] eqn:Hx;
      [|apply nth_error_None in Hx; lia].
    set (i := (random_index rs k mod length a)%nat) in *.
    destruct (IH (firstn i a ++ skipn (S i) a) (S k)) as (xs & k' & Hrun & Hsub).
    { rewrite length_app, length_firstn, length_skipn. lia. }
    exists (x :: xs), k'. split.
    + unfold bind. rewrite Hrun. reflexivity.
    + intros y [<- | Hy]; [eapply nth_error_In; exact Hx|].
      apply Hsub in Hy. apply in_app_or in Hy as [Hy | Hy].
      * rewrite <- (firstn_skipn i a). apply in_or_app. left. exact Hy.
      * rewrite <- (firstn_skipn (S i) a). apply in_or_app. right. exact Hy.
Qed.

Lemma choice_total {A} (a : list A) (size : Z) (k : nat) :
  (0 <= size <= Z.of_nat (length a))%Z ->
  exists xs k', choice rs a size k = Ok (xs, k') /\ forall x, In x xs -> In x a.
Proof.
  intros Hs. unfold choice.
  destruct (Z.ltb_spec size 0); [lia|].
  destruct (Nat.eqb_spec (length a) 0) as [H0|H0].
  - destruct (Z.eqb_spec size 0); [|lia]. cbn [negb andb].
    destruct (Z.ltb_spec (Z.of_nat (length a)) size); [lia|].
    apply sample_total. lia.
  - cbn [andb]. destruct (Z.ltb_spec (Z.of_nat (length a)) size); [lia|].
    apply sample_total. lia.
Qed.

Lemma stress_patterns_total (u : UserData) (k : nat) :
  unit_draws rs -> exists u' k', add_stress_patterns rs u k = Ok (u', k').
Proof.
  intros Hu. unfold add_stress_patterns.
  unfold bind at 1. unfold uniform.
  destruct (Hu k) as [Hu0 Hu1].
  set (days := days_of (activity_level u)).
  assert (Hdays : (0 <= days /\ days * 24 <= Z.of_nat (length (activity_level u)))%Z).
  { unfold days, days_of. pose proof (Z.mul_div_le (Z.of_nat (length (activity_level u))) 24).
    pose proof (Z.div_pos (Z.of_nat (length (activity_level u))) 24). lia. }
  set (r := random_sample rs k) in *.
  assert (Hd0 : 0 <= inject_Z days) by (rewrite <- (Zle_Qle 0); lia).
  assert (Hx0 : 0 <= (0.05 + (0.10 - 0.05) * r) * inject_Z days).
  { apply Qmult_le_0_compat; [lra|exact Hd0]. }
  assert (Hx1 : (0.05 + (0.10 - 0.05) * r) * inject_Z days <= inject_Z days).
  { rewrite <- (Qmult_1_l (inject_Z days)) at 2.
    apply Qmult_le_compat_r; [lra|exact Hd0]. }
  destruct (choice_total (range 0 days)
              (py_int ((0.05 + (0.10 - 0.05) * r) * inject_Z days)) (S k))
    as (stress_days & k1 & Hchoice & Hsub).
  { rewrite length_range. split; [apply py_int_nonneg; exact Hx0|].
    rewrite Z.sub_0_r, Z2Nat.id by lia. apply py_int_le; assumption. }
  rewrite (bind_step _ _ _ _ _ Hchoice).
  match goal with
  | |- context [for_each stress_days ?body ?a] =>
      destruct (for_each_total (fun b => length b = length (activity_level u))
                  stress_days body) with (s := a) (k := k1)
        as (out & k2 & Hloop & _)
  end.
  - intros stress_day a j Hin Ha.
    apply Hsub, in_range_list in Hin.
    destruct (disturb_loop_total (stress_day * 24)
                (Z.min (stress_day * 24 + 24) (Z.of_nat (length a)))
                (1 - stress_factors (chronotype u))
                (stress_factors (chronotype u) * 0.5) a j)
      as (a' & j' & Hrun & Hlen); [lia|lia| |].
    + destruct (chronotype u); discriminate.
    + exists a', j'. split; [exact Hrun|congruence].
  - reflexivity.
  - rewrite (bind_step _ _ _ _ _ Hloop). eexists. eexists. reflexivity.
Qed.


Lemma shift_strength_nonneg (timezone_shift recovery_day recovery_days : Z) :
  (0 <= recovery_day < recovery_days)%Z ->
  0 <= inject_Z (Z.abs timezone_shift)
       * (1 - inject_Z recovery_day / inject_Z recovery_days) / 8 * 0.2.
Proof.
  intros Hr.
  assert (Hz : 0 <= inject_Z (Z.abs timezone_shift))
    by (rewrite <- (Zle_Qle 0); lia).
  assert (Hf : inject_Z recovery_day / inject_Z recovery_days <= 1).
  { apply Qle_shift_div_r; [rewrite <- (Zlt_Qlt 0); lia|].
    rewrite Qmult_1_l, <- Zle_Qle. lia. }
  apply Qmult_le_0_compat; [|discriminate].
  apply Qle_shift_div_l; [reflexivity|].
  rewrite Qmult_0_l. apply Qmult_le_0_compat; [exact Hz|lra].
Qed.

Lemma travel_trip_total (total_days trip_day : Z) (a : list Q) (ev : list TravelEvent)
    (k : nat) :
  (0 <= trip_day)%Z ->
  exists a' ev' k',
    travel_trip rs total_days trip_day (a, ev) k = Ok ((a', ev'), k')
    /\ length a' = length a.
Proof.
  intros Htrip. unfold travel_trip.
  unfold bind at 1. unfold choice_one.
  destruct (nth_error (A:=Z) _ _) as [timezone_shift|] eqn:Htz.
  2:{ apply nth_error_None in Htz.
      pose proof (Nat.mod_upper_bound (random_index rs k) 6). cbn [length] in *. lia. }
  unfold bind at 1. unfold randint.
  destruct (Z.leb_spec 8 3); [lia|].
  set (recovery_days := (3 + Z.of_nat (random_index rs (S k)) mod (8 - 3))%Z).
  assert (Hrd : (3 <= recovery_days < 8)%Z).
  { unfold recovery_days.
    pose proof (Z.mod_pos_bound (Z.of_nat (random_index rs (S k))) (8 - 3)). lia. }
  match goal with
  | |- context [for_each (range 0 recovery_days) ?body a] =>
      destruct (for_each_total (fun b => length b = length a)
                  (range 0 recovery_days) body) with (s := a) (k := S (S k))
        as (out & k1 & Hloop & Hlen)
  end.
  - intros recovery_day b j Hin Hb. apply in_range_list in Hin.
    destruct (_ <? _)%Z; [|exists b, j; split; [reflexivity|exact Hb]].
    match goal with
    | |- context [for_each (range ?lo ?hi) (fun _ _ => disturb rs _ _ ?f ?s) b j] =>
        destruct (disturb_loop_total lo hi f s b j) as (b' & j' & Hrun & Hlen)
    end; [lia|lia|apply shift_strength_nonneg; lia|].
    exists b', j'. split; [exact Hrun|congruence].
  - reflexivity.
  - rewrite (bind_step _ _ _ _ _ Hloop). unfold ret.
    eexists. eexists. eexists. split; [reflexivity|exact Hlen].
Qed.

(** Where no trip is asked for, or fewer than ten days are there, the travel
    log is empty and the signal is the base signal. *)
Lemma travel_jetlag_no_trip (u : UserData) (n_trips : Z) (k : nat) :
  (n_trips <= 0 \/ days_of (time_hours u) <= 9)%Z ->
  add_travel_jetlag rs u n_trips k = Ok (with_jetlag u (activity_level u) [], k).
Proof.
  intros Hc. unfold add_travel_jetlag.
  destruct (Z.ltb_spec 0 n_trips) as [Hn|Hn]; [|reflexivity].
  destruct (Z.ltb_spec 7 (days_of (time_hours u))) as [Hd|Hd]; [|reflexivity].
  cbn [andb].
  assert (Htd : (days_of (time_hours u) = 8 \/ days_of (time_hours u) = 9)%Z) by lia.
  assert (Hsize : Z.min n_trips (days_of (time_hours u) / 10) = 0%Z)
    by (destruct Htd as [E | E]; rewrite E;
        [change (8 / 10)%Z with 0%Z|change (9 / 10)%Z with 0%Z]; lia).
  assert (Hpop : range 7 (days_of (time_hours u) - 7) = [])
    by (destruct Htd as [E | E]; rewrite E; reflexivity).
  rewrite Hsize, Hpop. reflexivity.
Qed.

(** With ten to fourteen days and a trip asked for, the draw of trip days
    raises: one day is requested from the empty range. *)
Lemma travel_jetlag_raises (u : UserData) (n_trips : Z) (k : nat) :
  (0 < n_trips)%Z -> (10 <= days_of (time_hours u) <= 14)%Z ->
  add_travel_jetlag rs u n_trips k = Raise "ValueError".
Proof.
  intros Hn Hd. unfold add_travel_jetlag.
  destruct (Z.ltb_spec 0 n_trips); [|lia].
  destruct (Z.ltb_spec 7 (days_of (time_hours u))); [|lia].
  cbn [andb].
  assert (Hdiv : (days_of (time_hours u) / 10 = 1)%Z).
  { symmetry. apply Z.div_unique with (r := (days_of (time_hours u) - 10)%Z); lia. }
  assert (Hsize : Z.min n_trips (days_of (time_hours u) / 10) = 1%Z) by lia.
  assert (Hpop : range 7 (days_of (time_hours u) - 7) = []).
  { unfold range. replace (Z.to_nat (days_of (time_hours u) - 7 - 7)) with 0%nat by lia.
    reflexivity. }
  rewrite Hsize, Hpop. reflexivity.
Qed.

Lemma travel_jetlag_total (u : UserData) (n_trips : Z) (k : nat) :
  (n_trips <= 0 \/ days_of (time_hours u) <= 9 \/ 15 <= days_of (time_hours u))%Z ->
  exists u' k', add_travel_jetlag rs u n_trips k = Ok (u', k').
Proof.
  intros [Hc | [Hc | Hc]];
    [rewrite travel_jetlag_no_trip by (left; exact Hc); eexists; eexists; reflexivity
    |rewrite travel_jetlag_no_trip by (right; exact Hc); eexists; eexists; reflexivity|].
  destruct (Z.le_gt_cases n_trips 0) as [Hn|Hn];
    [rewrite travel_jetlag_no_trip by (left; exact Hn); eexists; eexists; reflexivity|].
  unfold add_travel_jetlag.
  destruct (Z.ltb_spec 0 n_trips); [|lia].
  destruct (Z.ltb_spec 7 (days_of (time_hours u))); [|lia].
  cbn [andb].
  set (total_days := days_of (time_hours u)) in *.
  assert (Hdiv : (0 <= total_days / 10 <= total_days - 14)%Z).
  { pose proof (Z.mul_div_le total_days 10 ltac:(lia)).
    pose proof (Z.div_pos total_days 10 ltac:(lia) ltac:(lia)). lia. }
  destruct (choice_total (range 7 (total_days - 7))
              (Z.min n_trips (total_days / 10)) k)
    as (trip_days & k1 & Hchoice & Hsub).
  { rewrite length_range. lia. }
  rewrite (bind_step _ _ _ _ _ Hchoice).
  destruct (for_each_total (fun st => True) trip_days (travel_trip rs total_days))
    with (s := (activity_level u, @nil TravelEvent)) (k := k1)
    as (st & k2 & Hloop & _).
  - intros trip_day [a ev] j Hin _.
    apply Hsub, in_range_list in Hin.
    destruct (travel_trip_total total_days trip_day a ev j ltac:(lia))
      as (a' & ev' & j' & Hrun & _).
    exists (a', ev'), j'. split; [exact Hrun|exact I].
  - exact I.
  - rewrite (bind_step _ _ _ _ _ Hloop). eexists. eexists. reflexivity.
Qed.

End Enhancer.

Lemma kept_band (a out : list Q) :
  kept a out -> Forall in_range a ->
  length out = length a /\ Forall in_range out.
Proof. intros [Hl Hf] Ha. split; [exact Hl|exact (Hf Ha)]. Qed.

(** C5.  For a user whose base samples lie in [0.05, 1.0] (hour indices and
    samples in equal number), each of the four transforms, when it returns,
    attaches a derived signal of the length of the base signal with every
    sample in [0.05, 1.0].  The social-jetlag and stress transforms return
    for every stream of draws in [0, 1), the seasonal transform always, the
    travel transform unless a trip is asked of a history of ten to fourteen
    days. *)
Theorem perturbations_keep_length_and_range
    (np_pi : Q) (np_cos : Q -> Q) (rs : RandomSource)
    (u : UserData) (n_trips : Z) (k : nat) :
  length (time_hours u) = length (activity_level u) ->
  Forall in_range (activity_level u) ->
  derived_in_band u activity_level_with_social_jetlag (add_social_jetlag rs u k)
  /\ derived_in_band u activity_level_with_stress (add_stress_patterns rs u k)
  /\ derived_in_band u activity_level_with_seasonal
       (add_seasonal_variation np_pi np_cos u k)
  /\ derived_in_band u activity_level_with_jetlag (add_travel_jetlag rs u n_trips k)
  /\ (unit_draws rs ->
        is_ok (add_social_jetlag rs u k) = true
        /\ is_ok (add_stress_patterns rs u k) = true)
  /\ is_ok (add_seasonal_variation np_pi np_cos u k) = true
  /\ ((n_trips <= 0 \/ days_of (time_hours u) <= 9 \/ 15 <= days_of (time_hours u))%Z ->
        is_ok (add_travel_jetlag rs u n_trips k) = true).
Proof.
  intros Hlen Hband.
  split; [|split; [|split; [|split; [|split; [|split]]]]].
  - intros u' k' Hrun.
    destruct (social_jetlag_kept rs u k u' k' Hrun) as (out & Hout & Hk).
    exists out. split; [exact Hout|]. apply kept_band; assumption.
  - intros u' k' Hrun.
    destruct (stress_patterns_kept rs u k u' k' Hrun) as (out & Hout & Hk).
    exists out. split; [exact Hout|]. apply kept_band; assumption.
  - intros u' k' Hrun.
    destruct (seasonal_variation_kept np_pi np_cos u k u' k' Hrun) as (out & Hout & Hk).
    exists out. split; [exact Hout|]. apply kept_band; assumption.
  - intros u' k' Hrun.
    destruct (travel_jetlag_kept rs u n_trips k u' k' Hrun)
      as (out & events & Hout & _ & Hk).
    exists out. split; [exact Hout|]. apply kept_band; assumption.
  - intros Hu. split.
    + destruct (social_jetlag_total rs u k Hu) as (u' & k' & ->). reflexivity.
    + destruct (stress_patterns_total rs u k Hu) as (u' & k' & ->). reflexivity.
  - destruct (seasonal_variation_total np_pi np_cos u k) as (u' & k' & ->);
      [lia|reflexivity].
  - intros Hd.
    destruct (travel_jetlag_total rs u n_trips k Hd) as (u' & k' & ->). reflexivity.
Qed.

Lemma flat_user_in_band (days : nat) : Forall in_range (activity_level (flat_user days)).
Proof.
  apply List.Forall_forall. intros x Hx. cbn [activity_level flat_user] in Hx.
  apply repeat_spec in Hx. subst x. split; discriminate.
Qed.

Lemma perturbations_keep_length_and_range_witness :
  derived_in_band (flat_user 15) activity_level_with_jetlag
    (add_travel_jetlag example_draws (flat_user 15) 2 0%nat)
  /\ is_ok (add_travel_jetlag example_draws (flat_user 15) 2 0%nat) = true.
Proof.
  destruct (perturbations_keep_length_and_range (22 # 7) example_cos example_draws
              (flat_user 15) 2 0%nat)
    as (_ & _ & _ & Htravel & _ & _ & Hok).
  - vm_compute. reflexivity.
  - apply flat_user_in_band.
  - split; [exact Htravel|]. apply Hok. right. right. vm_compute. discriminate.
Defined.

(** C6 (the code departs from it).  A user with ten days of data, asked for
    the default two trips: the range of trip-start days [7, 3) is empty, one
    day is requested from it, and [np.random.choice] raises [ValueError];
    no empty travel log is recorded and no derived signal is returned. *)
Theorem travel_jetlag_ten_days_raises (rs : RandomSource) (k : nat) :
  days_of (time_hours (flat_user 10)) = 10%Z
  /\ range 7 (days_of (time_hours (flat_user 10)) - 7) = []
  /\ add_travel_jetlag rs (flat_user 10) 2 k = Raise "ValueError".
Proof.
  split; [reflexivity|]. split; [reflexivity|].
  apply travel_jetlag_raises.
  - lia.
  - change (days_of (time_hours (flat_user 10))) with 10%Z. lia.
Qed.

End PerturbationFacts.

Module ServingFacts.
Import Features Inference Serving FeaturesFacts InferenceFacts.

Lemma activity_array_length (p : list float) : length (activity_array p) = 720%nat.
Proof.
  unfold activity_array.
  destruct (Nat.ltb_spec (length p) 720).
  - unfold np_pad. rewrite length_app, repeat_length. lia.
  - destruct (Nat.ltb_spec 720 (length p)); [rewrite length_firstn|]; lia.
Qed.

Lemma predict_try_array (self : MLPredictor) (p : list float) :
  predict_try self p
  = match
      match autoencoder self with
      | Some ae =>
          match encoder ae with
          | Some _ => encode_patterns ae (activity_array p)
          | None => Ok (firstn 32 (activity_array p))
          end
      | None => Ok (firstn 32 (activity_array p))
      end
    with
    | Raise e => Raise e
    | Ok autoencoder_features =>
      match create_engineered_features
              (if (24 <=? length p)%nat then firstn 24 p else p) with
      | Raise e => Raise e
      | Ok engineered_features =>
        match call (classifier_scaler self) (autoencoder_features ++ engineered_features) with
        | Raise e => Raise e
        | Ok scaled_features =>
          match call (classifier_model self) scaled_features with
          | Raise e => Raise e
          | Ok prediction0 =>
            match np_argmax prediction0, Inference.np_max prediction0 with
            | Ok chronotype, Ok confidence =>
                match nth_error chronotype_names chronotype with
                | None => Raise "IndexError"
                | Some name =>
                    Ok {| error := None; chronotype := Z.of_nat chronotype;
                          chronotype_name := Some name;
                          confidence := Some confidence; success := true |}
                end
            | Raise e, _ => Raise e
            | _, Raise e => Raise e
            end
          end
        end
      end
    end.
Proof. reflexivity. Qed.

Lemma serving_features_ok (p : list float) :
  exists v, create_engineered_features p = Ok v /\ length v = 9%nat.
Proof.
  destruct p as [|x p]; [exists (np_zeros 9); split; reflexivity|].
  destruct (Nat.le_gt_cases 24 (length (x :: p))) as [H24|H24].
  - rewrite (serving_full _ H24). apply window_features_ok.
    destruct p; cbn in H24 |- *; [lia|congruence].
  - rewrite serving_short by (cbn in *; lia).
    apply window_features_ok. unfold np_pad. cbn. congruence.
Qed.

(** X1.  The encoder side is always given exactly 720 values: demanding that
    width of the autoencoder's scaler changes no answer. *)
Theorem encoder_input_is_720 (self : MLPredictor) (p : list float) :
  predict_chronotype (with_encoder_input_checked self) p = predict_chronotype self p.
Proof.
  unfold predict_chronotype. cbn [models_loaded with_encoder_input_checked].
  destruct (negb (models_loaded self)); [reflexivity|].
  rewrite !predict_try_array.
  cbn [autoencoder classifier_model classifier_scaler with_encoder_input_checked].
  destruct (autoencoder self) as [ae|]; cbn [fmap option_fmap option_map encoder];
    [|reflexivity].
  destruct (encoder ae) as [enc|] eqn:He; [|reflexivity].
  unfold encode_patterns. cbn [encoder scaler]. rewrite He.
  unfold checked. rewrite activity_array_length, Nat.eqb_refl. reflexivity.
Qed.

(** X2.  Without an encoder the classifier's scaler is always given exactly 41
    values (the first 32 samples of the array and the nine features). *)
Theorem fallback_scaler_input_is_41 (self : MLPredictor) (p : list float) :
  no_encoder self ->
  predict_chronotype (with_scaler_checked 41 self) p = predict_chronotype self p.
Proof.
  intros Hne. unfold predict_chronotype. cbn [models_loaded with_scaler_checked].
  destruct (negb (models_loaded self)); [reflexivity|].
  rewrite !predict_try_array.
  cbn [autoencoder classifier_model classifier_scaler with_scaler_checked].
  assert (Hfb : match autoencoder self with
                | Some ae =>
                    match encoder ae with
                    | Some _ => encode_patterns ae (activity_array p)
                    | None => Ok (firstn 32 (activity_array p))
                    end
                | None => Ok (firstn 32 (activity_array p))
                end = Ok (firstn 32 (activity_array p))).
  { unfold no_encoder in Hne. destruct (autoencoder self) as [ae|]; [|reflexivity].
    rewrite Hne. reflexivity. }
  rewrite Hfb.
  destruct (serving_features_ok (if (24 <=? length p)%nat then firstn 24 p else p))
    as (v & -> & Hv).
  destruct (classifier_scaler self) as [sc|]; [|reflexivity].
  cbn [fmap option_fmap option_map call]. unfold checked.
  rewrite length_app, length_firstn, activity_array_length, Hv. reflexivity.
Qed.

Lemma fallback_scaler_input_is_41_witness :
  predict_chronotype (with_scaler_checked 41 example_predictor) window10
  = predict_chronotype example_predictor window10
  /\ success (predict_chronotype example_predictor window10) = true
  /\ success (predict_chronotype (with_scaler_checked 40 example_predictor) window10)
     = false.
Proof.
  split; [apply (fallback_scaler_input_is_41 example_predictor window10); exact I|].
  split; vm_compute; reflexivity.
Defined.

(** X3.  A scaler fitted on another width than 41 makes every prediction without
    encoder fail: the answer is the failure dictionary, for every pattern. *)
Theorem fallback_rejected_by_other_width
    (self : MLPredictor) (n : nat) (f : Capability) (p : list float) :
  no_encoder self -> n <> 41%nat -> classifier_scaler self = Some (checked n f) ->
  success (predict_chronotype self p) = false
  /\ Inference.chronotype (predict_chronotype self p) = 1.
Proof.
  intros Hne Hn Hsc.
  assert (Hs : success (predict_chronotype self p) = false).
  { unfold predict_chronotype.
    destruct (negb (models_loaded self)); [reflexivity|].
    rewrite predict_try_array.
    assert (Hfb : match autoencoder self with
                  | Some ae =>
                      match encoder ae with
                      | Some _ => encode_patterns ae (activity_array p)
                      | None => Ok (firstn 32 (activity_array p))
                      end
                  | None => Ok (firstn 32 (activity_array p))
                  end = Ok (firstn 32 (activity_array p))).
    { unfold no_encoder in Hne. destruct (autoencoder self) as [ae|]; [|reflexivity].
      rewrite Hne. reflexivity. }
    rewrite Hfb.
    destruct (serving_features_ok (if (24 <=? length p)%nat then firstn 24 p else p))
      as (v & -> & Hv).
    rewrite Hsc. cbn [call]. unfold checked.
    rewrite length_app, length_firstn, activity_array_length, Hv.
    destruct (Nat.eqb_spec (32 `min` 720 + 9) n) as [E|_]; [cbn in E; lia|].
    reflexivity. }
  split; [exact Hs|]. apply unsuccessful_prediction_is_intermediate, Hs.
Qed.

Lemma fallback_rejected_by_other_width_witness :
  success (predict_chronotype nine_feature_predictor window10) = false
  /\ Inference.chronotype (predict_chronotype nine_feature_predictor window10) = 1.
Proof.
  apply (fallback_rejected_by_other_width nine_feature_predictor 9 Ok window10).
  - reflexivity.
  - lia.
  - reflexivity.
Defined.

Lemma predict_try_shape (self : MLPredictor) (p : list float) (r : Prediction) :
  predict_try self p = Ok r ->
  exists (scaled probs : list float) (label : nat) (conf : float) (name : string),
    call (classifier_model self) scaled = Ok probs
    /\ np_argmax probs = Ok label
    /\ Inference.np_max probs = Ok conf
    /\ (label < 3)%nat
    /\ nth_error chronotype_names label = Some name
    /\ r = {| error := None; chronotype := Z.of_nat label;
              chronotype_name := Some name; confidence := Some conf;
              success := true |}.
Proof.
  rewrite predict_try_array. intros Hs.
  repeat match type of Hs with
         | context [match ?x with _ => _ end] =>
             match x with
             | context [match _ with _ => _ end] => fail 1
             | _ => destruct x eqn:?; try discriminate Hs
             end
         end.
  all: injection Hs as <-.
  all: eexists _, _, _, _, _.
  all: repeat split; try eassumption.
  all: change 3%nat with (length chronotype_names).
  all: apply nth_error_Some; congruence.
Qed.

(** The two shapes of an answer. *)
Lemma prediction_cases (self : MLPredictor) (p : list float) :
  (exists msg, predict_chronotype self p = failure msg)
  \/ (models_loaded self = true
      /\ exists r, predict_try self p = Ok r /\ predict_chronotype self p = r).
Proof.
  unfold predict_chronotype.
  destruct (models_loaded self); cbn [negb]; [|left; eexists; reflexivity].
  destruct (predict_try self p) as [r|e]; [|left; eexists; reflexivity].
  right. split; [reflexivity|]. exists r. split; reflexivity.
Qed.

(** X4.  A successful answer carries the argmax of the classifier's output as
    label, its maximum as confidence, a label among 0, 1, 2 and the name of
    that label; it is only given with the flag on. *)
Theorem successful_prediction_shape (self : MLPredictor) (p : list float) :
  success (predict_chronotype self p) = true ->
  models_loaded self = true
  /\ exists (scaled probs : list float) (label : nat) (conf : float) (name : string),
       call (classifier_model self) scaled = Ok probs
       /\ np_argmax probs = Ok label
       /\ Inference.np_max probs = Ok conf
       /\ (label < 3)%nat
       /\ nth_error chronotype_names label = Some name
       /\ predict_chronotype self p
          = {| error := None; chronotype := Z.of_nat label;
               chronotype_name := Some name; confidence := Some conf;
               success := true |}.
Proof.
  intros Hs.
  destruct (prediction_cases self p) as [[msg E] | (Hm & r & Hr & E)].
  - rewrite E in Hs. discriminate Hs.
  - split; [exact Hm|]. rewrite E. apply (predict_try_shape self p). exact Hr.
Qed.

Lemma successful_prediction_shape_witness :
  models_loaded example_predictor = true
  /\ exists (scaled probs : list float) (label : nat) (conf : float) (name : string),
       call (classifier_model example_predictor) scaled = Ok probs
       /\ np_argmax probs = Ok label
       /\ Inference.np_max probs = Ok conf
       /\ (label < 3)%nat
       /\ nth_error chronotype_names label = Some name
       /\ predict_chronotype example_predictor window10
          = {| error := None; chronotype := Z.of_nat label;
               chronotype_name := Some name; confidence := Some conf;
               success := true |}.
Proof.
  apply (successful_prediction_shape example_predictor window10).
  vm_compute. reflexivity.
Defined.

(** X5.  The flag [models_loaded] is on exactly when loading the autoencoder did
    not raise and both the classifier and the scaler files exist and load;
    it does not ask that an encoder was found. *)
Theorem load_models_flag_iff (files : ModelFiles) :
  models_loaded (load_models files) = true
  <-> autoencoder_load_raises files = false
      /\ exists cm sc, classifier_file files = Some (Ok cm)
                       /\ scaler_file files = Some (Ok sc)
                       /\ classifier_model (load_models files) = Some cm
                       /\ classifier_scaler (load_models files) = Some sc.
Proof.
  unfold load_models. split.
  - destruct (autoencoder_load_raises files); [discriminate|].
    destruct (classifier_file files) as [[cm|e]|]; try discriminate;
      destruct (scaler_file files) as [[sc|e']|]; try discriminate.
    intros _. split; [reflexivity|]. exists cm, sc. repeat split.
  - intros (-> & cm & sc & -> & -> & _). reflexivity.
Qed.

(** X6.  Samples after the 720th never reach the answer. *)
Theorem prediction_reads_first_720 (self : MLPredictor) (p : list float) :
  (720 <= length p)%nat ->
  predict_chronotype self p = predict_chronotype self (firstn 720 p).
Proof.
  intros Hp. unfold predict_chronotype.
  destruct (negb (models_loaded self)); [reflexivity|].
  rewrite !predict_try_array.
  assert (Ha : activity_array (firstn 720 p) = activity_array p).
  { unfold activity_array. rewrite length_firstn, Nat.min_l by lia.
    rewrite Nat.ltb_irrefl.
    destruct (Nat.ltb_spec (length p) 720); [lia|].
    destruct (Nat.ltb_spec 720 (length p)) as [Hl|Hl]; [reflexivity|].
    apply firstn_all2. lia. }
  rewrite Ha, length_firstn, Nat.min_l by lia.
  destruct (Nat.leb_spec 24 (length p)); [|lia].
  destruct (Nat.leb_spec 24 720); [|lia].
  rewrite firstn_firstn, Nat.min_l by lia. reflexivity.
Qed.

Lemma prediction_reads_first_720_witness :
  predict_chronotype echo_predictor long_pattern
  = predict_chronotype echo_predictor (firstn 720 long_pattern)
  /\ predict_chronotype echo_predictor long_pattern
     = {| error := None; chronotype := 1; chronotype_name := Some "Intermediate"%string;
          confidence := Some 0.75%float; success := true |}
  /\ nth 720 long_pattern 0%float = 0.875%float.
Proof.
  split.
  - apply (prediction_reads_first_720 echo_predictor long_pattern).
    unfold long_pattern. rewrite !length_app, repeat_length. cbn [length]. lia.
  - split; vm_compute; reflexivity.
Defined.

End ServingFacts.

Module RateRouteFacts.
Import RateAdjustment Features Inference RateRoute Serving ServingFacts.

Lemma hourly_multiplier_bounds (hour : Z) :
  8500 <= dict_get hourly_multipliers hour 10000 <= 11000.
Proof.
  unfold dict_get. destruct (hourly_multipliers !! hour) as [v|] eqn:Hv; cbn; [|lia].
  apply elem_of_list_to_map_2 in Hv.
  repeat (apply elem_of_cons in Hv as [Hv|Hv]; [injection Hv as _ ->; lia|]).
  apply elem_of_nil in Hv. destruct Hv.
Qed.

Lemma behavior_multiplier_bounds (label : Z) :
  9500 <= dict_get chronotype_adjustments label 10000 <= 10500.
Proof.
  unfold dict_get. destruct (chronotype_adjustments !! label) as [v|] eqn:Hv; cbn; [|lia].
  apply elem_of_list_to_map_2 in Hv.
  repeat (apply elem_of_cons in Hv as [Hv|Hv]; [injection Hv as _ ->; lia|]).
  apply elem_of_nil in Hv. destruct Hv.
Qed.

Lemma adjusted_rate_eq {C} (half : C) (base_rate current_hour : Z) (r : ChronotypeResult C) :
  adjusted_rate (calculate_circadian_rate half base_rate current_hour r)
  = (base_rate
     * hourly_multiplier (calculate_circadian_rate half base_rate current_hour r)
     * behavior_multiplier (calculate_circadian_rate half base_rate current_hour r))
    / (10000 * 10000)
  /\ hourly_multiplier (calculate_circadian_rate half base_rate current_hour r)
     = dict_get hourly_multipliers current_hour 10000
  /\ behavior_multiplier (calculate_circadian_rate half base_rate current_hour r)
     = dict_get chronotype_adjustments
         (RateAdjustment.chronotype (calculate_circadian_rate half base_rate current_hour r))
         10000.
Proof.
  unfold calculate_circadian_rate.
  destruct (negb (default false (cr_success r))); repeat split.
Qed.

(** X7.  Whatever the hour and the prediction, a non-negative base rate is moved
    to between 80.75% and 115.5% of itself. *)
Theorem adjusted_rate_band {C} (half : C) (base_rate current_hour : Z)
    (r : ChronotypeResult C) :
  0 <= base_rate ->
  base_rate * 8075 / 10000
    <= adjusted_rate (calculate_circadian_rate half base_rate current_hour r)
    <= base_rate * 11550 / 10000.
Proof.
  intros Hb.
  destruct (adjusted_rate_eq half base_rate current_hour r) as (-> & -> & ->).
  pose proof (hourly_multiplier_bounds current_hour) as Hh.
  pose proof (behavior_multiplier_bounds
                (RateAdjustment.chronotype
                   (calculate_circadian_rate half base_rate current_hour r))) as Hc.
  set (h := dict_get hourly_multipliers current_hour 10000) in *.
  set (c := dict_get chronotype_adjustments _ 10000) in *.
  assert (Hhc : 8075 * 10000 <= h * c <= 11550 * 10000) by nia.
  rewrite <- (Z.div_mul_cancel_r (base_rate * 8075) 10000 10000) by lia.
  rewrite <- (Z.div_mul_cancel_r (base_rate * 11550) 10000 10000) by lia.
  rewrite <- !Z.mul_assoc.
  split; (apply Z.div_le_mono; [lia|]); apply Z.mul_le_mono_nonneg_l; lia.
Qed.

Lemma adjusted_rate_band_witness :
  7 * 8075 / 10000
    <= adjusted_rate (calculate_circadian_rate 0%nat 7 99 (prediction 5 1%nat))
    <= 7 * 11550 / 10000.
Proof. apply (adjusted_rate_band 0%nat 7 99 (prediction 5 1%nat)). lia. Defined.

(** X8.  A larger base rate never gives a smaller adjusted rate, for the same
    hour and prediction. *)
Theorem adjusted_rate_monotone {C} (half : C) (base1 base2 current_hour : Z)
    (r : ChronotypeResult C) :
  base1 <= base2 ->
  adjusted_rate (calculate_circadian_rate half base1 current_hour r)
    <= adjusted_rate (calculate_circadian_rate half base2 current_hour r).
Proof.
  intros Hb.
  destruct (adjusted_rate_eq half base1 current_hour r) as (-> & -> & ->).
  destruct (adjusted_rate_eq half base2 current_hour r) as (-> & -> & ->).
  assert (E : RateAdjustment.chronotype (calculate_circadian_rate half base1 current_hour r)
              = RateAdjustment.chronotype (calculate_circadian_rate half base2 current_hour r)).
  { unfold calculate_circadian_rate.
    destruct (negb (default false (cr_success r))); reflexivity. }
  rewrite E.
  pose proof (hourly_multiplier_bounds current_hour) as Hh.
  pose proof (behavior_multiplier_bounds
                (RateAdjustment.chronotype
                   (calculate_circadian_rate half base2 current_hour r))) as Hc.
  rewrite <- !Z.mul_assoc.
  apply Z.div_le_mono; [lia|]. apply Z.mul_le_mono_nonneg_r; [nia|exact Hb].
Qed.

Lemma adjusted_rate_monotone_witness :
  adjusted_rate (calculate_circadian_rate 0%nat (-5) 3 (prediction 2 1%nat))
    <= adjusted_rate (calculate_circadian_rate 0%nat 12 3 (prediction 2 1%nat)).
Proof. apply (adjusted_rate_monotone 0%nat (-5) 12 3 (prediction 2 1%nat)). lia. Defined.

Lemma rate_on_failure {C} (half : C) (base_rate current_hour : Z)
    (r : ChronotypeResult C) :
  default false (cr_success r) = false ->
  calculate_circadian_rate half base_rate current_hour r
  = {| adjusted_rate :=
         base_rate * dict_get hourly_multipliers current_hour 10000
         * dict_get chronotype_adjustments 1 10000 / (10000 * 10000);
       base_rate := base_rate;
       RateAdjustment.chronotype := 1;
       RateAdjustment.chronotype_name :=
         default "Intermediate"%string (cr_chronotype_name r);
       RateAdjustment.confidence := half;
       hourly_multiplier := dict_get hourly_multipliers current_hour 10000;
       behavior_multiplier := dict_get chronotype_adjustments 1 10000;
       current_hour := current_hour |}.
Proof. intros Hs. unfold calculate_circadian_rate. rewrite Hs. reflexivity. Qed.

Lemma rate_on_success {C} (half : C) (base_rate current_hour : Z)
    (r : ChronotypeResult C) :
  default false (cr_success r) = true ->
  calculate_circadian_rate half base_rate current_hour r
  = {| adjusted_rate :=
         base_rate * dict_get hourly_multipliers current_hour 10000
         * dict_get chronotype_adjustments (cr_chronotype r) 10000 / (10000 * 10000);
       base_rate := base_rate;
       RateAdjustment.chronotype := cr_chronotype r;
       RateAdjustment.chronotype_name :=
         default "Intermediate"%string (cr_chronotype_name r);
       RateAdjustment.confidence := default half (cr_confidence r);
       hourly_multiplier := dict_get hourly_multipliers current_hour 10000;
       behavior_multiplier := dict_get chronotype_adjustments (cr_chronotype r) 10000;
       current_hour := current_hour |}.
Proof. intros Hs. unfold calculate_circadian_rate. rewrite Hs. reflexivity. Qed.

(** X9.  The route always answers a label among 0, 1, 2 together with the name
    of that label; when the prediction did not succeed it answers label 1,
    "Intermediate", confidence 0.5 and the base rate scaled by the hourly
    multiplier alone. *)
Theorem circadian_rate_answer (self : MLPredictor) (base_rate current_hour : Z)
    (user_activity : list float) :
  let response := circadian_rate self base_rate current_hour user_activity in
  0 <= RateAdjustment.chronotype response <= 2
  /\ nth_error chronotype_names (Z.to_nat (RateAdjustment.chronotype response))
     = Some (RateAdjustment.chronotype_name response)
  /\ (success (predict_chronotype self user_activity) = false ->
        RateAdjustment.chronotype response = 1
        /\ RateAdjustment.chronotype_name response = "Intermediate"%string
        /\ RateAdjustment.confidence response = 0.5%float
        /\ behavior_multiplier response = 10000
        /\ adjusted_rate response
           = base_rate * dict_get hourly_multipliers current_hour 10000 / 10000).
Proof.
  assert (Hmid : dict_get chronotype_adjustments 1 10000 = 10000)
    by (vm_compute; reflexivity).
  unfold circadian_rate.
  destruct (prediction_cases self user_activity) as [[msg E] | (Hm & r & Hr & E)];
    rewrite E.
  - rewrite rate_on_failure by reflexivity. rewrite Hmid.
    cbn [adjusted_rate RateAdjustment.chronotype RateAdjustment.chronotype_name
         RateAdjustment.confidence behavior_multiplier].
    split; [lia|]. split; [reflexivity|]. intros _.
    repeat (split; [reflexivity|]).
    apply Z.div_mul_cancel_r; lia.
  - apply (predict_try_shape self user_activity) in Hr
      as (sc & pr & label & conf & name & _ & _ & _ & Hl & Hn & ->).
    rewrite rate_on_success by reflexivity.
    cbn [adjusted_rate RateAdjustment.chronotype RateAdjustment.chronotype_name
         RateAdjustment.confidence behavior_multiplier
         as_chronotype_result cr_chronotype cr_chronotype_name
         Inference.chronotype Inference.chronotype_name default success].
    rewrite Nat2Z.id. split; [lia|]. split; [exact Hn|]. discriminate.
Qed.

Lemma circadian_rate_answer_witness :
  RateAdjustment.chronotype (circadian_rate unloaded 20000 3 window10) = 1
  /\ RateAdjustment.chronotype_name (circadian_rate unloaded 20000 3 window10)
     = "Intermediate"%string
  /\ RateAdjustment.confidence (circadian_rate unloaded 20000 3 window10) = 0.5%float
  /\ behavior_multiplier (circadian_rate unloaded 20000 3 window10) = 10000
  /\ adjusted_rate (circadian_rate unloaded 20000 3 window10)
     = 20000 * dict_get hourly_multipliers 3 10000 / 10000.
Proof.
  apply (proj2 (proj2 (circadian_rate_answer unloaded 20000 3 window10))).
  reflexivity.
Defined.

End RateRouteFacts.

Module TrainingFacts.
Import Features Inference Training FeaturesFacts.

Lemma training_row_ok (p : list float) :
  p <> [] -> exists v, time_based_features_row p = Ok v /\ length v = 9%nat.
Proof.
  intros Hp. unfold time_based_features_row.
  apply window_features_ok.
  destruct (24 <=? length p)%nat eqn:H24; [|exact Hp].
  apply Nat.leb_le in H24. destruct p; [cbn in H24; lia|]. cbn. congruence.
Qed.

Lemma training_row_empty : time_based_features_row [] = Raise "ValueError".
Proof. reflexivity. Qed.

Lemma training_row_raises (p : list float) (e : string) :
  time_based_features_row p = Raise e -> p = [].
Proof.
  intros He. destruct p as [|x p]; [reflexivity|].
  destruct (training_row_ok (x :: p)) as (v & Hv & _); [congruence|].
  rewrite Hv in He. discriminate He.
Qed.

Lemma time_based_features_ok (X : list (list float)) :
  Forall (fun p => p <> []) X ->
  exists rows, create_time_based_features X = Ok rows
               /\ length rows = length X
               /\ Forall (fun v => length v = 9%nat) rows.
Proof.
  induction X as [|p X IH]; intros Hall.
  - exists []. repeat split. constructor.
  - inversion Hall as [|? ? Hp HX]; subst.
    destruct (training_row_ok p Hp) as (v & Hv & Hlen).
    destruct (IH HX) as (rows & Hrows & Hn & H9).
    exists (v :: rows). cbn [create_time_based_features].
    rewrite Hv, Hrows. repeat split; [cbn; congruence|].
    constructor; assumption.
Qed.

Lemma time_based_features_raise (X : list (list float)) :
  Exists (fun p => p = []) X ->
  create_time_based_features X = Raise "ValueError".
Proof.
  induction X as [|p X IH]; intros Hex; [inversion Hex|].
  cbn [create_time_based_features].
  destruct (time_based_features_row p) as [v|e] eqn:Hp.
  - inversion Hex as [? ? Hp0|? ? HX]; subst; [discriminate Hp|].
    rewrite (IH HX). reflexivity.
  - pose proof (training_row_raises _ _ Hp) as Hempty. subst p.
    rewrite training_row_empty in Hp. injection Hp as <-. reflexivity.
Qed.

(** X10.  The training feature matrix exists exactly when no row of [X] is empty;
    it then has one row of nine features for every row of [X].  An empty row
    ends the whole call in [ValueError]. *)
Theorem time_based_features_rows (X : list (list float)) :
  (Forall (fun p => p <> []) X ->
     exists rows, create_time_based_features X = Ok rows
                  /\ length rows = length X
                  /\ Forall (fun v => length v = 9%nat) rows)
  /\ (Exists (fun p => p = []) X ->
        create_time_based_features X = Raise "ValueError").
Proof.
  split; [apply time_based_features_ok|apply time_based_features_raise].
Qed.

Lemma time_based_features_rows_witness :
  exists rows, create_time_based_features [window10; window10] = Ok rows
               /\ length rows = 2%nat
               /\ Forall (fun v => length v = 9%nat) rows.
Proof.
  apply (proj1 (time_based_features_rows [window10; window10])).
  repeat constructor; discriminate.
Defined.

(** X11.  On a matrix whose rows all have 24 samples or more, the training
    features are, row by row, the serving features. *)
Theorem training_rows_are_serving_rows (X : list (list float)) :
  Forall (fun p => (24 <= length p)%nat) X ->
  exists rows, create_time_based_features X = Ok rows
               /\ Forall2 (fun p v => create_engineered_features p = Ok v) X rows.
Proof.
  induction X as [|p X IH]; intros Hall.
  - exists []. split; [reflexivity|constructor].
  - inversion Hall as [|? ? Hp HX]; subst.
    destruct (IH HX) as (rows & Hrows & Hsame).
    assert (Hne : p <> []) by (intros ->; cbn in Hp; lia).
    destruct (training_row_ok p Hne) as (v & Hv & _).
    exists (v :: rows). cbn [create_time_based_features].
    rewrite Hv, Hrows. split; [reflexivity|].
    constructor; [|exact Hsame].
    rewrite (serving_full p Hp), <- (training_full p Hp). exact Hv.
Qed.

Lemma training_rows_are_serving_rows_witness :
  exists rows, create_time_based_features [repeat 0.5%float 30] = Ok rows
               /\ Forall2 (fun p v => create_engineered_features p = Ok v)
                    [repeat 0.5%float 30] rows.
Proof.
  apply (training_rows_are_serving_rows [repeat 0.5%float 30]).
  constructor; [rewrite repeat_length; lia|constructor].
Defined.

(** X12.  Without an autoencoder on disk the classifier is prepared on the nine
    engineered features alone: one row of width nine for every row of [X]. *)
Theorem raw_training_has_nine_columns (X rows : list (list float)) :
  combined_features (Ok None) X = Ok rows ->
  length rows = length X /\ Forall (fun v => length v = 9%nat) rows.
Proof.
  unfold combined_features, extract_autoencoder_features.
  destruct (create_time_based_features X) as [eng|e] eqn:Heng; [|discriminate].
  intros E. injection E as <-.
  assert (Hne : Forall (fun p => p <> []) X).
  { apply Forall_forall. intros p Hp Hempty. subst p.
    rewrite (time_based_features_raise X) in Heng; [discriminate|].
    apply Exists_exists. exists []. split; [exact Hp|reflexivity]. }
  destruct (time_based_features_ok X Hne) as (rows & Hrows & Hn & H9).
  rewrite Hrows in Heng. injection Heng as <-. split; assumption.
Qed.

Lemma raw_training_has_nine_columns_witness :
  exists rows,
    combined_features (Ok None) [window10; window10] = Ok rows
    /\ length rows = 2%nat
    /\ Forall (fun v => length v = 9%nat) rows.
Proof.
  destruct (combined_features (Ok None) [window10; window10]) as [rows|e] eqn:Hrun.
  - exists rows. split; [reflexivity|].
    apply (raw_training_has_nine_columns [window10; window10] rows Hrun).
  - vm_compute in Hrun. discriminate Hrun.
Defined.

End TrainingFacts.

Module CleaningFacts.
Import Cleaning.
Local Open Scope float_scope.

Lemma nan_to_num_not_nan (x : float) : is_nan (nan_to_num x) = false.
Proof.
  unfold nan_to_num. destruct (is_nan x) eqn:Hn; [reflexivity|].
  destruct (x =? infinity); [reflexivity|].
  destruct (x =? neg_infinity); [reflexivity|exact Hn].
Qed.

Lemma nan_to_num_finite (x : float) :
  is_nan x = false -> is_inf x = false -> nan_to_num x = x.
Proof.
  unfold nan_to_num, is_inf. intros -> Hi.
  apply orb_false_iff in Hi as [-> ->]. reflexivity.
Qed.

Lemma existsb_is_nan_false (row : list float) :
  existsb is_nan row = false <-> Forall (fun x => is_nan x = false) row.
Proof.
  induction row as [|x row IH]; cbn [existsb].
  - split; [constructor|reflexivity].
  - rewrite orb_false_iff, IH. split.
    + intros [Hx Hr]. constructor; assumption.
    + intros H. inversion H; subst. split; assumption.
Qed.

Lemma any_isnan_false (X : list (list float)) :
  any_isnan X = false <-> Forall (Forall (fun x => is_nan x = false)) X.
Proof.
  unfold any_isnan. induction X as [|row X IH]; cbn [existsb].
  - split; [constructor|reflexivity].
  - rewrite orb_false_iff, IH, existsb_is_nan_false. split.
    + intros [Hx Hr]. constructor; assumption.
    + intros H. inversion H; subst. split; assumption.
Qed.

Lemma clean_has_no_nan (X : list (list float)) :
  any_isnan (clean X) = false
  /\ Forall2 (Forall2 (fun x x' =>
                is_nan x = false -> is_inf x = false -> x' = x)) X (clean X).
Proof.
  unfold clean. destruct (any_isnan X) eqn:Hany.
  - split.
    + apply any_isnan_false. apply Forall_map, Forall_forall. intros row _.
      apply Forall_map, Forall_forall. intros x _. apply nan_to_num_not_nan.
    + clear Hany. induction X as [|row X IH]; constructor; [|exact IH].
      induction row as [|x row IHr]; constructor; [|exact IHr].
      intros Hn Hi. apply nan_to_num_finite; assumption.
  - split; [exact Hany|].
    clear Hany. induction X as [|row X IH]; constructor; [|exact IH].
    induction row as [|x row IHr]; constructor; [|exact IHr]. reflexivity.
Qed.

Lemma clean_infinities (X : list (list float)) :
  (any_isnan X = false -> clean X = X)
  /\ (any_isnan X = true -> Forall (Forall (fun x => is_inf x = false)) (clean X)).
Proof.
  unfold clean. split; intros ->; [reflexivity|].
  apply Forall_map, Forall_forall. intros row _.
  apply Forall_map, Forall_forall. intros x _.
  unfold nan_to_num, is_inf. destruct (is_nan x) eqn:Hn; [reflexivity|].
  destruct (x =? infinity) eqn:Hp; [reflexivity|].
  destruct (x =? neg_infinity) eqn:Hm; [reflexivity|].
  rewrite Hp, Hm. reflexivity.
Qed.

Section Loading.
Variable np_bincount : list Z -> Result (list Z).

(** X13.  [load_data] returns exactly when the data file exists and
    [np.bincount] accepts the labels; an exception of [np.bincount] (as on
    a negative label) leaves the function, and without the file it raises
    [FileNotFoundError].  What it returns are the labels untouched and a
    matrix of the same shape without any [nan], in which each entry that
    was neither [nan] nor infinite is kept as it is.  The same holds of
    [load_training_data], which in addition raises [ValueError] on a matrix
    without elements. *)
Theorem load_data_has_no_nan (X : list (list float)) (y : list Z) :
  load_data np_bincount None = Raise "FileNotFoundError"
  /\ (forall e, np_bincount y = Raise e ->
        load_data np_bincount (Some (X, y)) = Raise e
        /\ load_training_data np_bincount (Some (X, y)) = Raise e)
  /\ (forall counts, np_bincount y = Ok counts ->
        (exists X',
           load_data np_bincount (Some (X, y)) = Ok (X', y)
           /\ any_isnan X' = false
           /\ Forall2 (Forall2 (fun x x' =>
                         is_nan x = false -> is_inf x = false -> x' = x)) X X')
        /\ (concat X = [] ->
              load_training_data np_bincount (Some (X, y)) = Raise "ValueError")
        /\ (concat X <> [] ->
              load_training_data np_bincount (Some (X, y))
              = load_data np_bincount (Some (X, y)))).
Proof.
  split; [reflexivity|]. split.
  - intros e He. unfold load_data, load_training_data. rewrite He.
    split; reflexivity.
  - intros counts Hc. unfold load_data, load_training_data, min_max. rewrite Hc.
    split; [|split].
    + exists (clean X). split; [reflexivity|]. apply clean_has_no_nan.
    + intros ->. reflexivity.
    + intros Hne. destruct (concat X); [congruence|reflexivity].
Qed.

(** X14.  When [load_data] returns, the infinities have been rewritten
    only if the matrix held a [nan]: a matrix without [nan] is returned as
    it is, infinities included, while one [nan] anywhere turns every
    infinity of the matrix into the largest or the smallest finite
    number. *)
Theorem load_data_rewrites_infinities (X : list (list float)) (y counts : list Z) :
  np_bincount y = Ok counts ->
  (any_isnan X = false -> load_data np_bincount (Some (X, y)) = Ok (X, y))
  /\ (any_isnan X = true ->
        exists X', load_data np_bincount (Some (X, y)) = Ok (X', y)
                   /\ Forall (Forall (fun x => is_inf x = false)) X').
Proof.
  intros Hc. unfold load_data. rewrite Hc.
  destruct (clean_infinities X) as [Hkeep Hrewrite]. split.
  - intros Hn. rewrite (Hkeep Hn). reflexivity.
  - intros Hn. eexists. split; [reflexivity|]. apply Hrewrite, Hn.
Qed.

End Loading.

Lemma load_data_has_no_nan_witness :
  load_data example_bincount (Some ([[nan; 0.25]], [0; -1]%Z)) = Raise "ValueError"
  /\ (exists X',
        load_data example_bincount (Some ([[nan; 0.25]], [0; 2; 1]%Z))
          = Ok (X', [0; 2; 1]%Z)
        /\ any_isnan X' = false)
  /\ load_training_data example_bincount (Some ([[]; []], [0; 2]%Z))
     = Raise "ValueError".
Proof.
  destruct (load_data_has_no_nan example_bincount [[nan; 0.25]] [0; -1]%Z)
    as (_ & Hraise & _).
  destruct (load_data_has_no_nan example_bincount [[nan; 0.25]] [0; 2; 1]%Z)
    as (_ & _ & Hok).
  destruct (load_data_has_no_nan example_bincount [[]; []] [0; 2]%Z)
    as (_ & _ & Hempty).
  split; [apply (Hraise "ValueError"%string); reflexivity|]. split.
  - destruct (Hok [1; 1; 1]%Z eq_refl) as ((X' & Hrun & Hnan & _) & _).
    exists X'. split; [exact Hrun|exact Hnan].
  - destruct (Hempty [1; 0; 1]%Z eq_refl) as (_ & Hval & _).
    apply Hval. reflexivity.
Defined.

Lemma load_data_rewrites_infinities_witness :
  load_data example_bincount (Some ([[infinity; 0.5]], [1%Z]))
    = Ok ([[infinity; 0.5]], [1%Z])
  /\ exists X', load_data example_bincount (Some ([[infinity; nan]], [1%Z]))
                  = Ok (X', [1%Z])
                /\ Forall (Forall (fun x => is_inf x = false)) X'.
Proof.
  split.
  - apply (proj1 (load_data_rewrites_infinities example_bincount
                    [[infinity; 0.5]] [1%Z] [0; 1]%Z eq_refl)).
    reflexivity.
  - apply (proj2 (load_data_rewrites_infinities example_bincount
                    [[infinity; nan]] [1%Z] [0; 1]%Z eq_refl)).
    reflexivity.
Defined.

End CleaningFacts.

Module SamplerFacts.
Import Py PyFacts Generator GeneratorFacts PopulationFacts Perturbation Sampler.
Local Open Scope Q_scope.

Section Gen.
Variable np_pi : Q.
Variable odeint : (Q * Q -> Q -> Q * Q) -> Q * Q -> list Q -> nat -> Q * Q.
Variable rs : RandomSource.
Variable now : string.


Lemma np_sum_from (xs : list Q) (acc : Q) :
  fold_left Qplus xs acc == acc + np_sum xs.
Proof.
  unfold np_sum. revert acc. induction xs as [|x xs IH]; intros acc; cbn [fold_left].
  - ring.
  - rewrite IH, (IH (0 + x)). ring.
Qed.

Lemma np_sum_bounds (lo hi : Q) (xs : list Q) :
  Forall (fun x => lo <= x /\ x <= hi) xs ->
  lo * inject_Z (Z.of_nat (length xs)) <= np_sum xs
  /\ np_sum xs <= hi * inject_Z (Z.of_nat (length xs)).
Proof.
  induction 1 as [|x xs [Hl Hh] _ [IHl IHh]].
  - unfold np_sum. cbn [fold_left length].
    change (inject_Z (Z.of_nat 0)) with 0.
    split; rewrite Qmult_0_r; apply Qle_refl.
  - assert (E : np_sum (x :: xs) == x + np_sum xs).
    { unfold np_sum at 1. cbn [fold_left]. rewrite np_sum_from. ring. }
    rewrite E. cbn [length]. rewrite Nat2Z.inj_succ, <- Z.add_1_r, inject_Z_plus.
    change (inject_Z 1) with 1. split; lra.
Qed.

(** The mean of a non-empty array lies between its bounds. *)
Lemma np_mean_bounds (lo hi : Q) (xs : list Q) :
  xs <> [] -> Forall (fun x => lo <= x /\ x <= hi) xs ->
  lo <= np_mean xs /\ np_mean xs <= hi.
Proof.
  intros Hne Hall. destruct (np_sum_bounds lo hi xs Hall) as [Hl Hh].
  assert (Hn : 0 < inject_Z (Z.of_nat (length xs))).
  { rewrite <- (Zlt_Qlt 0). destruct xs; [congruence|cbn [length]; lia]. }
  unfold np_mean. split.
  - apply Qle_shift_div_l; assumption.
  - apply Qle_shift_div_r; assumption.
Qed.

Lemma select_band (P : Q -> Prop) (mask : list bool) (a : list Q) :
  Forall P a -> Forall P (select mask a).
Proof.
  intros Ha. revert mask. induction Ha as [|x a Hx Ha IH]; intros [|b mask];
    cbn [select]; try constructor.
  destruct b; [constructor; [exact Hx|]|]; apply IH.
Qed.

Lemma select_nonempty (mask : list bool) (a : list Q) :
  (length mask <= length a)%nat -> existsb id mask = true -> select mask a <> [].
Proof.
  revert a. induction mask as [|b mask IH]; intros a Hlen Hex; [discriminate|].
  destruct a as [|x a]; [cbn in Hlen; lia|].
  cbn [select]. destruct b; [discriminate|].
  apply IH; [cbn in Hlen; lia|exact Hex].
Qed.

(** Hourly averages of samples in the band are in the band. *)
Lemma hourly_averages_band (hours : list Z) (t aw : list Q) :
  (length t <= length aw)%nat -> Forall in_range aw ->
  Forall in_range (snd (hourly_averages hours t aw)).
Proof.
  intros Hlen Haw. induction hours as [|hour hours IH]; [constructor|].
  cbn [hourly_averages].
  destruct (hourly_averages hours t aw) as [ts acts]. cbn [snd] in IH.
  destruct (existsb id _) eqn:Hex; [|exact IH].
  cbn [snd]. constructor; [|exact IH].
  apply np_mean_bounds.
  - apply select_nonempty; [rewrite length_map; exact Hlen|exact Hex].
  - apply select_band. exact Haw.
Qed.

(** What a run of [generate_circadian_oscillation] returns for [days >= 1]. *)
Lemma oscillation_run (self : CircadianVanDerPolGenerator) (days : Z) (k : nat)
    (o : Oscillation) (k' : nat) :
  (1 <= days)%Z ->
  generate_circadian_oscillation odeint rs self days 24 k = Ok (o, k') ->
  o_time_hours o = map Z.of_nat (seq 0 (Z.to_nat (days * 24)))
  /\ length (o_activity_level o) = Z.to_nat (days * 24)
  /\ Forall in_range (o_activity_level o)
  /\ o_parameters o = {| p_mu := mu self; p_tau := tau self;
                         p_noise_level := noise_level self; p_days := days |}
  /\ k' = (k + 4 * Z.to_nat (days * 24))%nat.
Proof.
  intros Hd. unfold generate_circadian_oscillation.
  destruct (np_linspace_ok 0 (inject_Z (days * 24)) (days * 24 * 4) ltac:(lia))
    as [t Ht].
  rewrite Ht.
  pose proof (np_linspace_length _ _ _ _ Ht) as Hlen.
  assert (Hraw : length (map fst (map (odeint (van_der_pol_equations self) (1, 0) t)
                                      (seq 0 (length t)))) = length t)
    by (rewrite !length_map, length_seq; reflexivity).
  destruct (map fst (map (odeint (van_der_pol_equations self) (1, 0) t)
                         (seq 0 (length t)))) as [|a0 activity_raw] eqn:Eraw;
    [cbn in Hraw; lia|].
  cbn [np_min np_max].
  intros Hrun. apply bind_ok in Hrun as (noise & k1 & Hnoise & Hrun).
  assert (Hn : length noise = length t /\ k1 = (k + length t)%nat).
  { destruct (Qlt_bool (noise_level self) 0) eqn:Hs.
    - exfalso. clear Hrun. rewrite !length_map in Hnoise.
      revert Hnoise. generalize (length (a0 :: activity_raw)) k noise k1.
      intros n. induction n as [|n IH]; intros j xs j1; cbn [normal_array].
      + rewrite Hs. discriminate.
      + unfold bind at 1. unfold normal. rewrite Hs. discriminate.
    - apply Qlt_bool_false in Hs.
      match type of Hnoise with
      | normal_array rs 0 (noise_level self) ?n k = _ =>
          destruct (normal_array_ok rs 0 (noise_level self) n k Hs) as (xs & Hxs & Hl);
          rewrite Hxs in Hnoise; injection Hnoise as -> <-;
          rewrite !length_map in Hl; rewrite !length_map
      end.
      cbn [length] in *. split; lia. }
  destruct Hn as [Hn ->].
  match type of Hrun with
  | context [hourly_averages ?hs t ?aw] =>
      pose proof (hourly_averages_all hs t aw
                    (fun hour Hin => hour_bucket_nonempty (days * 24) hour t
                                       ltac:(lia) (in_range_Z _ _ Hin) Ht))
        as [Hts Hacts];
      assert (Hband : Forall in_range (snd (hourly_averages hs t aw)));
      [apply hourly_averages_band|];
      [| |destruct (hourly_averages hs t aw) as [hourly_times hourly_activities]]
  end.
  - rewrite length_map, length_combine, !length_map, Hraw, Hn. lia.
  - apply List.Forall_forall. intros x Hx. apply in_map_iff in Hx as ([a n] & <- & _).
    apply np_clip_range. discriminate.
  - cbn [fst snd] in *. injection Hrun as <-.
    cbn [o_time_hours o_activity_level o_parameters].
    split; [exact Hts|].
    split; [rewrite Hacts; unfold range_Z; rewrite length_map, length_seq; reflexivity|].
    split; [exact Hband|]. split; [reflexivity|]. lia.
Qed.

(** X16.  For [days >= 1], a noise level that is not negative and a solution
    that is not constant, every hourly sample of the generated signal lies
    in [0.05, 1.0], there is one sample per hour index, and the run uses
    one normal draw per grid point, four per hour. *)
Theorem oscillation_in_band (self : CircadianVanDerPolGenerator) (days : Z) (k : nat) :
  (1 <= days)%Z -> 0 <= noise_level self ->
  not_constant (solution_x odeint self days) ->
  exists o, generate_circadian_oscillation odeint rs self days 24 k
              = Ok (o, (k + 4 * Z.to_nat (days * 24))%nat)
            /\ Forall in_range (o_activity_level o)
            /\ length (o_activity_level o) = length (o_time_hours o).
Proof.
  intros Hd Hn _.
  destruct (oscillation_ok odeint rs self days k Hd Hn) as (o & k' & Hrun).
  destruct (oscillation_run self days k o k' Hd Hrun) as (Ht & Hl & Hb & _ & ->).
  exists o. split; [exact Hrun|]. split; [exact Hb|].
  rewrite Ht, Hl, length_map, length_seq. reflexivity.
Qed.

(** With [days <= 0] the generator does not return: the time grid is empty
    or of negative size and numpy raises. *)
Lemma oscillation_raises (self : CircadianVanDerPolGenerator) (days : Z) (k : nat) :
  (days <= 0)%Z ->
  generate_circadian_oscillation odeint rs self days 24 k = Raise "ValueError".
Proof.
  intros Hd. unfold generate_circadian_oscillation, np_linspace.
  destruct (Z.ltb_spec (days * 24 * 4) 0) as [Hneg|Hzero]; [reflexivity|].
  replace (Z.to_nat (days * 24 * 4)) with 0%nat by lia. reflexivity.
Qed.

Lemma generate_class_raises (c : Chronotype) (days n : Z) (st : gmap Z UserData * Z)
    (k : nat) :
  (days <= 0)%Z -> (1 <= n)%Z ->
  generate_class np_pi odeint rs c days n st k = Raise "ValueError".
Proof.
  intros Hd Hn. unfold generate_class, range_Z.
  destruct (Z.to_nat n) as [|m] eqn:Hm; [lia|].
  cbn [seq map for_each]. destruct st as [users user_id].
  unfold bind at 1. unfold bind at 1.
  assert (Hg : exists g, chronotype_generator np_pi rs c k = Ok (g, (k + 3)%nat)).
  { replace (k + 3)%nat with (S (S (S k))) by lia.
    destruct c; eexists; reflexivity. }
  destruct Hg as [g ->].
  unfold bind at 1. rewrite oscillation_raises by exact Hd. reflexivity.
Qed.

Lemma population_raises (n_users days : Z) (k : nat) :
  (1 <= n_users)%Z -> (days <= 0)%Z ->
  generate_population_data np_pi odeint rs now n_users days k = Raise "ValueError".
Proof.
  intros Hn Hd. unfold generate_population_data.
  rewrite py_int_quarter, Z.quot_div_nonneg by lia.
  assert (Hq : (0 <= n_users / 4 /\ 4 * (n_users / 4) <= n_users)%Z).
  { pose proof (Z.mul_div_le n_users 4 ltac:(lia)).
    pose proof (Z.div_pos n_users 4 ltac:(lia) ltac:(lia)). lia. }
  destruct (Z.le_gt_cases 1 (n_users / 4)) as [Hq1|Hq0].
  - unfold bind at 1. rewrite generate_class_raises by assumption. reflexivity.
  - unfold bind at 1. rewrite generate_class_empty by lia.
    unfold bind at 1. rewrite generate_class_empty by lia.
    unfold bind at 1. rewrite generate_class_raises by lia. reflexivity.
Qed.

Lemma generate_class_users (c : Chronotype) (days : Z) (xs : list Z) :
  unit_draws rs -> (1 <= days)%Z ->
  forall (users : gmap Z UserData) (user_id : Z) (k : nat)
         (users' : gmap Z UserData) (user_id' : Z) (k' : nat),
    for_each xs
      (fun (i : Z) '(users, user_id) =>
         generator <- chronotype_generator np_pi rs c ;;
         data <- generate_circadian_oscillation odeint rs generator days 24 ;;
         ret (<[user_id := new_user c user_id data]> users, (user_id + 1)%Z))
      (users, user_id) k
    = Ok ((users', user_id'), k') ->
    user_id' = (user_id + Z.of_nat (length xs))%Z
    /\ agree_outside user_id user_id' users users'
    /\ (forall j, (user_id <= j < user_id')%Z ->
          exists u, users' !! j = Some u /\ generated_user c days j u).
Proof.
  intros Hu Hd. induction xs as [|x xs IH]; intros users uid k users' uid' k' Hrun.
  - cbn in Hrun. injection Hrun as <- <- _. cbn [length]. rewrite Z.add_0_r.
    split; [reflexivity|]. split; [intros j _; reflexivity|]. intros j Hj. lia.
  - cbn [for_each] in Hrun.
    apply bind_ok in Hrun as ([users1 uid1] & k1 & Hstep & Hrest).
    apply bind_ok in Hstep as (g & kg & Hg & Hstep).
    apply bind_ok in Hstep as (o & ko & Ho & Hret).
    injection Hret as <- <- <-.
    destruct (IH _ _ _ _ _ _ Hrest) as (-> & Hout & Hin).
    destruct (oscillation_run g days kg o ko Hd Ho) as (Ht & Hl & Hb & Hp & _).
    split; [cbn [length]; lia|]. split.
    + intros j Hj. rewrite Hout by lia. apply lookup_insert_ne. lia.
    + intros j Hj. destruct (Z.eq_dec j uid) as [->|Hne].
      * exists (new_user c uid o). split.
        { rewrite Hout by lia. apply lookup_insert_eq. }
        unfold generated_user. cbn [new_user chronotype user_id time_hours
          activity_level parameters activity_level_with_social_jetlag
          activity_level_with_stress activity_level_with_seasonal
          activity_level_with_jetlag].
        rewrite Hp. cbn [p_mu p_tau p_noise_level p_days].
        assert (Hr : within (mu_range c) (mu g) /\ within (tau_range c) (tau g)
                     /\ within (noise_range c) (noise_level g)).
        { destruct (Hu k) as [H0 H0']. destruct (Hu (S k)) as [H1 H1'].
          destruct (Hu (S (S k))) as [H2 H2'].
          destruct c; injection Hg as <- _;
            cbn [mu tau noise_level new_generator mu_range tau_range noise_range];
            unfold within; cbn [fst snd]; repeat split; lra. }
        destruct Hr as (Hmu & Htau & Hnoise).
        repeat split; try assumption; try reflexivity.
        all: try apply Hmu; try apply Htau; try apply Hnoise.
        intros _. exact Hb.
      * apply Hin. lia.
Qed.

(** X17.  With [days <= 0] neither generator returns: the time grid is of negative
    size or empty and numpy raises; for the population this needs one user
    to be asked for. *)
Theorem generators_need_a_day (self : CircadianVanDerPolGenerator)
    (n_users days : Z) (k : nat) :
  (days <= 0)%Z ->
  is_ok (generate_circadian_oscillation odeint rs self days 24 k) = false
  /\ ((1 <= n_users)%Z ->
        is_ok (generate_population_data np_pi odeint rs now n_users days k) = false).
Proof.
  intros Hd. split.
  - rewrite oscillation_raises by exact Hd. reflexivity.
  - intros Hn. rewrite population_raises by assumption. reflexivity.
Qed.

(** X18.  The users of a generated population (draws in [0, 1]): the keys
    are exactly 0, ..., [n_users - 1]; the first quarter is early, the
    second late, the rest intermediate; every user carries its key as
    [user_id], hour indices 0 .. 24 days - 1, as many samples, parameters
    drawn in the ranges of its class, and no derived signal yet; its
    samples lie in [0.05, 1.0] when its own solution is not constant. *)
Theorem population_users (n_users days : Z) (k : nat) (pop : Population) (k' : nat) :
  unit_draws rs -> (0 <= n_users)%Z -> (1 <= days)%Z ->
  generate_population_data np_pi odeint rs now n_users days k = Ok (pop, k') ->
  (forall j, is_Some (users pop !! j) <-> (0 <= j < n_users)%Z)
  /\ (forall j u, users pop !! j = Some u ->
        generated_user (class_of_id n_users j) days j u).
Proof.
  intros Hu Hn Hd. unfold generate_population_data.
  rewrite py_int_quarter, Z.quot_div_nonneg by lia.
  set (q := (n_users / 4)%Z).
  assert (Hq : (0 <= q /\ 4 * q <= n_users)%Z).
  { unfold q. pose proof (Z.mul_div_le n_users 4 ltac:(lia)).
    pose proof (Z.div_pos n_users 4 ltac:(lia) ltac:(lia)). lia. }
  intros Hrun.
  apply bind_ok in Hrun as ([u1 i1] & k1 & H1 & Hrun).
  apply bind_ok in Hrun as ([u2 i2] & k2 & H2 & Hrun).
  apply bind_ok in Hrun as ([u3 i3] & k3 & H3 & Hret).
  injection Hret as <- _. cbn [users fst].
  unfold generate_class in H1, H2, H3.
  assert (Hlen : forall m, (0 <= m)%Z -> Z.of_nat (length (range_Z m)) = m).
  { intros m Hm. unfold range_Z. rewrite length_map, length_seq. lia. }
  apply (generate_class_users early days _ Hu Hd) in H1 as (-> & O1 & I1).
  apply (generate_class_users late days _ Hu Hd) in H2 as (-> & O2 & I2).
  apply (generate_class_users intermediate days _ Hu Hd) in H3 as (-> & O3 & I3).
  rewrite !Hlen in * by lia.
  assert (Hcases : forall j,
             ((j < 0 \/ n_users <= j)%Z /\ u3 !! j = None)
             \/ ((0 <= j < n_users)%Z
                 /\ exists u, u3 !! j = Some u
                              /\ generated_user (class_of_id n_users j) days j u)).
  { intros j. unfold class_of_id. fold q.
    destruct (Z.lt_ge_cases j 0) as [Hneg|Hpos].
    { left. split; [lia|]. rewrite O3, O2, O1 by lia. apply lookup_empty. }
    destruct (Z.lt_ge_cases j q) as [Hj1|Hj1].
    { right. split; [lia|]. destruct (I1 j ltac:(lia)) as (u & Hu1 & Hg).
      exists u. split; [rewrite O3, O2 by lia; exact Hu1|].
      destruct (Z.ltb_spec j q); [exact Hg|lia]. }
    destruct (Z.lt_ge_cases j (q + q)) as [Hj2|Hj2].
    { right. split; [lia|]. destruct (I2 j ltac:(lia)) as (u & Hu2 & Hg).
      exists u. split; [rewrite O3 by lia; exact Hu2|].
      destruct (Z.ltb_spec j q); [lia|].
      destruct (Z.ltb_spec j (2 * q)); [exact Hg|lia]. }
    destruct (Z.lt_ge_cases j n_users) as [Hj3|Hj3].
    { right. split; [lia|]. destruct (I3 j ltac:(lia)) as (u & Hu3 & Hg).
      exists u. split; [exact Hu3|].
      destruct (Z.ltb_spec j q); [lia|].
      destruct (Z.ltb_spec j (2 * q)); [lia|exact Hg]. }
    left. split; [lia|]. rewrite O3, O2, O1 by lia. apply lookup_empty. }
  split.
  - intros j. destruct (Hcases j) as [[Hout Hnone] | [Hin (u & Hsome & _)]].
    + rewrite Hnone. split; [intros [? ?]; discriminate|lia].
    + rewrite Hsome. split; [intros _; exact Hin|intros _; eexists; reflexivity].
  - intros j u Hj. destruct (Hcases j) as [[_ Hnone] | [_ (u' & Hsome & Hg)]];
      [congruence|].
    rewrite Hsome in Hj. injection Hj as <-. exact Hg.
Qed.

End Gen.


Lemma oscillation_in_band_witness :
  exists o,
    generate_circadian_oscillation example_odeint example_source
      (new_generator (22 # 7) 1 24 0.1) 1 24 0%nat = Ok (o, 96%nat)
    /\ Forall in_range (o_activity_level o)
    /\ length (o_activity_level o) = length (o_time_hours o).
Proof.
  apply (oscillation_in_band example_odeint example_source
           (new_generator (22 # 7) 1 24 0.1) 1 0%nat).
  - lia.
  - discriminate.
  - exists 0, 1. split; [left; reflexivity|]. split; [right; left; reflexivity|].
    discriminate.
Defined.

Lemma generators_need_a_day_witness :
  is_ok (generate_circadian_oscillation example_odeint example_source
           (new_generator (22 # 7) 1 24 0.1) 0 24 0%nat) = false
  /\ is_ok (generate_population_data (22 # 7) example_odeint example_source "now"
              4 0 0%nat) = false.
Proof.
  destruct (generators_need_a_day (22 # 7) example_odeint example_source "now"
              (new_generator (22 # 7) 1 24 0.1) 4 0 0%nat) as [H1 H2].
  - lia.
  - split; [exact H1|]. apply H2. lia.
Defined.

Lemma population_users_witness :
  exists (pop : Population) (k' : nat),
    generate_population_data (22 # 7) euler_odeint example_source "now" 4 1 0%nat
      = Ok (pop, k')
    /\ (forall j, is_Some (users pop !! j) <-> (0 <= j < 4)%Z)
    /\ (forall j u, users pop !! j = Some u ->
          generated_user (class_of_id 4 j) 1 j u).
Proof.
  destruct (population_run (22 # 7) euler_odeint example_source "now" 4 1 0%nat)
    as (pop & k' & Hrun & _).
  - intros k. split; discriminate.
  - lia.
  - lia.
  - exists pop, k'. split; [exact Hrun|].
    apply (population_users (22 # 7) euler_odeint example_source "now" 4 1 0%nat
             pop k').
    + intros k. split; discriminate.
    + lia.
    + lia.
    + exact Hrun.
Defined.
End SamplerFacts.

Module EventsFacts.
Import Py PyFacts Perturbation PerturbationFacts Events.
Local Open Scope Q_scope.

Section Enhancer.
Variable rs : RandomSource.

Lemma sample_NoDup {A} (a : list A) (n : nat) (k : nat) (xs : list A) (k' : nat) :
  List.NoDup a -> sample rs a n k = Ok (xs, k') ->
  List.NoDup xs /\ length xs = n /\ (forall x, In x xs -> In x a).
Proof.
  revert a k xs k'. induction n as [|n IH]; intros a k xs k' Hnd Hrun.
  - injection Hrun as <- _. split; [constructor|]. split; [reflexivity|intros x []].
  - cbn [sample] in Hrun.
    destruct (nth_error a (random_index rs k mod length a)) as [x|] eqn:Hx;
      [|discriminate].
    set (i := (random_index rs k mod length a)%nat) in *.
    apply bind_ok in Hrun as (rest & k1 & Hrest & Hret).
    injection Hret as <- _.
    destruct (nth_error_split a i Hx) as (l1 & l2 & Ha & Hl1).
    assert (Hfirst : firstn i a = l1).
    { rewrite Ha, <- Hl1, firstn_app, Nat.sub_diag, firstn_all. cbn. apply app_nil_r. }
    assert (Hskip : skipn (S i) a = l2).
    { rewrite Ha, <- Hl1, skipn_app, skipn_all2 by lia.
      replace (S (length l1) - length l1)%nat with 1%nat by lia. reflexivity. }
    rewrite Hfirst, Hskip in Hrest.
    rewrite Ha in Hnd. apply NoDup_remove in Hnd as [Hnd Hnotin].
    destruct (IH _ _ _ _ Hnd Hrest) as (Hnd' & Hlen & Hsub).
    split; [|split].
    + constructor; [|exact Hnd']. intros Hin. apply Hnotin, Hsub, Hin.
    + cbn. congruence.
    + intros y [<- | Hy]; [eapply nth_error_In; exact Hx|].
      rewrite Ha. apply Hsub in Hy. apply in_app_or in Hy as [Hy|Hy];
        apply in_or_app; [left|right; right]; exact Hy.
Qed.

Lemma choice_NoDup {A} (a : list A) (size : Z) (k : nat) (xs : list A) (k' : nat) :
  List.NoDup a -> choice rs a size k = Ok (xs, k') ->
  List.NoDup xs /\ Z.of_nat (length xs) = size /\ (forall x, In x xs -> In x a).
Proof.
  intros Hnd. unfold choice.
  destruct (Z.ltb_spec size 0); [discriminate|].
  destruct ((length a =? 0)%nat && negb (size =? 0)%Z); [discriminate|].
  destruct (Z.ltb_spec (Z.of_nat (length a)) size); [discriminate|].
  intros Hrun. destruct (sample_NoDup a _ k xs k' Hnd Hrun) as (H1 & H2 & H3).
  split; [exact H1|]. split; [lia|exact H3].
Qed.

Lemma range_NoDup (lo hi : Z) : List.NoDup (range lo hi).
Proof.
  unfold range. apply Finite.Injective_map_NoDup; [|apply seq_NoDup].
  intros i j Hij. lia.
Qed.

Lemma lift_run {A} (r : Result A) (k : nat) (a : A) (k' : nat) :
  lift r k = Ok (a, k') -> r = Ok a.
Proof. intros H. apply lift_ok in H as [H _]. exact H. Qed.

(** [disturb] writes one cell only. *)
Lemma disturb_cell (a : list Q) (i : Z) (factor scale : Q) (k : nat)
    (a' : list Q) (k' : nat) :
  disturb rs a i factor scale k = Ok (a', k') -> (0 <= i)%Z ->
  length a' = length a /\ forall m, m <> Z.to_nat i -> a' !! m = a !! m.
Proof.
  unfold disturb. intros Hrun Hi.
  apply bind_ok in Hrun as (a1 & k1 & H1 & Hrun).
  apply bind_ok in Hrun as (noise & k2 & _ & Hrun).
  apply bind_ok in Hrun as (a2 & k3 & H2 & H3).
  apply lift_run in H1, H2, H3.
  apply modify_item_ok in H1 as (j & x & Hj & _ & ->).
  apply (modify_after_insert a i j _ _ _ Hj) in H2 as ->.
  apply (modify_after_insert a i j _ _ _ Hj) in H3 as ->.
  assert (Ej : j = Z.to_nat i).
  { unfold py_index in Hj.
    destruct ((0 <=? i)%Z && (i <? Z.of_nat (length a))%Z); [congruence|].
    destruct ((- Z.of_nat (length a) <=? i)%Z && (i <? 0)%Z) eqn:Hneg; [|discriminate].
    apply andb_true_iff in Hneg as [_ Hneg]. lia. }
  subst j. split; [apply length_insert|].
  intros m Hm. apply list_lookup_insert_ne. lia.
Qed.

(** A loop of [disturb] over [range(lo, hi)] writes the cells lo .. hi-1
    only. *)
Lemma disturb_loop_cells (lo hi : Z) (factor scale : Q) (a : list Q) (k : nat)
    (a' : list Q) (k' : nat) :
  (0 <= lo)%Z ->
  for_each (range lo hi) (fun i activity => disturb rs activity i factor scale) a k
    = Ok (a', k') ->
  length a' = length a
  /\ forall m, ~ (lo <= Z.of_nat m < hi)%Z -> a' !! m = a !! m.
Proof.
  intros Hlo Hrun.
  refine (for_each_inv
            (fun b => length b = length a
                      /\ forall m, ~ (lo <= Z.of_nat m < hi)%Z -> b !! m = a !! m)
            _ _ _ a k a' k' _ Hrun).
  - intros i b j b' j' Hin [Hlen Hsame] Hstep. apply in_range_list in Hin.
    destruct (disturb_cell b i factor scale j b' j' Hstep ltac:(lia)) as [Hl Hc].
    split; [congruence|]. intros m Hm. rewrite Hc by lia. apply Hsame, Hm.
  - split; [reflexivity|]. intros m _. reflexivity.
Qed.

(** One trip: the record appended, and the cells written. *)
Lemma travel_trip_run (total_days trip_day : Z) (a : list Q) (ev : list TravelEvent)
    (k : nat) (a' : list Q) (ev' : list TravelEvent) (k' : nat) :
  (0 <= trip_day)%Z ->
  travel_trip rs total_days trip_day (a, ev) k = Ok ((a', ev'), k') ->
  (exists tz rd, ev' = ev ++ [ {| ev_day := trip_day; ev_timezone_shift := tz;
                                  ev_recovery_days := rd |} ]
                 /\ In tz [-8; -6; -3; 3; 6; 8]%Z /\ (3 <= rd <= 7)%Z)
  /\ length a' = length a
  /\ forall m, (Z.of_nat m < trip_day * 24)%Z -> a' !! m = a !! m.
Proof.
  intros Htrip. unfold travel_trip. intros Hrun.
  apply bind_ok in Hrun as (tz & k1 & Htz & Hrun).
  apply bind_ok in Hrun as (rd & k2 & Hrd & Hrun).
  apply bind_ok in Hrun as (out & k3 & Hloop & Hret).
  injection Hret as <- <- _.
  assert (Htz' : In tz [-8; -6; -3; 3; 6; 8]%Z).
  { unfold choice_one in Htz.
    destruct (nth_error _ _) as [x|] eqn:Hx; [|discriminate].
    injection Htz as <- _. eapply nth_error_In. exact Hx. }
  assert (Hrd' : (3 <= rd <= 7)%Z).
  { unfold randint in Hrd. destruct (8 <=? 3)%Z; [discriminate|].
    injection Hrd as <- _.
    pose proof (Z.mod_pos_bound (Z.of_nat (random_index rs k1)) (8 - 3)). lia. }
  split; [exists tz, rd; repeat split; try assumption; lia|].
  refine (for_each_inv
            (fun b => length b = length a
                      /\ forall m, (Z.of_nat m < trip_day * 24)%Z -> b !! m = a !! m)
            _ _ _ a k2 out k3 _ Hloop).
  - intros recovery_day b j b' j' Hin [Hlen Hsame] Hstep.
    apply in_range_list in Hin.
    destruct (_ <? _)%Z; [|injection Hstep as <- _; split; assumption].
    apply disturb_loop_cells in Hstep as [Hl Hc]; [|lia].
    split; [congruence|]. intros m Hm. rewrite Hc by lia. apply Hsame, Hm.
  - split; [reflexivity|]. intros m _. reflexivity.
Qed.

Lemma travel_trips_run (total_days : Z) (trip_days : list Z) :
  forall (a : list Q) (ev : list TravelEvent) (k : nat)
         (a' : list Q) (ev' : list TravelEvent) (k' : nat),
    Forall (fun d => (7 <= d < total_days - 7)%Z) trip_days ->
    for_each trip_days (travel_trip rs total_days) (a, ev) k = Ok ((a', ev'), k') ->
    (exists new, ev' = ev ++ new
                 /\ map ev_day new = trip_days
                 /\ Forall (travel_event_ok total_days) new)
    /\ length a' = length a
    /\ forall m, (m < 168)%nat -> a' !! m = a !! m.
Proof.
  induction trip_days as [|d ds IH]; intros a ev k a' ev' k' Hds Hrun.
  - injection Hrun as <- <- _. split; [|split; [reflexivity|intros; reflexivity]].
    exists []. rewrite app_nil_r. repeat split. constructor.
  - inversion Hds as [|? ? Hd Hds']; subst.
    cbn [for_each] in Hrun. apply bind_ok in Hrun as ([a1 ev1] & k1 & Hstep & Hrest).
    apply travel_trip_run in Hstep as ((tz & rd & -> & Htz & Hrd) & Hl1 & Hc1); [|lia].
    destruct (IH _ _ _ _ _ _ Hds' Hrest) as ((new & -> & Hdays & Hok) & Hl & Hc).
    split; [|split; [congruence|]].
    + eexists (_ :: new). rewrite <- app_assoc. split; [reflexivity|].
      split; [cbn; congruence|]. constructor; [|exact Hok].
      unfold travel_event_ok. cbn. repeat split; try assumption; lia.
    + intros m Hm. rewrite Hc by exact Hm. apply Hc1. lia.
Qed.

(** X19.  The three regimes of [add_travel_jetlag], by the number of whole days
    [total_days] of the hour indices: with no trip asked for or at most nine
    days it returns the base signal and an empty log and reads no draw; with
    ten to fourteen days and a trip asked for it raises; from fifteen days
    on it returns.  So it returns exactly when it is not in the middle
    regime. *)
Theorem travel_jetlag_regimes (u : UserData) (n_trips : Z) (k : nat) :
  let total_days := days_of (time_hours u) in
  ((n_trips <= 0 \/ total_days <= 9)%Z ->
     add_travel_jetlag rs u n_trips k = Ok (with_jetlag u (activity_level u) [], k))
  /\ ((0 < n_trips /\ 10 <= total_days <= 14)%Z ->
        add_travel_jetlag rs u n_trips k = Raise "ValueError")
  /\ (is_ok (add_travel_jetlag rs u n_trips k) = true
      <-> ~ (0 < n_trips /\ 10 <= total_days <= 14)%Z).
Proof.
  cbn zeta. split; [apply travel_jetlag_no_trip|].
  split; [intros [Hn Hd]; apply travel_jetlag_raises; assumption|].
  split.
  - intros Hok [Hn Hd]. rewrite travel_jetlag_raises in Hok by assumption.
    discriminate Hok.
  - intros Hno.
    destruct (travel_jetlag_total rs u n_trips k) as (u' & k' & ->); [lia|reflexivity].
Qed.

(** X20.  When a trip is asked of fifteen days or more, the log holds
    [min(n_trips, total_days // 10)] records, on pairwise different start
    days within [7, total_days - 7), each with a shift among -8, -6, -3, 3,
    6, 8 and three to seven recovery days; the signal keeps its length and
    its first week (168 hours) is untouched. *)
Theorem travel_jetlag_events (u : UserData) (n_trips : Z) (k : nat)
    (u' : UserData) (k' : nat) :
  (0 < n_trips)%Z -> (15 <= days_of (time_hours u))%Z ->
  add_travel_jetlag rs u n_trips k = Ok (u', k') ->
  exists events out,
    travel_events u' = Some events
    /\ activity_level_with_jetlag u' = Some out
    /\ Z.of_nat (length events) = Z.min n_trips (days_of (time_hours u) / 10)
    /\ List.NoDup (map ev_day events)
    /\ Forall (travel_event_ok (days_of (time_hours u))) events
    /\ length out = length (activity_level u)
    /\ (forall m, (m < 168)%nat -> out !! m = activity_level u !! m).
Proof.
  intros Hn Hd. unfold add_travel_jetlag.
  destruct (Z.ltb_spec 0 n_trips); [|lia].
  destruct (Z.ltb_spec 7 (days_of (time_hours u))); [|lia].
  cbn [andb]. intros Hrun.
  apply bind_ok in Hrun as (trip_days & k1 & Hchoice & Hrun).
  apply bind_ok in Hrun as ([out events] & k2 & Hloop & Hret).
  injection Hret as <- _.
  apply choice_NoDup in Hchoice as (Hnd & Hlen & Hsub); [|apply range_NoDup].
  apply travel_trips_run in Hloop as ((new & Hev & Hdays & Hok) & Hl & Hc).
  - cbn [app] in Hev. subst events.
    exists new, out. cbn [travel_events activity_level_with_jetlag with_jetlag fst snd].
    repeat split; try assumption.
    + rewrite <- Hlen, <- Hdays, length_map. reflexivity.
    + rewrite Hdays. exact Hnd.
  - apply List.Forall_forall. intros d Hin. apply Hsub, in_range_list in Hin. lia.
Qed.

(** A loop over [enumerate(xs)] whose round [i] writes cell [i] only, and
    that from cells not yet visited: the cells before the start and after
    the end are untouched, and cell [i] is what round [i] made of the
    original array. *)
Lemma for_each_enumerate {A} (body : Z * A -> list Q -> M (list Q))
    (R : nat -> A -> list Q -> option Q -> Prop) (base : list Q) :
  (forall (i : nat) (x : A) a k a' k',
     body (Z.of_nat i, x) a k = Ok (a', k') ->
     length a = length base ->
     (forall m, (i <= m)%nat -> a !! m = base !! m) ->
     length a' = length a
     /\ (forall m, m <> i -> a' !! m = a !! m)
     /\ R i x base (a' !! i)) ->
  forall (xs : list A) (s : nat) a k a' k',
    for_each (combine (map Z.of_nat (seq s (length xs))) xs) body a k = Ok (a', k') ->
    length a = length base ->
    (forall m, (s <= m)%nat -> a !! m = base !! m) ->
    length a' = length base
    /\ (forall m, (m < s)%nat -> a' !! m = a !! m)
    /\ (forall m, (s + length xs <= m)%nat -> a' !! m = base !! m)
    /\ (forall j x, xs !! j = Some x -> R (s + j)%nat x base (a' !! (s + j)%nat)).
Proof.
  intros Hbody. induction xs as [|x xs IH]; intros s a k a' k' Hrun Hlen Hbase.
  - injection Hrun as <- _. split; [exact Hlen|]. split; [reflexivity|].
    split; [intros m Hm; apply Hbase; cbn in Hm; lia|]. intros j y Hj. discriminate Hj.
  - cbn [length seq map combine for_each] in Hrun.
    apply bind_ok in Hrun as (a1 & k1 & Hstep & Hrest).
    destruct (Hbody s x a k a1 k1 Hstep Hlen Hbase) as (Hl1 & Hother & Hcell).
    destruct (IH (S s) a1 k1 a' k' Hrest) as (Hl & Hbefore & Hafter & Hin).
    + congruence.
    + intros m Hm. rewrite Hother by lia. apply Hbase. lia.
    + split; [exact Hl|]. split; [|split].
      * intros m Hm. rewrite Hbefore by lia. apply Hother. lia.
      * intros m Hm. apply Hafter. cbn [length] in Hm. lia.
      * intros [|j] y Hj.
        { injection Hj as <-. rewrite Nat.add_0_r, Hbefore by lia. exact Hcell. }
        { replace (s + S j)%nat with (S s + j)%nat by lia. apply Hin. exact Hj. }
Qed.

Lemma py_index_of_nat (len : nat) (i : nat) (j : nat) :
  py_index len (Z.of_nat i) = Ok j -> j = i /\ (i < len)%nat.
Proof.
  unfold py_index.
  destruct (Z.leb_spec 0 (Z.of_nat i)); [|lia].
  destruct (Z.ltb_spec (Z.of_nat i) (Z.of_nat len)); cbn [andb].
  - intros E. injection E as <-. lia.
  - destruct ((- Z.of_nat len <=? Z.of_nat i)%Z); cbn [andb];
      destruct (Z.ltb_spec (Z.of_nat i) 0); try lia; discriminate.
Qed.

(** The number of stress days drawn for [td] days of data lies between
    [td // 20] and [td // 10]. *)
Lemma stress_day_count (td : Z) (r : Q) :
  (0 <= td)%Z -> 0 <= r /\ r <= 1 ->
  (td / 20 <= py_int ((0.05 + (0.10 - 0.05) * r) * inject_Z td) <= td / 10)%Z.
Proof.
  intros Htd [Hr0 Hr1].
  set (t := inject_Z td).
  assert (Ht : 0 <= t)
    by (change (inject_Z 0 <= inject_Z td); rewrite <- Zle_Qle; exact Htd).
  set (v := (0.05 + (0.10 - 0.05) * r) * t).
  assert (Hlo : 0.05 * t <= v) by (unfold v; nra).
  assert (Hhi : v <= 0.10 * t) by (unfold v; nra).
  unfold py_int.
  assert (Hb : Qle_bool 0 v = true) by (apply Qle_bool_iff; lra).
  rewrite Hb. split.
  - assert (H20 : inject_Z (td / 20) <= v).
    { pose proof (Z.mul_div_le td 20 ltac:(lia)) as H.
      rewrite Zle_Qle, inject_Z_mult in H. fold t in H.
      change (inject_Z 20) with 20 in H. lra. }
    apply Qfloor_resp_le in H20. rewrite Qfloor_Z in H20. exact H20.
  - apply Z.div_le_lower_bound; [lia|].
    pose proof (Qfloor_le v) as Hf.
    rewrite Zle_Qle, inject_Z_mult. fold t. change (inject_Z 10) with 10. lra.
Qed.

(** X21.  [add_stress_patterns] records distinct days of the data, between a
    twentieth and a tenth of them, and rewrites samples of those days only. *)
Theorem stress_patterns_days (u : UserData) (k : nat) (u' : UserData) (k' : nat) :
  unit_draws rs ->
  add_stress_patterns rs u k = Ok (u', k') ->
  exists days out,
    stress_events u' = Some days
    /\ activity_level_with_stress u' = Some out
    /\ List.NoDup days
    /\ (forall d, In d days -> (0 <= d < days_of (activity_level u))%Z)
    /\ (days_of (activity_level u) / 20 <= Z.of_nat (length days)
        <= days_of (activity_level u) / 10)%Z
    /\ length out = length (activity_level u)
    /\ (forall m, ~ In (Z.of_nat m / 24)%Z days -> out !! m = activity_level u !! m).
Proof.
  intros Hu. unfold add_stress_patterns. intros Hrun.
  apply bind_ok in Hrun as (x & k1 & Hx & Hrun).
  apply bind_ok in Hrun as (days & k2 & Hdays & Hrun).
  apply bind_ok in Hrun as (out & k3 & Hloop & Hret).
  injection Hret as <- _.
  unfold uniform in Hx. injection Hx as <- <-.
  apply choice_NoDup in Hdays as (Hnd & Hlen & Hsub); [|apply range_NoDup].
  assert (Htd : (0 <= days_of (activity_level u))%Z)
    by (unfold days_of; apply Z.div_pos; lia).
  exists days, out. split; [reflexivity|]. split; [reflexivity|].
  split; [exact Hnd|]. split.
  { intros d Hd. apply Hsub, in_range_list in Hd. exact Hd. }
  split.
  { rewrite Hlen. apply stress_day_count; [exact Htd|apply Hu]. }
  refine (for_each_inv
            (fun b => length b = length (activity_level u)
                      /\ forall m, ~ In (Z.of_nat m / 24)%Z days ->
                           b !! m = activity_level u !! m)
            _ _ _ _ k2 out k3 _ Hloop).
  - intros d b j b' j' Hin [Hl Hsame] Hstep.
    pose proof (Hsub d Hin) as Hd. apply in_range_list in Hd.
    apply disturb_loop_cells in Hstep as [Hl' Hc]; [|lia].
    split; [congruence|]. intros m Hm. rewrite Hc; [apply Hsame, Hm|].
    intros Hcell. apply Hm.
    replace (Z.of_nat m / 24)%Z with d; [exact Hin|].
    apply (Z.div_unique _ 24 d (Z.of_nat m - d * 24)); lia.
  - split; [reflexivity|]. intros m _. reflexivity.
Qed.

Variable np_pi : Q.
Variable np_cos : Q -> Q.

(** X22.  Each sample of the seasonal signal is the clipped product of the base
    sample of the same hour and the factor of that hour; samples without an
    hour index are copied. *)
Theorem seasonal_variation_pointwise (u : UserData) (k : nat) (u' : UserData) (k' : nat) :
  add_seasonal_variation np_pi np_cos u k = Ok (u', k') ->
  k' = k
  /\ exists out,
       activity_level_with_seasonal u' = Some out
       /\ length out = length (activity_level u)
       /\ (forall m hour x,
             time_hours u !! m = Some hour -> activity_level u !! m = Some x ->
             out !! m
             = Some (np_clip (x * seasonal_factor np_pi np_cos (chronotype u) hour)
                             0.05 1.0))
       /\ (forall m, (length (time_hours u) <= m)%nat ->
             out !! m = activity_level u !! m).
Proof.
  unfold add_seasonal_variation. intros Hrun.
  apply bind_ok in Hrun as (out & k1 & Hloop & Hret).
  injection Hret as <- <-.
  assert (Hk : k1 = k).
  { revert Hloop. generalize (activity_level u) at 1. generalize k.
    induction (enumerate (time_hours u)) as [|[i hour] l IHl]; intros j a Hl.
    - injection Hl as _ <-. reflexivity.
    - cbn [for_each] in Hl. apply bind_ok in Hl as (a1 & j1 & Hs & Hl).
      apply bind_ok in Hs as (a2 & j2 & Hs1 & Hs2).
      apply lift_ok in Hs1 as [_ ->]. apply lift_ok in Hs2 as [_ ->].
      apply (IHl _ _ Hl). }
  split; [exact Hk|].
  exists out. split; [reflexivity|].
  unfold enumerate in Hloop.
  apply (for_each_enumerate _
           (fun i hour base cell =>
              forall x, base !! i = Some x ->
                cell = Some (np_clip (x * seasonal_factor np_pi np_cos (chronotype u) hour)
                                     0.05 1.0))
           (activity_level u)) in Hloop as (Hl & _ & Hafter & Hin).
  - split; [exact Hl|]. split.
    + intros m hour x Hh Hx. exact (Hin m hour Hh x Hx).
    + intros m Hm. apply Hafter. lia.
  - intros i hour a j a' j' Hstep Hlen Hbase.
    apply bind_ok in Hstep as (a1 & j1 & H1 & H2).
    apply lift_run in H1, H2.
    apply modify_item_ok in H1 as (p & x & Hp & Hx & ->).
    apply (modify_after_insert a _ p _ _ _ Hp) in H2 as ->.
    apply py_index_of_nat in Hp as [-> Hi].
    split; [apply length_insert|]. split.
    + intros m Hm. apply list_lookup_insert_ne. lia.
    + intros y Hy. rewrite list_lookup_insert_eq by exact Hi.
      rewrite Hbase in Hx by lia. unfold seasonal_factor. congruence.
  - reflexivity.
  - intros m _. reflexivity.
Qed.

(** X23.  Each sample of the social-jetlag signal is a base sample: the one
    of the same hour or, at a weekend hour only, the one found one, two or
    three hours later (a shift of three is where [np.random.uniform(1, 3)]
    rounds to [3.0]), and then only when that later sample exists;
    weekday samples and samples without an hour index are copied. *)
Theorem social_jetlag_pointwise (u : UserData) (k : nat) (u' : UserData) (k' : nat) :
  unit_draws rs ->
  add_social_jetlag rs u k = Ok (u', k') ->
  exists out,
    activity_level_with_social_jetlag u' = Some out
    /\ length out = length (activity_level u)
    /\ (forall m hour,
          time_hours u !! m = Some hour ->
          out !! m = activity_level u !! m
          \/ (is_weekend hour = true
              /\ exists shift,
                   (1 <= shift <= 3)%nat
                   /\ (m + shift < length (activity_level u))%nat
                   /\ out !! m = activity_level u !! (m + shift)%nat))
    /\ (forall m hour,
          time_hours u !! m = Some hour -> is_weekend hour = false ->
          out !! m = activity_level u !! m)
    /\ (forall m, (length (time_hours u) <= m)%nat ->
          out !! m = activity_level u !! m).
Proof.
  intros Hu. unfold add_social_jetlag. intros Hrun.
  apply bind_ok in Hrun as (out & k1 & Hloop & Hret).
  injection Hret as <- _.
  exists out. split; [reflexivity|].
  unfold enumerate in Hloop.
  apply (for_each_enumerate _
           (fun i hour base cell =>
              cell = base !! i
              \/ (is_weekend hour = true
                  /\ exists shift,
                       (1 <= shift <= 3)%nat /\ (i + shift < length base)%nat
                       /\ cell = base !! (i + shift)%nat))
           (activity_level u)) in Hloop as (Hl & _ & Hafter & Hin).
  - split; [exact Hl|]. split; [|split].
    + intros m hour Hh. exact (Hin m hour Hh).
    + intros m hour Hh Hw. destruct (Hin m hour Hh) as [E|[Hw' _]]; [exact E|].
      congruence.
    + intros m Hm. apply Hafter. lia.
  - intros i hour a j a' j' Hstep Hlen Hbase.
    fold (is_weekend hour) in Hstep.
    destruct (is_weekend hour) eqn:Hw.
    2:{ injection Hstep as <- _. split; [reflexivity|]. split; [reflexivity|].
        left. apply Hbase. lia. }
    apply bind_ok in Hstep as (shift & j1 & Hshift & Hstep).
    unfold uniform in Hshift. injection Hshift as <- <-.
    destruct (Hu j) as [Hr0 Hr1].
    set (ps := py_int (1 + (3 - 1) * random_sample rs j)) in *.
    assert (Hps : (1 <= ps <= 3)%Z).
    { unfold ps, py_int.
      assert (H1 : 1 <= 1 + (3 - 1) * random_sample rs j) by lra.
      assert (H3 : 1 + (3 - 1) * random_sample rs j <= 3) by lra.
      assert (Hb : Qle_bool 0 (1 + (3 - 1) * random_sample rs j) = true)
        by (apply Qle_bool_iff; lra).
      rewrite Hb.
      pose proof (Qfloor_resp_le _ _ H1) as Hf1. change (Qfloor 1) with 1%Z in Hf1.
      pose proof (Qfloor_resp_le _ _ H3) as Hf3. change (Qfloor 3) with 3%Z in Hf3.
      lia. }
    destruct (Z.ltb_spec (Z.of_nat i + ps) (Z.of_nat (length a))) as [Hlt|Hge].
    2:{ injection Hstep as <- _. split; [reflexivity|]. split; [reflexivity|].
        left. apply Hbase. lia. }
    apply bind_ok in Hstep as (v & j2 & Hget & Hset).
    apply lift_run in Hget, Hset.
    unfold get_item in Hget. rewrite py_index_nonneg in Hget by lia.
    destruct (a !! Z.to_nat (Z.of_nat i + ps)) as [y|] eqn:Hy; [|discriminate].
    injection Hget as <-.
    unfold set_item in Hset. rewrite py_index_nonneg in Hset by lia.
    injection Hset as <-. rewrite Nat2Z.id.
    split; [apply length_insert|]. split.
    + intros m Hm. apply list_lookup_insert_ne. lia.
    + rewrite list_lookup_insert_eq by lia.
      rewrite Hbase in Hy by lia. rewrite <- Hy.
      right. split; [reflexivity|]. exists (Z.to_nat ps).
      split; [lia|]. split; [lia|].
      replace (Z.to_nat (Z.of_nat i + ps)%Z) with (i + Z.to_nat ps)%nat by lia.
      reflexivity.
  - reflexivity.
  - intros m _. reflexivity.
Qed.

End Enhancer.

Lemma travel_jetlag_regimes_witness :
  add_travel_jetlag example_draws (flat_user 9) 2 0%nat
  = Ok (with_jetlag (flat_user 9) (activity_level (flat_user 9)) [], 0%nat).
Proof.
  apply (proj1 (travel_jetlag_regimes example_draws (flat_user 9) 2 0%nat)).
  right. vm_compute. discriminate.
Defined.

Lemma travel_jetlag_events_witness :
  exists (u' : UserData) (k' : nat) (events : list TravelEvent),
    add_travel_jetlag example_draws (flat_user 15) 2 0%nat = Ok (u', k')
    /\ travel_events u' = Some events
    /\ Z.of_nat (length events) = 1%Z
    /\ Forall (travel_event_ok 15) events.
Proof.
  destruct (add_travel_jetlag example_draws (flat_user 15) 2 0%nat)
    as [[u' k']|e] eqn:Hrun.
  - destruct (travel_jetlag_events example_draws (flat_user 15) 2 0%nat u' k')
      as (events & out & Hev & _ & Hn & _ & Hok & _).
    + lia.
    + vm_compute. discriminate.
    + exact Hrun.
    + exists u', k', events. split; [reflexivity|]. split; [exact Hev|].
      split; [exact Hn|exact Hok].
  - vm_compute in Hrun. discriminate Hrun.
Defined.

Lemma stress_patterns_days_witness :
  exists (u' : UserData) (k' : nat) (days : list Z),
    add_stress_patterns example_draws (flat_user 20) 0%nat = Ok (u', k')
    /\ stress_events u' = Some days
    /\ (1 <= Z.of_nat (length days) <= 2)%Z.
Proof.
  destruct (add_stress_patterns example_draws (flat_user 20) 0%nat)
    as [[u' k']|e] eqn:Hrun.
  - destruct (stress_patterns_days example_draws (flat_user 20) 0%nat u' k')
      as (days & out & Hdays & _ & _ & _ & Hn & _).
    + intros k. split; discriminate.
    + exact Hrun.
    + exists u', k', days. split; [reflexivity|]. split; [exact Hdays|].
      exact Hn.
  - vm_compute in Hrun. discriminate Hrun.
Defined.

Lemma seasonal_variation_pointwise_witness :
  exists (u' : UserData) (out : list Q),
    add_seasonal_variation (22 # 7) example_cos (flat_user 1) 0%nat = Ok (u', 0%nat)
    /\ activity_level_with_seasonal u' = Some out
    /\ out !! 3%nat
       = Some (np_clip ((1 # 2) * seasonal_factor (22 # 7) example_cos late 3)
                       0.05 1.0)%Q.
Proof.
  destruct (add_seasonal_variation (22 # 7) example_cos (flat_user 1) 0%nat)
    as [[u' k']|e] eqn:Hrun.
  - destruct (seasonal_variation_pointwise (22 # 7) example_cos
                (flat_user 1) 0%nat u' k' Hrun)
      as (-> & out & Hout & _ & Hcell & _).
    exists u', out. split; [reflexivity|]. split; [exact Hout|].
    apply (Hcell 3%nat 3%Z (1 # 2)%Q); reflexivity.
  - vm_compute in Hrun. discriminate Hrun.
Defined.

Lemma social_jetlag_pointwise_witness :
  exists (u' : UserData) (k' : nat) (out : list Q),
    add_social_jetlag example_draws (flat_user 5) 0%nat = Ok (u', k')
    /\ activity_level_with_social_jetlag u' = Some out
    /\ length out = 120%nat.
Proof.
  destruct (add_social_jetlag example_draws (flat_user 5) 0%nat)
    as [[u' k']|e] eqn:Hrun.
  - destruct (social_jetlag_pointwise example_draws (flat_user 5) 0%nat u' k')
      as (out & Hout & Hlen & _).
    + intros k. split; discriminate.
    + exact Hrun.
    + exists u', k', out. split; [reflexivity|]. split; [exact Hout|exact Hlen].
  - vm_compute in Hrun. discriminate Hrun.
Defined.

End EventsFacts.

Module PipelineFacts.
Import Py Perturbation Pipeline PyFacts PerturbationFacts.

Lemma dict_set_keys {K V} `{EqDecision K} (d : list (K * V)) (key : K) (value : V) :
  In key (map fst d) -> map fst (dict_set d key value) = map fst d.
Proof.
  induction d as [|[k v] d IH]; intros Hin; [destruct Hin|].
  cbn [dict_set]. destruct (decide (k = key)) as [->|Hne]; [reflexivity|].
  cbn [map fst]. f_equal. apply IH. destruct Hin as [Hk|Hin]; [contradiction|exact Hin].
Qed.

Lemma dict_set_lookup {K V} `{EqDecision K} (d : list (K * V)) (key : K) (value : V)
    (i : nat) (k : K) (v : V) :
  List.NoDup (map fst d) -> d !! i = Some (k, v) ->
  dict_set d key value !! i = Some (k, if decide (k = key) then value else v).
Proof.
  revert i. induction d as [|[k0 v0] d IH]; intros i Hnd Hi; [discriminate Hi|].
  inversion Hnd as [|? ? Hnotin Hnd']; subst.
  cbn [dict_set]. destruct (decide (k0 = key)) as [->|Hne].
  - destruct i as [|i]; cbn in Hi |- *.
    + injection Hi as <- <-. rewrite decide_True by reflexivity. reflexivity.
    + rewrite Hi. destruct (decide (k = key)) as [->|]; [|reflexivity].
      exfalso. apply Hnotin. apply in_map_iff. exists (key, v). split; [reflexivity|].
      apply list_elem_of_In. eapply list_elem_of_lookup_2. exact Hi.
  - destruct i as [|i]; cbn in Hi |- *.
    + injection Hi as <- <-. rewrite decide_False by exact Hne. reflexivity.
    + apply IH; assumption.
Qed.

Lemma for_each_raises {A S} (xs : list A) (body : A -> S -> M S) (x : A) :
  In x xs -> (forall s k, is_ok (body x s k) = false) ->
  forall s k, is_ok (for_each xs body s k) = false.
Proof.
  intros Hin Hx. induction xs as [|y ys IH]; [destruct Hin|]. intros s k.
  cbn [for_each]. unfold bind.
  destruct Hin as [->|Hin].
  - specialize (Hx s k). destruct (body x s k) as [[s1 k1]|e]; [discriminate|reflexivity].
  - destruct (body y s k) as [[s1 k1]|e]; [apply IH, Hin|reflexivity].
Qed.

Section Enhance.
Variable np_pi : Q.
Variable np_cos : Q -> Q.
Variable rs : RandomSource.
Context {K : Type} `{EqDecision K}.

Lemma enhance_user_run (u : UserData) (k : nat) (e : UserData) (k' : nat) :
  enhance_user np_pi np_cos rs u k = Ok (e, k') -> enhanced_from u e.
Proof.
  unfold enhance_user. intros Hrun.
  apply bind_ok in Hrun as (u1 & k1 & H1 & Hrun).
  apply bind_ok in Hrun as (u2 & k2 & H2 & Hrun).
  apply bind_ok in Hrun as (u3 & k3 & H3 & H4).
  destruct (social_jetlag_kept rs _ _ _ _ H1) as (a & Ha & Hka).
  destruct (stress_patterns_kept rs _ _ _ _ H2) as (b & Hb & Hkb).
  destruct (seasonal_variation_kept np_pi np_cos _ _ _ _ H3) as (c & Hc & Hkc).
  destruct (travel_jetlag_kept rs _ _ _ _ _ H4) as (d & ev & Hd & Hev & Hkd).
  unfold add_social_jetlag in H1.
  apply bind_ok in H1 as (a' & j1 & _ & E1). injection E1 as <- _.
  unfold add_stress_patterns in H2.
  apply bind_ok in H2 as (x & j2 & _ & H2).
  apply bind_ok in H2 as (days & j3 & _ & H2).
  apply bind_ok in H2 as (b' & j4 & _ & E2). injection E2 as <- _.
  unfold add_seasonal_variation in H3.
  apply bind_ok in H3 as (c' & j5 & _ & E3). injection E3 as <- _.
  assert (E4 : exists d' ev', e = with_jetlag
            (with_seasonal (with_stress (with_social_jetlag u a') b' days) c') d' ev').
  { unfold add_travel_jetlag in H4. destruct (_ && _).
    - apply bind_ok in H4 as (trip_days & j6 & _ & H4).
      apply bind_ok in H4 as (st & j7 & _ & E4). injection E4 as <- _.
      eexists; eexists; reflexivity.
    - injection H4 as <- _. eexists; eexists; reflexivity. }
  destruct E4 as (d' & ev' & ->).
  cbn in Ha, Hb, Hc, Hd, Hev, Hka, Hkb, Hkc, Hkd |- *.
  unfold enhanced_from. cbn.
  repeat (split; [reflexivity|]).
  split; [|exists days, ev'; split; reflexivity].
  exists a', b', c', d'. repeat (split; [reflexivity|]).
  injection Ha as <-. injection Hb as <-. injection Hc as <-. injection Hd as <-.
  split; [exact Hka|]. split; [exact Hkb|]. split; [exact Hkc|exact Hkd].
Qed.

Lemma enhance_user_short (u : UserData) (k : nat) :
  short_history u -> is_ok (enhance_user np_pi np_cos rs u k) = false.
Proof.
  intros Hs. unfold enhance_user, bind.
  destruct (add_social_jetlag rs u k) as [[u1 k1]|e1] eqn:H1; [|reflexivity].
  destruct (add_stress_patterns rs u1 k1) as [[u2 k2]|e2] eqn:H2; [|reflexivity].
  destruct (add_seasonal_variation np_pi np_cos u2 k2) as [[u3 k3]|e3] eqn:H3;
    [|reflexivity].
  assert (Ht : time_hours u3 = time_hours u).
  { unfold add_social_jetlag in H1.
    apply bind_ok in H1 as (a' & j1 & _ & E1). injection E1 as <- _.
    unfold add_stress_patterns in H2.
    apply bind_ok in H2 as (x & j2 & _ & H2).
    apply bind_ok in H2 as (days & j3 & _ & H2).
    apply bind_ok in H2 as (b' & j4 & _ & E2). injection E2 as <- _.
    unfold add_seasonal_variation in H3.
    apply bind_ok in H3 as (c' & j5 & _ & E3). injection E3 as <- _.
    reflexivity. }
  rewrite travel_jetlag_raises; [reflexivity|lia|]. rewrite Ht. exact Hs.
Qed.

Lemma enhance_user_total (u : UserData) (k : nat) :
  unit_draws rs ->
  (length (time_hours u) <= length (activity_level u))%nat ->
  ~ short_history u ->
  exists e k', enhance_user np_pi np_cos rs u k = Ok (e, k').
Proof.
  intros Hu Hlen Hs. unfold enhance_user.
  destruct (social_jetlag_total rs u k Hu) as (u1 & k1 & H1).
  rewrite (bind_step _ _ _ _ _ H1).
  destruct (stress_patterns_total rs u1 k1 Hu) as (u2 & k2 & H2).
  rewrite (bind_step _ _ _ _ _ H2).
  unfold add_social_jetlag in H1.
  apply bind_ok in H1 as (a' & j1 & _ & E1). injection E1 as <- _.
  unfold add_stress_patterns in H2.
  apply bind_ok in H2 as (x & j2 & _ & H2).
  apply bind_ok in H2 as (days & j3 & _ & H2).
  apply bind_ok in H2 as (b' & j4 & _ & E2). injection E2 as <- _.
  destruct (seasonal_variation_total np_pi np_cos
              (with_stress (with_social_jetlag u a') b' days) k2 Hlen) as (u3 & k3 & H3).
  rewrite (bind_step _ _ _ _ _ H3).
  unfold add_seasonal_variation in H3.
  apply bind_ok in H3 as (c' & j5 & _ & E3). injection E3 as <- _.
  apply travel_jetlag_total. cbn [time_hours with_seasonal with_stress with_social_jetlag].
  unfold short_history in Hs. lia.
Qed.

(** The loop of [enhance_population_data] from any point on: the items
    still to visit are rewritten in place, the others stay. *)
Lemma enhance_loop (todo : list (K * UserData)) :
  forall (done users : list (K * UserData)) (k : nat)
         (out : list (K * UserData)) (k' : nat),
    List.NoDup (map fst (done ++ todo)) ->
    map fst users = map fst (done ++ todo) ->
    (forall i key u, todo !! i = Some (key, u) ->
       users !! (length done + i)%nat = Some (key, u)) ->
    for_each todo
      (fun '(user_id, user_data) users =>
         enhanced_user_data <- enhance_user np_pi np_cos rs user_data ;;
         ret (dict_set users user_id enhanced_user_data))
      users k = Ok (out, k') ->
    map fst out = map fst (done ++ todo)
    /\ (forall i, (i < length done)%nat -> out !! i = users !! i)
    /\ (forall i key u, todo !! i = Some (key, u) ->
          exists e, out !! (length done + i)%nat = Some (key, e) /\ enhanced_from u e).
Proof.
  induction todo as [|[key u] todo IH]; intros done users k out k' Hnd Hkeys Hsame Hrun.
  - injection Hrun as <- _. split; [exact Hkeys|]. split; [reflexivity|].
    intros i key u Hi. discriminate Hi.
  - cbn [for_each] in Hrun. apply bind_ok in Hrun as (users1 & k1 & Hstep & Hrest).
    apply bind_ok in Hstep as (e & k2 & He & Hret). injection Hret as <- <-.
    assert (Hnd' : List.NoDup (map fst users)) by (rewrite Hkeys; exact Hnd).
    assert (Hin : In key (map fst users)).
    { rewrite Hkeys, map_app. apply in_or_app. right. left. reflexivity. }
    assert (Hfresh : ~ In key (map fst todo)).
    { rewrite map_app in Hnd. apply NoDup_app_remove_l in Hnd.
      inversion Hnd as [|? ? Hnotin _]; subst. exact Hnotin. }
    replace (done ++ (key, u) :: todo) with ((done ++ [(key, u)]) ++ todo) in *
      by (rewrite <- app_assoc; reflexivity).
    assert (Hlen : length (done ++ [(key, u)]) = S (length done))
      by (rewrite length_app; cbn; lia).
    destruct (IH (done ++ [(key, u)]) (dict_set users key e) k2 out k' Hnd)
      as (Hk & Hdone & Htodo).
    + rewrite dict_set_keys by exact Hin. exact Hkeys.
    + intros i key' u' Hi. rewrite Hlen.
      specialize (Hsame (S i) key' u' Hi).
      replace (S (length done) + i)%nat with (length done + S i)%nat by lia.
      rewrite (dict_set_lookup users key e _ key' u' Hnd' Hsame).
      destruct (decide (key' = key)) as [->|]; [|reflexivity].
      exfalso. apply Hfresh.
      apply in_map_iff. exists (key, u'). split; [reflexivity|].
      apply list_elem_of_In. eapply list_elem_of_lookup_2. exact Hi.
    + exact Hrest.
    + split; [exact Hk|]. split.
      * intros i Hi. rewrite Hdone by lia.
        destruct (users !! i) as [[ki ui]|] eqn:Hui.
        { rewrite (dict_set_lookup users key e i ki ui Hnd' Hui).
          destruct (decide (ki = key)) as [->|]; [|reflexivity].
          exfalso. pose proof (Hsame 0%nat key u eq_refl) as H0.
          rewrite Nat.add_0_r in H0.
          assert (Hfst : map fst users !! i = Some key)
            by (rewrite list_lookup_fmap, Hui; reflexivity).
          assert (Hfst' : map fst users !! length done = Some key)
            by (rewrite list_lookup_fmap, H0; reflexivity).
          apply NoDup_ListNoDup in Hnd'.
          pose proof (NoDup_lookup _ _ _ _ Hnd' Hfst Hfst'). lia. }
        { apply lookup_ge_None in Hui. apply lookup_ge_None.
          assert (L : length (dict_set users key e) = length users).
          { rewrite <- (length_map fst), dict_set_keys, length_map by exact Hin.
            reflexivity. }
          lia. }
      * intros [|i] key' u' Hi.
        { injection Hi as <- <-. exists e. split; [|eapply enhance_user_run; exact He].
          rewrite Nat.add_0_r, Hdone by lia.
          pose proof (Hsame 0%nat key u eq_refl) as H0. rewrite Nat.add_0_r in H0.
          rewrite (dict_set_lookup users key e _ key u Hnd' H0).
          rewrite decide_True by reflexivity. reflexivity. }
        { destruct (Htodo i key' u' Hi) as (e' & He' & Hfrom).
          exists e'. split; [|exact Hfrom].
          replace (length done + S i)%nat with (length (done ++ [(key, u)]) + i)%nat
            by lia.
          exact He'. }
Qed.

(** X24.  When [enhance_population_data] returns, the dictionary has its keys in
    their order, and under each key the user as enhanced from the one that
    was there. *)
Theorem enhance_population_users (users : list (K * UserData)) (k : nat)
    (out : list (K * UserData)) (k' : nat) :
  List.NoDup (map fst users) ->
  enhance_population_data np_pi np_cos rs users k = Ok (out, k') ->
  map fst out = map fst users
  /\ forall i key u, users !! i = Some (key, u) ->
       exists e, out !! i = Some (key, e) /\ enhanced_from u e.
Proof.
  intros Hnd Hrun. unfold enhance_population_data in Hrun.
  destruct (enhance_loop users [] users k out k' Hnd eq_refl) as (Hk & _ & Hall).
  - intros i key u Hi. exact Hi.
  - exact Hrun.
  - split; [exact Hk|exact Hall].
Qed.

(** X25.  With draws in [0, 1) and no more hour indices than samples for any
    user, [enhance_population_data] returns exactly when no user has ten to
    fourteen days of data. *)
Theorem enhance_population_returns (users : list (K * UserData)) (k : nat) :
  unit_draws rs ->
  Forall (fun kv => (length (time_hours (snd kv)) <= length (activity_level (snd kv)))%nat)
         users ->
  is_ok (enhance_population_data np_pi np_cos rs users k) = true
  <-> Forall (fun kv => ~ short_history (snd kv)) users.
Proof.
  intros Hu Hlen. split.
  - intros Hok. apply List.Forall_forall. intros [key u] Hin Hs.
    unfold enhance_population_data in Hok.
    rewrite (for_each_raises users _ (key, u) Hin) in Hok; [discriminate|].
    intros s j. unfold bind.
    pose proof (enhance_user_short u j Hs) as Hr.
    destruct (enhance_user np_pi np_cos rs u j) as [[e j']|err];
      [discriminate|reflexivity].
  - intros Hs. unfold enhance_population_data.
    destruct (for_each_total (fun _ => True) users
                (fun '(user_id, user_data) users =>
                   enhanced_user_data <- enhance_user np_pi np_cos rs user_data ;;
                   ret (dict_set users user_id enhanced_user_data)))
      with (s := users) (k := k) as (out & k' & Hrun & _).
    + intros [key u] s j Hin _.
      rewrite List.Forall_forall in Hlen, Hs.
      destruct (enhance_user_total u j Hu (Hlen _ Hin) (Hs _ Hin)) as (e & j' & He).
      rewrite (bind_step _ _ _ _ _ He). eexists; eexists. split; [reflexivity|exact I].
    + exact I.
    + rewrite Hrun. reflexivity.
Qed.

End Enhance.

Lemma enhance_population_users_witness :
  exists (out : list (Z * UserData)) (k' : nat),
    enhance_population_data (22 # 7) example_cos example_draws example_users 0%nat
      = Ok (out, k')
    /\ map fst out = [0; 1]%Z
    /\ forall i key u, example_users !! i = Some (key, u) ->
         exists e, out !! i = Some (key, e) /\ enhanced_from u e.
Proof.
  destruct (enhance_population_data (22 # 7) example_cos example_draws example_users 0%nat)
    as [[out k']|e] eqn:Hrun.
  - exists out, k'. split; [reflexivity|].
    apply (enhance_population_users (22 # 7) example_cos example_draws
             example_users 0%nat out k'); [|exact Hrun].
    vm_compute. repeat constructor; cbn; intuition discriminate.
  - vm_compute in Hrun. discriminate Hrun.
Defined.

Lemma enhance_population_returns_witness :
  is_ok (enhance_population_data (22 # 7) example_cos example_draws example_users 0%nat)
    = true
  /\ is_ok (enhance_population_data (22 # 7) example_cos example_draws short_users 0%nat)
    = false.
Proof.
  assert (Hunit : unit_draws example_draws)
    by (intros k; split; discriminate).
  assert (H1 : days_of (time_hours (flat_user 1)) = 1%Z) by (vm_compute; reflexivity).
  assert (H12 : days_of (time_hours (flat_user 12)) = 12%Z) by (vm_compute; reflexivity).
  assert (H15 : days_of (time_hours (flat_user 15)) = 15%Z) by (vm_compute; reflexivity).
  split.
  - apply (enhance_population_returns (22 # 7) example_cos example_draws
             example_users 0%nat Hunit).
    + repeat constructor; vm_compute; discriminate.
    + repeat constructor; unfold short_history; cbn [snd]; rewrite ?H1, ?H15; lia.
  - destruct (is_ok (enhance_population_data (22 # 7) example_cos example_draws
                       short_users 0%nat)) eqn:Hok; [|reflexivity].
    apply (enhance_population_returns (22 # 7) example_cos example_draws
             short_users 0%nat Hunit) in Hok.
    + inversion Hok as [|? ? _ Hrest]; subst. inversion Hrest as [|? ? Hs _]; subst.
      exfalso. apply Hs. unfold short_history. cbn [snd]. rewrite H12. lia.
    + repeat constructor; vm_compute; discriminate.
Defined.

End PipelineFacts.

Module MLFeaturesFacts.
Import Py Perturbation Pipeline MLFeatures PyFacts PerturbationFacts PipelineFacts.

Lemma add_user_features_enhanced (u e : UserData) (f : Features) (lens : list nat) :
  enhanced_from u e -> row_lengths f lens ->
  exists f', add_user_features e f = Ok f'
             /\ row_lengths f' (lens ++ [length (activity_level u)])
             /\ basic_circadian f' = basic_circadian f ++ [activity_level u]
             /\ chronotype_labels f'
                = chronotype_labels f ++ [chronotype_map (chronotype u)]
             /\ map m_user_id (user_metadata f')
                = map m_user_id (user_metadata f) ++ [user_id u].
Proof.
  intros (Hc & Hid & _ & Ha & _ & _ & (a & b & c & d & Ea & Eb & Ec & Ed
                                      & [La _] & [Lb _] & [Lc _] & [Ld _]) & _)
         (R0 & R1 & R2 & R3 & R4).
  unfold add_user_features. rewrite Ea, Eb, Ec, Ed. cbn [item].
  eexists. split; [reflexivity|].
  unfold row_lengths.
  cbn [basic_circadian f_with_social_jetlag f_with_stress f_with_seasonal
       f_with_jetlag chronotype_labels user_metadata].
  rewrite !map_app, R0, R1, R2, R3, R4, Ha, Hc, Hid. cbn [map m_user_id].
  rewrite La, Lb, Lc, Ld. repeat split.
Qed.

Lemma features_loop_enhanced {K} (users out : list (K * UserData)) :
  Forall2 (fun kv kv' => enhanced_from (snd kv) (snd kv')) users out ->
  forall (f : Features) (lens : list nat),
    row_lengths f lens ->
    exists f', features_loop out f = Ok f'
               /\ row_lengths f' (lens ++ map (fun kv => length (activity_level (snd kv)))
                                             users)
               /\ basic_circadian f'
                  = basic_circadian f ++ map (fun kv => activity_level (snd kv)) users
               /\ chronotype_labels f'
                  = chronotype_labels f
                    ++ map (fun kv => chronotype_map (chronotype (snd kv))) users
               /\ map m_user_id (user_metadata f')
                  = map m_user_id (user_metadata f)
                    ++ map (fun kv => user_id (snd kv)) users.
Proof.
  induction 1 as [|[key u] [key' e] users out He _ IH]; intros f lens Hf.
  - exists f. cbn [features_loop map]. rewrite !app_nil_r.
    split; [reflexivity|]. split; [exact Hf|]. repeat split.
  - cbn [snd] in He.
    destruct (add_user_features_enhanced u e f lens He Hf)
      as (f1 & H1 & R1 & B1 & C1 & M1).
    destruct (IH f1 _ R1) as (f' & H' & R' & B' & C' & M').
    exists f'. cbn [features_loop]. rewrite H1. split; [exact H'|].
    cbn [map snd]. rewrite B', C', M', B1, C1, M1, <- !app_assoc.
    rewrite <- app_assoc in R'. split; [exact R'|]. repeat split.
Qed.

Lemma np_array_rectangular (rows : list (list Q)) (n : nat) :
  Forall (fun r => length r = n) rows -> np_array rows = Ok rows.
Proof.
  intros Hall. destruct rows as [|row rows]; [reflexivity|].
  inversion Hall as [|? ? Hrow Hrows]; subst. unfold np_array.
  assert (E : forallb (fun r => (length r =? length row)%nat) rows = true).
  { apply forallb_forall. intros r Hr. apply Nat.eqb_eq.
    rewrite List.Forall_forall in Hrows. apply Hrows, Hr. }
  rewrite E. reflexivity.
Qed.

Lemma np_array_ragged (rows : list (list Q)) (r1 r2 : list Q) :
  In r1 rows -> In r2 rows -> length r1 <> length r2 ->
  np_array rows = Raise "ValueError".
Proof.
  intros H1 H2 Hne. destruct rows as [|row rows]; [destruct H1|].
  unfold np_array.
  destruct (forallb (fun r => (length r =? length row)%nat) rows) eqn:E;
    [|reflexivity].
  exfalso. rewrite forallb_forall in E.
  assert (Hall : forall r, In r (row :: rows) -> length r = length row).
  { intros r [<-|Hr]; [reflexivity|]. apply Nat.eqb_eq, E, Hr. }
  apply Hne. rewrite (Hall r1 H1), (Hall r2 H2). reflexivity.
Qed.

Section Enhance.
Variable np_pi : Q.
Variable np_cos : Q -> Q.
Variable rs : RandomSource.
Variable np_bincount : list Z -> Result (list Z).
Context {K : Type} `{EqDecision K}.

(** X26.  On what [enhance_population_data] returned the loop of
    [create_ml_features] meets no missing key.  When the base signals of
    all users have one length and [np.bincount] accepts the labels, the
    function returns: one entry per user in the order of the dictionary,
    the label 0, 1 or 2 for early, intermediate and late, and five signal
    matrices of one shape.  When two users have base signals of different
    lengths it raises [ValueError]. *)
Theorem enhanced_population_has_features (users : list (K * UserData)) (k : nat)
    (out : list (K * UserData)) (k' : nat) :
  List.NoDup (map fst users) ->
  enhance_population_data np_pi np_cos rs users k = Ok (out, k') ->
  (forall (n : nat) (counts : list Z),
     Forall (fun kv => length (activity_level (snd kv)) = n) users ->
     np_bincount (map (fun kv => chronotype_map (chronotype (snd kv))) users)
       = Ok counts ->
     exists f,
       create_ml_features np_bincount out = Ok f
       /\ row_lengths f (repeat n (length users))
       /\ basic_circadian f = map (fun kv => activity_level (snd kv)) users
       /\ chronotype_labels f
          = map (fun kv => chronotype_map (chronotype (snd kv))) users
       /\ map m_user_id (user_metadata f) = map (fun kv => user_id (snd kv)) users)
  /\ (forall kv1 kv2,
        In kv1 users -> In kv2 users ->
        length (activity_level (snd kv1)) <> length (activity_level (snd kv2)) ->
        create_ml_features np_bincount out = Raise "ValueError").
Proof.
  intros Hnd Hrun.
  destruct (enhance_loop np_pi np_cos rs users [] users k out k' Hnd eq_refl)
    as (Hk & _ & Hall); [intros i key u Hi; exact Hi|exact Hrun|].
  cbn [app length Nat.add] in Hk, Hall.
  assert (H2 : Forall2 (fun kv kv' => enhanced_from (snd kv) (snd kv')) users out).
  { apply Forall2_same_length_lookup_2.
    - rewrite <- (length_map fst users), <- Hk, length_map. reflexivity.
    - intros i [key u] [key' e] Hu He.
      destruct (Hall i key u Hu) as (e' & He' & Hfrom).
      rewrite He in He'. injection He' as -> ->. exact Hfrom. }
  destruct (features_loop_enhanced users out H2 no_features [])
    as (f & Hf & R & B & C & M); [repeat split|].
  cbn [app no_features basic_circadian chronotype_labels user_metadata map]
    in R, B, C, M.
  unfold create_ml_features. rewrite Hf. split.
  - intros n counts Hlen Hcounts.
    assert (Hlens : map (fun kv : K * UserData => length (activity_level (snd kv))) users
                    = repeat n (length users)).
    { clear -Hlen. induction Hlen as [|kv l Hkv _ IH]; [reflexivity|].
      cbn [map length repeat]. rewrite Hkv, IH. reflexivity. }
    rewrite Hlens in R. destruct R as (R0 & R1 & R2 & R3 & R4).
    assert (Hrect : forall rows : list (list Q),
               map length rows = repeat n (length users) ->
               np_array rows = Ok rows).
    { intros rows Hrows. apply (np_array_rectangular rows n).
      apply List.Forall_forall. intros r Hr.
      assert (Hin : In (length r) (map length rows)) by (apply in_map; exact Hr).
      rewrite Hrows in Hin. apply repeat_spec in Hin. exact Hin. }
    rewrite (Hrect _ R0), (Hrect _ R1), (Hrect _ R2), (Hrect _ R3), (Hrect _ R4).
    rewrite C, Hcounts. eexists. split; [reflexivity|].
    unfold row_lengths.
    cbn [basic_circadian f_with_social_jetlag f_with_stress f_with_seasonal
         f_with_jetlag chronotype_labels user_metadata].
    rewrite R0, R1, R2, R3, R4. repeat split; assumption.
  - intros kv1 kv2 H1 H2' Hne.
    rewrite (np_array_ragged (basic_circadian f) (activity_level (snd kv1))
               (activity_level (snd kv2))); [reflexivity| | |exact Hne].
    + rewrite B. apply (in_map (fun kv => activity_level (snd kv))), H1.
    + rewrite B. apply (in_map (fun kv => activity_level (snd kv))), H2'.
Qed.

End Enhance.

(** X27.  On users that were not enhanced [create_ml_features] raises
    [KeyError] at the first of them. *)
Theorem create_ml_features_needs_enhancement {K}
    (np_bincount : list Z -> Result (list Z)) (key : K) (u : UserData)
    (users : list (K * UserData)) :
  activity_level_with_social_jetlag u = None
  \/ activity_level_with_stress u = None
  \/ activity_level_with_seasonal u = None
  \/ activity_level_with_jetlag u = None ->
  create_ml_features np_bincount ((key, u) :: users) = Raise "KeyError".
Proof.
  intros Hmiss. unfold create_ml_features. cbn [features_loop].
  unfold add_user_features.
  destruct (activity_level_with_social_jetlag u); [|reflexivity].
  destruct (activity_level_with_stress u); [|reflexivity].
  destruct (activity_level_with_seasonal u); [|reflexivity].
  destruct (activity_level_with_jetlag u); [|reflexivity].
  destruct Hmiss as [H|[H|[H|H]]]; discriminate H.
Qed.

Lemma create_ml_features_needs_enhancement_witness :
  create_ml_features Cleaning.example_bincount example_users = Raise "KeyError".
Proof.
  apply (create_ml_features_needs_enhancement Cleaning.example_bincount
           0 (flat_user 1) [(1, flat_user 15)]).
  left. reflexivity.
Defined.

Lemma enhanced_population_has_features_witness :
  (exists (out : list (Z * UserData)) (k' : nat) (f : Features),
     enhance_population_data (22 # 7) example_cos example_draws even_users 0%nat
       = Ok (out, k')
     /\ create_ml_features Cleaning.example_bincount out = Ok f
     /\ chronotype_labels f = [2; 2]
     /\ row_lengths f [360%nat; 360%nat])
  /\ (exists (out : list (Z * UserData)) (k' : nat),
        enhance_population_data (22 # 7) example_cos example_draws example_users 0%nat
          = Ok (out, k')
        /\ create_ml_features Cleaning.example_bincount out = Raise "ValueError").
Proof.
  split.
  - destruct (enhance_population_data (22 # 7) example_cos example_draws even_users 0%nat)
      as [[out k']|e] eqn:Hrun.
    + destruct (enhanced_population_has_features (22 # 7) example_cos example_draws
                  Cleaning.example_bincount even_users 0%nat out k') as [Hrect _].
      * vm_compute. repeat constructor; cbn; intuition discriminate.
      * exact Hrun.
      * destruct (Hrect 360%nat [0; 0; 2]) as (f & Hf & R & _ & C & _).
        { repeat constructor. }
        { reflexivity. }
        exists out, k', f. split; [reflexivity|]. split; [exact Hf|].
        split; [exact C|exact R].
    + vm_compute in Hrun. discriminate Hrun.
  - destruct (enhance_population_data (22 # 7) example_cos example_draws example_users 0%nat)
      as [[out k']|e] eqn:Hrun.
    + destruct (enhanced_population_has_features (22 # 7) example_cos example_draws
                  Cleaning.example_bincount example_users 0%nat out k') as [_ Hragged].
      * vm_compute. repeat constructor; cbn; intuition discriminate.
      * exact Hrun.
      * exists out, k'. split; [reflexivity|].
        apply (Hragged (0, flat_user 1) (1, flat_user 15)).
        { left. reflexivity. }
        { right. left. reflexivity. }
        { vm_compute. discriminate. }
    + vm_compute in Hrun. discriminate Hrun.
Defined.

End MLFeaturesFacts.
